(** * Expense-management backend: budget alerts, forecast, anomaly
      detection and category fallback

    A shallow embedding of the computational core of
    [backend/src/services/aiService.js] (classes [AIService] and
    [BudgetService]), of the part of [emailService.js] the alert check calls,
    and of the [budgetUtilization] virtual of the Team model.

    Modelling conventions.
    - JavaScript numbers are embedded twice.  The modules [Team],
      [BudgetService], [Forecast] and [AIService] compute on exact rationals
      ([Q]): this is what the code computes where its numbers and the
      results of its operations are representable.  The modules [Binary64]
      and [Double] embed the spending trend and the anomaly detection with
      the arithmetic of the code, IEEE 754 binary64, and the statements
      about the cutoffs of these functions are made there.  Integer-valued
      numbers (utilization percentages, lengths, edit distances, timestamps
      in milliseconds) are [Z] or [nat].
    - JavaScript strings are [string]s of 8-bit characters;
      [AIService.toLowerCase] acts on the ASCII letters, and [Double] takes
      [toLowerCase] as a parameter.
    - A promise that resolves or rejects is a [Completion]: [Returned v] or
      [Threw].
    - Database queries are inputs: the document of the team under evaluation
      is an [option Team], the result of an [Expense.find] is the list of
      expenses it returned, in the order it returned them.  [save] validates
      the document before its hook runs and throws when a [min: 0] field is
      negative. *)

From Stdlib Require Import Ascii String.
From Stdlib Require Import List Bool Arith ZArith QArith Qround Qabs Qminmax.
From Stdlib Require Import Lia Lqa Permutation Sorted SpecFloat.
Import ListNotations.

Set Implicit Arguments.

#[local] Open Scope Q_scope.

(** ** JavaScript helpers *)

Module Js.

Inductive Completion (A : Type) : Type :=
| Returned (a : A)
| Threw.
Arguments Threw {A}.

(** [x < y] on numbers, as a boolean. *)
Definition ltb (x y : Q) : bool := negb (Qle_bool y x).
Definition leb (x y : Q) : bool := Qle_bool x y.

(** [Math.round]: nearest integer, halves towards plus infinity. *)
Definition round (x : Q) : Z := Qfloor (x + (1 # 2)).

(** [Math.max] and [Math.min] on two numbers. *)
Definition max (x y : Q) : Q := if ltb x y then y else x.
Definition min (x y : Q) : Q := if ltb y x then y else x.

(** [Math.floor(n * (k / 4))] for a length [n]: exact on integers. *)
Definition floor_quarters (k n : nat) : nat := (k * n / 4)%nat.

(** [arr.reduce((sum, x) => sum + x, 0)]. *)
Definition sum (l : list Q) : Q := fold_left Qplus l 0.

End Js.

Import Js.

(** ** emailService.js: [sendBudgetAlert] *)

Module EmailService.

Inductive Provider := ConsoleLog | Brevo | Backup.

(** The object [sendBudgetAlert] resolves to ([messageId], [error] and
    [fallback] carry no decision and are left out). *)
Record SendResult := { success : bool; provider : option Provider }.

(** The fields of the service the send path reads. *)
Record t := {
  isBrevoConfigured : bool;
  isBackupConfigured : bool;
  brevoApi : bool  (* [this.brevoApi] is set *)
}.

(** What one call meets outside the service: whether the mail can be built
    from the team document, and whether each transport delivers.
    [prepareBudgetAlertEmail] reads every element of [team.members]
    ([getTeamManagerEmails]) and throws on an array that holds [null]. *)
Record Network := {
  prepare_ok : bool;
  brevo_ok : bool;
  backup_ok : bool
}.

Definition prepareBudgetAlertEmail (net : Network) : Completion unit :=
  if prepare_ok net then Returned tt else Threw.

(** [logEmailToConsole] maps [m.email] over the same [team.members]: it
    throws where [prepareBudgetAlertEmail] does. *)
Definition logEmailToConsole (net : Network) : Completion unit :=
  if prepare_ok net then Returned tt else Threw.

(** The [catch] block of [sendBudgetAlert]: the result it returns holds
    the value of [logEmailToConsole], whose exception is not caught. *)
Definition allFailed (net : Network) : Completion SendResult :=
  match logEmailToConsole net with
  | Returned _ => Returned {| success := false; provider := None |}
  | Threw => Threw
  end.

(** [sendBudgetAlert]: a failure of a transport is caught and reported in
    the result; when the mail cannot be built the promise rejects. *)
Definition sendBudgetAlert (es : t) (net : Network) : Completion SendResult :=
  if negb (isBrevoConfigured es) && negb (isBackupConfigured es) then
    Returned {| success := true; provider := Some ConsoleLog |}
  else
    match prepareBudgetAlertEmail net with
    | Threw => allFailed net
    | Returned _ =>
        if brevoApi es && isBrevoConfigured es && brevo_ok net then
          Returned {| success := true; provider := Some Brevo |}
        else if backup_ok net then
          Returned {| success := true; provider := Some Backup |}
        else allFailed net
    end.

(** The promise of [sendBudgetAlert] resolves. *)
Definition resolves (es : t) (net : Network) : bool :=
  match sendBudgetAlert es net with
  | Returned _ => true
  | Threw => false
  end.

(** Delivery failed: the call resolved with [success: false]. *)
Definition deliveryFailed (es : t) (net : Network) : Prop :=
  exists r, sendBudgetAlert es net = Returned r /\ success r = false.

End EmailService.

(** ** models: Team *)

Module Team.

Record AlertsSent := { warning : bool; critical : bool }.

Record t := {
  isActive : bool;
  budget : Q;
  totalSpent : Q;
  alertsSent : AlertsSent
}.

(** The [budgetUtilization] virtual. *)
Definition budgetUtilization (team : t) : Z :=
  if ltb 0 (budget team)
  then round (totalSpent team / budget team * 100)
  else 0%Z.

Definition setTotalSpent (total : Q) (team : t) : t :=
  {| isActive := isActive team; budget := budget team;
     totalSpent := total; alertsSent := alertsSent team |}.

Definition setAlertsSent (a : AlertsSent) (team : t) : t :=
  {| isActive := isActive team; budget := budget team;
     totalSpent := totalSpent team; alertsSent := a |}.

(** The validators of the schema on the modelled fields: [budget] and
    [totalSpent] have [min: 0]. *)
Definition valid (team : t) : bool :=
  leb 0 (budget team) && leb 0 (totalSpent team).

(** The [pre("save")] hook. *)
Definition preSave (team : t) : t :=
  if ltb (totalSpent team) 0 then setTotalSpent 0 team else team.

(** [team.save()]: the document is validated, then the hook runs and the
    document is written; a validation error rejects the promise. *)
Definition save (team : t) : Completion t :=
  if valid team then Returned (preSave team) else Threw.

(** [updateTotalSpent], given the sum the aggregate query returns. *)
Definition updateTotalSpent (approvedTotal : Q) (team : t) : Completion t :=
  save (setTotalSpent approvedTotal team).

End Team.

(** ** BudgetService: alert check *)

Module BudgetService.

Import Team.

Record t := { WARNING_THRESHOLD : Z; CRITICAL_THRESHOLD : Z }.

(** [parseInt(env) || dflt]: an unset or non-numeric variable gives [NaN],
    and both [NaN] and [0] are falsy. *)
Definition parseIntOr (env : option Z) (dflt : Z) : Z :=
  match env with
  | Some 0%Z | None => dflt
  | Some n => n
  end.

Definition constructor (envWarning envCritical : option Z) : t :=
  {| WARNING_THRESHOLD := parseIntOr envWarning 80;
     CRITICAL_THRESHOLD := parseIntOr envCritical 100 |}.

Definition defaults : t := constructor None None.

Inductive AlertType := warningAlert | criticalAlert.

Record Alert := { type : AlertType; threshold : Z; utilization : Z }.

Inductive CheckResult :=
| Failure                               (* [{success: false, message}] *)
| Success (u : Z) (alertsSent : list Alert).

Definition alertsOf (r : CheckResult) : list Alert :=
  match r with
  | Failure => []
  | Success _ a => a
  end.

(** Lines 531-568 of [checkBudgetAlerts]: the decision on the utilization
    and the flags, with the notifier's completion for this call. *)
Definition decide (svc : t) (sent : Completion EmailService.SendResult)
    (u : Z) (flags : AlertsSent) : list Alert * AlertsSent :=
  let '(alerts, flags) :=
    if (CRITICAL_THRESHOLD svc <=? u)%Z && negb (critical flags) then
      match sent with
      | Returned _ =>
          ([{| type := criticalAlert; threshold := CRITICAL_THRESHOLD svc;
               utilization := u |}],
           {| warning := warning flags; critical := true |})
      | Threw => ([], flags)
      end
    else if (WARNING_THRESHOLD svc <=? u)%Z && negb (warning flags) then
      match sent with
      | Returned _ =>
          ([{| type := warningAlert; threshold := WARNING_THRESHOLD svc;
               utilization := u |}],
           {| warning := true; critical := critical flags |})
      | Threw => ([], flags)
      end
    else ([], flags) in
  if (u <? WARNING_THRESHOLD svc)%Z
  then (alerts, {| warning := false; critical := false |})
  else (alerts, flags).

(** The alert an evaluation decides on: the conditions of the [if] and the
    [else if] above. *)
Definition decidedLevel (svc : t) (u : Z) (flags : AlertsSent)
    : option AlertType :=
  if (CRITICAL_THRESHOLD svc <=? u)%Z && negb (critical flags)
  then Some criticalAlert
  else if (WARNING_THRESHOLD svc <=? u)%Z && negb (warning flags)
  then Some warningAlert
  else None.

Definition alertFor (svc : t) (k : AlertType) (u : Z) : Alert :=
  match k with
  | criticalAlert =>
      {| type := criticalAlert; threshold := CRITICAL_THRESHOLD svc;
         utilization := u |}
  | warningAlert =>
      {| type := warningAlert; threshold := WARNING_THRESHOLD svc;
         utilization := u |}
  end.

(** One evaluation's inputs from outside: the total of the approved
    expenses the aggregate returns and the network's behaviour. *)
Record Input := { approvedTotal : Q; network : EmailService.Network }.

(** [checkBudgetAlerts(teamId)] on the stored document of that team;
    returns the result and the document as stored afterwards.  An
    exception of [updateTotalSpent] or of the final [save] is caught by the
    outer [catch]. *)
Definition checkBudgetAlerts (svc : t) (es : EmailService.t) (inp : Input)
    (store : option Team.t) : CheckResult * option Team.t :=
  match store with
  | None => (Failure, store)
  | Some team =>
      if negb (isActive team) then (Failure, store)
      else
        match updateTotalSpent (approvedTotal inp) team with
        | Threw => (Failure, store)
        | Returned team =>
            let u := budgetUtilization team in
            let '(alerts, flags) :=
              decide svc (EmailService.sendBudgetAlert es (network inp)) u
                     (alertsSent team) in
            match save (setAlertsSent flags team) with
            | Threw => (Failure, Some team)
            | Returned team => (Success u alerts, Some team)
            end
        end
  end.

(** Successive evaluations on the same team. *)
Fixpoint checkRepeatedly (svc : t) (es : EmailService.t) (inps : list Input)
    (store : option Team.t) : list CheckResult * option Team.t :=
  match inps with
  | [] => ([], store)
  | inp :: rest =>
      let '(r, store) := checkBudgetAlerts svc es inp store in
      let '(rs, store) := checkRepeatedly svc es rest store in
      (r :: rs, store)
  end.

(** The utilization an evaluation sees. *)
Definition utilizationAt (team : Team.t) (inp : Input) : Z :=
  budgetUtilization (setTotalSpent (approvedTotal inp) team).

(** The saves of an evaluation pass validation. *)
Definition savesPass (team : Team.t) (inp : Input) : bool :=
  Team.valid (setTotalSpent (approvedTotal inp) team).

(** The evaluation runs to its end: its saves pass validation and its
    notifier call, if it makes one, returns. *)
Definition completes (es : EmailService.t) (team : Team.t) (inp : Input)
    : bool :=
  savesPass team inp && EmailService.resolves es (network inp).

Definition events (rs : list CheckResult) : list (list Alert) :=
  map alertsOf rs.

Definition isType (k : AlertType) (a : Alert) : bool :=
  match k, type a with
  | warningAlert, warningAlert | criticalAlert, criticalAlert => true
  | _, _ => false
  end.

Definition countType (k : AlertType) (evs : list (list Alert)) : nat :=
  length (filter (isType k) (concat evs)).

Definition flagOf (k : AlertType) (flags : AlertsSent) : bool :=
  match k with
  | warningAlert => warning flags
  | criticalAlert => critical flags
  end.

(** The decision when the notifier call returns, whatever it returns. *)
Definition decided (svc : t) (u : Z) (flags : AlertsSent)
    : list Alert * AlertsSent :=
  decide svc (Returned {| EmailService.success := true;
                          EmailService.provider := None |}) u flags.

(** The events of [n] evaluations at a constant utilization when every
    notifier call returns. *)
Fixpoint trace (svc : t) (u : Z) (n : nat) (flags : AlertsSent)
    : list (list Alert) :=
  match n with
  | O => []
  | S n => fst (decided svc u flags)
           :: trace svc u n (snd (decided svc u flags))
  end.

End BudgetService.

(** ** models: Expense *)

Module Expense.

(** The fields the analysis reads; [date] is the time value of the
    [Date], in milliseconds since the epoch. *)
Record t := {
  _id : nat;
  amount : Q;
  description : string;
  date : Z
}.

End Expense.

(** ** BudgetService: forecast *)

Module Forecast.

Import Expense.

Definition msPerDay : Z := 1000 * 60 * 60 * 24.

(** [date.toISOString().split('T')[0]]: the UTC calendar day, kept as the
    day number.  For the dates of the years 0000 to 9999 the keys have the
    form [YYYY-MM-DD] and compare as the day numbers do; the order of the
    days is embedded for these dates. *)
Definition dateKey (d : Z) : Z := (d / msPerDay)%Z.

Record Day := { day : Z; dayAmount : Q }.

(** [dailyTotals[dateKey] += amount] on an object whose entries are kept
    in insertion order; a missing or zero entry is first set to [0]. *)
Fixpoint addToDay (key : Z) (amt : Q) (o : list Day) : list Day :=
  match o with
  | [] => [{| day := key; dayAmount := 0 + amt |}]
  | d :: rest =>
      if (day d =? key)%Z
      then {| day := key;
              dayAmount := (if Qeq_bool (dayAmount d) 0 then 0
                            else dayAmount d) + amt |} :: rest
      else d :: addToDay key amt rest
  end.

(** [sort((a, b) => a.date.localeCompare(b.date))], stable, on keys of
    the form [YYYY-MM-DD]. *)
Fixpoint insertDay (x : Day) (l : list Day) : list Day :=
  match l with
  | [] => [x]
  | y :: rest =>
      if (day x <=? day y)%Z then x :: l else y :: insertDay x rest
  end.

Definition sortDays (l : list Day) : list Day := fold_right insertDay [] l.

Definition groupExpensesByDay (expenses : list Expense.t) : list Day :=
  let dailyTotals :=
    fold_left (fun o e => addToDay (dateKey (date e)) (amount e) o)
              expenses [] in
  sortDays dailyTotals.

Inductive Direction :=
  no_data | insufficient_data | stable | increasing | decreasing.

(** ['low'], ['medium'], ['high'], or the number [0] of the
    insufficient-data result. *)
Inductive Strength := strength0 | low | medium | high.

Record Trend := {
  direction : Direction;
  strength : Strength;
  percentageChange : option Q
}.

Definition ofNat (n : nat) : Q := inject_Z (Z.of_nat n).

Definition sumDays (l : list Day) : Q :=
  fold_left (fun sum d => sum + dayAmount d) l 0.

Definition calculateSpendingTrend (dailyTotals : list Day) : Trend :=
  if (length dailyTotals <? 3)%nat then
    {| direction := insufficient_data; strength := strength0;
       percentageChange := None |}
  else
    let firstHalf := firstn (length dailyTotals / 2) dailyTotals in
    let secondHalf := skipn (length dailyTotals / 2) dailyTotals in
    let firstHalfAvg := sumDays firstHalf / ofNat (length firstHalf) in
    let secondHalfAvg := sumDays secondHalf / ofNat (length secondHalf) in
    let difference := secondHalfAvg - firstHalfAvg in
    let percentageChange :=
      Qabs difference / Js.max firstHalfAvg 1 * 100 in
    if ltb (firstHalfAvg * (1 # 10)) (Qabs difference) then
      {| direction := if ltb 0 difference then increasing else decreasing;
         strength := if ltb 50 percentageChange then high
                     else if ltb 20 percentageChange then medium
                     else low;
         percentageChange := Some percentageChange |}
    else
      {| direction := stable; strength := low;
         percentageChange := Some percentageChange |}.

Inductive RecType := recCritical | recWarning | recInfo | recPositive.

Definition generateRecommendations (svc : BudgetService.t)
    (projectedUtilization : Z) (trend : Trend) (currentUtilization : Z)
    : list RecType :=
  (if (100 <? projectedUtilization)%Z then [recCritical]
   else if (BudgetService.WARNING_THRESHOLD svc <=? projectedUtilization)%Z
        then [recWarning] else [])
  ++ (match direction trend, strength trend with
      | increasing, low => []
      | increasing, _ => [recInfo]
      | _, _ => []
      end)
  ++ (if (currentUtilization <? 50)%Z && (projectedUtilization <? 70)%Z
      then [recPositive] else []).

Inductive Confidence := confLow | confMedium | confHigh.

Record t := {
  forecastPeriodDays : Q;
  avgDailySpending : option Q;
  projectedSpending : Q;
  projectedTotal : Q;
  projectedUtilization : Z;
  isOverBudgetRisk : bool;
  willExceedWarning : option bool;
  confidence : Confidence;
  trend : Direction;
  trendStrength : option Strength;
  recommendations : option (list RecType)
}.

(** [calculateBudgetForecast], on the team document and the approved
    expenses of the last 30 days the query returns (by ascending date);
    [None] is the [{success: false}] answer.  The division by the budget
    is the rational one: the model is for teams with a positive budget,
    since with a budget of 0 the code divides by zero and its projected
    utilization is [Infinity] or [NaN]. *)
Definition calculateBudgetForecast (svc : BudgetService.t)
    (store : option Team.t) (recentExpenses : list Expense.t)
    (forecastPeriodDays : Q) : option t :=
  match store with
  | None => None
  | Some team =>
      if negb (Team.isActive team) then None
      else if (length recentExpenses =? 0)%nat then
        Some {| forecastPeriodDays := forecastPeriodDays;
                avgDailySpending := None;
                projectedSpending := 0;
                projectedTotal := Team.totalSpent team;
                projectedUtilization := Team.budgetUtilization team;
                isOverBudgetRisk := false;
                willExceedWarning := None;
                confidence := confLow;
                trend := no_data;
                trendStrength := None;
                recommendations := None |}
      else
        let totalRecentSpending :=
          fold_left (fun sum e => sum + amount e) recentExpenses 0 in
        let daysWithData := Js.max 1 (ofNat (length recentExpenses) / 2) in
        let avgDailySpending := totalRecentSpending / daysWithData in
        let dailyTotals := groupExpensesByDay recentExpenses in
        let trend := calculateSpendingTrend dailyTotals in
        let projectedSpending := avgDailySpending * forecastPeriodDays in
        let projectedTotal := Team.totalSpent team + projectedSpending in
        let projectedUtilization :=
          round (projectedTotal / Team.budget team * 100) in
        let confidence :=
          if (length recentExpenses <? 5)%nat then confLow
          else if (20 <? length recentExpenses)%nat then confHigh
          else confMedium in
        Some {| forecastPeriodDays := forecastPeriodDays;
                avgDailySpending := Some avgDailySpending;
                projectedSpending := projectedSpending;
                projectedTotal := projectedTotal;
                projectedUtilization := projectedUtilization;
                isOverBudgetRisk := (100 <? projectedUtilization)%Z;
                willExceedWarning :=
                  Some (BudgetService.WARNING_THRESHOLD svc
                          <=? projectedUtilization)%Z;
                confidence := confidence;
                trend := direction trend;
                trendStrength := Some (strength trend);
                recommendations :=
                  Some (generateRecommendations svc projectedUtilization
                          trend (Team.budgetUtilization team)) |}
  end.

(** The reading of the specification: the average over the calendar days
    of the window that have an approved expense. *)
Definition totalRecentSpend (expenses : list Expense.t) : Q :=
  Js.sum (map amount expenses).

Definition daysWithData (expenses : list Expense.t) : nat :=
  length (nodup Z.eq_dec (map (fun e => dateKey (date e)) expenses)).

Definition avgDailySpend_spec (expenses : list Expense.t) : Q :=
  totalRecentSpend expenses / Js.max 1 (ofNat (daysWithData expenses)).

(** The reading of the specification for the trend strength: the
    percentage change of the second-half average relative to the
    first-half average. *)
Definition halfAverages (totals : list Day) : Q * Q :=
  let h := (length totals / 2)%nat in
  (Js.sum (map dayAmount (firstn h totals)) / ofNat h,
   Js.sum (map dayAmount (skipn h totals)) / ofNat (length totals - h)).

Definition relativeChangePercent (totals : list Day) : Q :=
  let '(a1, a2) := halfAverages totals in
  Qabs (a2 - a1) / a1 * 100.

Definition strength_spec (totals : list Day) : Strength :=
  if ltb 50 (relativeChangePercent totals) then high
  else if ltb 20 (relativeChangePercent totals) then medium
  else low.

End Forecast.

(** ** AIService *)

Module AIService.

Import Expense.

#[local] Open Scope string_scope.

(** *** Strings *)

Definition lowerChar (c : ascii) : ascii :=
  let n := nat_of_ascii c in
  if ((65 <=? n) && (n <=? 90))%nat then ascii_of_nat (n + 32) else c.

Fixpoint toLowerCase (s : string) : string :=
  match s with
  | EmptyString => EmptyString
  | String c rest => String (lowerChar c) (toLowerCase rest)
  end.

(** [s.includes(kw)]. *)
Fixpoint includes (s kw : string) : bool :=
  String.prefix kw s ||
  match s with
  | EmptyString => false
  | String _ rest => includes rest kw
  end.

(** [arr.join(', ')]. *)
Fixpoint join (l : list string) : string :=
  match l with
  | [] => ""
  | [x] => x
  | x :: rest => x ++ ", " ++ join rest
  end.

(** *** Category fallback *)

Inductive Category :=
| travel | food | supplies | software | hardware | training
| entertainment | other.

Definition categoryKeywords : list (Category * list string) :=
  [ (travel, ["flight"; "hotel"; "uber"; "taxi"; "gas"; "mileage";
              "rental"; "airbnb"; "trip"; "travel"]);
    (food, ["restaurant"; "lunch"; "dinner"; "coffee"; "meal"; "catering";
            "starbucks"; "food"; "eat"]);
    (supplies, ["paper"; "pen"; "office"; "supplies"; "stationery";
                "printer"; "ink"; "materials"]);
    (software, ["subscription"; "license"; "saas"; "software"; "app";
                "service"; "tool"; "platform"]);
    (hardware, ["computer"; "laptop"; "mouse"; "keyboard"; "monitor";
                "device"; "equipment"; "hardware"]);
    (training, ["training"; "course"; "conference"; "workshop";
                "certification"; "learning"; "education"]);
    (entertainment, ["entertainment"; "client"; "team building"; "event";
                     "party"; "celebration"]) ].

Record Suggestion := {
  category : Category;
  confidence : Q;
  reasoning : string
}.

Definition matchesOf (desc : string) (keywords : list string) : list string :=
  filter (fun keyword => includes desc keyword) keywords.

Definition confidenceOf (matches : nat) : Q :=
  Js.min (8 # 10) ((3 # 10) + Forecast.ofNat matches * (2 # 10)).

(** The body of the loop over [Object.entries(categoryKeywords)]. *)
Definition scoreEntry (desc : string) (bestMatch : Suggestion)
    (entry : Category * list string) : Suggestion :=
  let matches := matchesOf desc (snd entry) in
  if (0 <? length matches)%nat then
    let confidence := confidenceOf (length matches) in
    if ltb (AIService.confidence bestMatch) confidence then
      {| category := fst entry;
         confidence := confidence;
         reasoning := "Matched keywords: " ++ join matches |}
    else bestMatch
  else bestMatch.

Definition noMatch : Suggestion :=
  {| category := other; confidence := 1 # 10;
     reasoning := "No clear keywords found" |}.

Definition fallbackScore (table : list (Category * list string))
    (desc : string) : Suggestion :=
  fold_left (scoreEntry desc) table noMatch.

Definition fallbackCategorySuggestion (description : string) : Suggestion :=
  fallbackScore categoryKeywords (toLowerCase description).

(** [suggestCategory] when no classifier is configured
    ([this.openai] is null). *)
Definition suggestCategory_unconfigured (description : string) : Suggestion :=
  fallbackCategorySuggestion description.

(** *** Text similarity *)

Definition min3 (a b c : nat) : nat := Nat.min (Nat.min a b) c.

(** The inner loop over [j = 1..m] for one row [i]: [prevRow] is what is
    left of [matrix[i-1]] from column [j-1] on, [left] is
    [matrix[i][j-1]], [c2] is [str2[i-1]]. *)
Fixpoint fillRow (c2 : ascii) (str1 : string) (prevRow : list nat)
    (left : nat) : list nat :=
  match str1, prevRow with
  | String c1 rest, diag :: ((up :: _) as prevTail) =>
      let cost := if Ascii.eqb c1 c2 then 0 else 1 in
      let v := min3 (up + 1) (left + 1) (diag + cost) in
      v :: fillRow c2 rest prevTail v
  | _, _ => []
  end%nat.

(** The outer loop over [i = 1..n]: the rows [matrix[i]], each starting
    with [i]. *)
Fixpoint fillRows (str1 str2 : string) (i : nat) (prevRow : list nat)
    : list (list nat) :=
  match str2 with
  | EmptyString => []
  | String c2 rest =>
      let row := i :: fillRow c2 str1 prevRow i in
      row :: fillRows str1 rest (S i) row
  end.

(** [matrix]: row [0] is [0..m]. *)
Definition matrix (str1 str2 : string) : list (list nat) :=
  let row0 := seq 0 (S (String.length str1)) in
  row0 :: fillRows str1 str2 1 row0.

Definition editDistance (str1 str2 : string) : nat :=
  nth (String.length str1) (nth (String.length str2) (matrix str1 str2) []) 0%nat.

(** The entry [matrix[i][j]] as a function of the indices: the recurrence
    the two loops implement, [i] counting characters of [str2] and [j]
    characters of [str1]. *)
Definition charAt (k : nat) (s : string) : ascii :=
  match String.get k s with
  | Some c => c
  | None => Ascii.zero
  end.

Definition cost (a b : ascii) : nat := if Ascii.eqb a b then 0%nat else 1%nat.

Fixpoint lev (str1 str2 : string) (i : nat) : nat -> nat :=
  match i with
  | O => fun j => j
  | S i' =>
      fix row (j : nat) : nat :=
        match j with
        | O => S i'
        | S j' =>
            min3 (lev str1 str2 i' (S j') + 1) (row j' + 1)
                 (lev str1 str2 i' j' + cost (charAt j' str1) (charAt i' str2))
        end
  end.

Definition calculateTextSimilarity (str1 str2 : string) : Q :=
  let n := String.length str2 in
  let m := String.length str1 in
  if (n =? 0)%nat then (if (m =? 0)%nat then 1 else 0)
  else if (m =? 0)%nat then 0
  else
    let distance := editDistance str1 str2 in
    let maxLength := Nat.max (String.length str1) (String.length str2) in
    1 - Forecast.ofNat distance / Forecast.ofNat maxLength.

(** *** Suspicious expenses *)

Inductive FindingType := potential_duplicate | high_amount_outlier.

(** A finding; the [reason] text is left out. *)
Record Finding := {
  ftype : FindingType;
  expenses : list nat;
  fconfidence : Q
}.

Definition timeDiff (exp1 exp2 : Expense.t) : Q :=
  inject_Z (Z.abs (date exp1 - date exp2)) / inject_Z Forecast.msPerDay.

Definition descSimilarity (exp1 exp2 : Expense.t) : Q :=
  calculateTextSimilarity (toLowerCase (description exp1))
                          (toLowerCase (description exp2)).

(** The test of the duplicate loop's body. *)
Definition isDuplicate (exp1 exp2 : Expense.t) : bool :=
  ltb (Qabs (amount exp1 - amount exp2)) (1 # 100)
  && leb (timeDiff exp1 exp2) 7
  && ltb (7 # 10) (descSimilarity exp1 exp2).

Definition duplicateFinding (exp1 exp2 : Expense.t) : Finding :=
  {| ftype := potential_duplicate;
     expenses := [_id exp1; _id exp2];
     fconfidence := descSimilarity exp1 exp2 |}.

(** The loop over [j = i+1 ..] for one [exp1]. *)
Fixpoint duplicatesWith (exp1 : Expense.t) (rest : list Expense.t)
    (suspicious : list Finding) : list Finding :=
  match rest with
  | [] => suspicious
  | exp2 :: rest' =>
      duplicatesWith exp1 rest'
        (if isDuplicate exp1 exp2
         then (suspicious ++ [duplicateFinding exp1 exp2])%list
         else suspicious)
  end.

(** The loop over [i]. *)
Fixpoint duplicateLoop (exps : list Expense.t) (suspicious : list Finding)
    : list Finding :=
  match exps with
  | [] => suspicious
  | exp1 :: rest => duplicateLoop rest (duplicatesWith exp1 rest suspicious)
  end.

(** [sort((a, b) => a - b)], stable. *)
Fixpoint insertAmount (x : Q) (l : list Q) : list Q :=
  match l with
  | [] => [x]
  | y :: rest => if leb x y then x :: l else y :: insertAmount x rest
  end.

Definition sortAmounts (l : list Q) : list Q := fold_right insertAmount [] l.

Definition outlierThreshold (exps : list Expense.t) : Q :=
  let amounts := sortAmounts (map amount exps) in
  let q3 := nth (floor_quarters 3 (length amounts)) amounts 0 in
  let q1 := nth (floor_quarters 1 (length amounts)) amounts 0 in
  let iqr := q3 - q1 in
  q3 + (15 # 10) * iqr.

Definition outlierFinding (e : Expense.t) : Finding :=
  {| ftype := high_amount_outlier;
     expenses := [_id e];
     fconfidence := 7 # 10 |}.

Definition outlierLoop (exps : list Expense.t) (suspicious : list Finding)
    : list Finding :=
  if (5 <? length exps)%nat then
    let threshold := outlierThreshold exps in
    fold_left (fun susp e =>
                 if ltb threshold (amount e)
                 then (susp ++ [outlierFinding e])%list else susp)
              exps suspicious
  else suspicious.

(** The [suspicious] array when both checks are done. *)
Definition detected (exps : list Expense.t) : list Finding :=
  outlierLoop exps (duplicateLoop exps []).

Record Report := {
  totalExpensesChecked : nat;
  suspiciousCount : nat;
  suspicious : list Finding
}.

(** [detectSuspiciousExpenses] on the active expenses of the window the
    query returns (by descending date). *)
Definition detectSuspiciousExpenses (exps : list Expense.t) : Report :=
  let susp := detected exps in
  {| totalExpensesChecked := length exps;
     suspiciousCount := length susp;
     suspicious := firstn 10 susp |}.

End AIService.

(** ** JavaScript numbers in binary64

    The functions below are decided by comparisons of computed numbers at
    a cutoff, where the rounding of the arithmetic matters: they are
    embedded with the arithmetic of the code, IEEE 754 binary64 with
    rounding to nearest, ties to even, as the Standard Library specifies
    it. *)

Module Binary64.

Definition prec : Z := 53.
Definition emax : Z := 1024.

(** A JavaScript number, [NaN] and the infinities included. *)
Definition number : Set := spec_float.

Definition NaN : number := S754_nan.

(** An integer as a number, and the decimal literal [n / d]: the number
    nearest to the quotient, for [n] and [d] below [2^53]. *)
Definition ofZ (z : Z) : number := binary_normalize prec emax z 0 false.
Definition ofNat (n : nat) : number := ofZ (Z.of_nat n).

Definition add : number -> number -> number := SFadd prec emax.
Definition sub : number -> number -> number := SFsub prec emax.
Definition mul : number -> number -> number := SFmul prec emax.
Definition div : number -> number -> number := SFdiv prec emax.

Definition decimal (n : Z) (d : positive) : number :=
  div (ofZ n) (ofZ (Zpos d)).

(** [a < b] and [a <= b]: false when an operand is [NaN]. *)
Definition ltb : number -> number -> bool := SFltb.
Definition leb : number -> number -> bool := SFleb.

(** [Math.abs] and [Math.max]. *)
Definition abs : number -> number := SFabs.

Definition max (a b : number) : number :=
  match SFcompare a b with
  | None => NaN
  | Some Lt => b
  | Some Gt => a
  | Some Eq => match a with
               | S754_zero true => b
               | _ => a
               end
  end.


End Binary64.

(** ** The trend and the anomaly detection on binary64 numbers *)

Module Double.

Import Binary64.

(** An entry of the daily totals. *)
Record Day := { day : Z; dayAmount : number }.

Record Trend := {
  direction : Forecast.Direction;
  strength : Forecast.Strength;
  percentageChange : option number
}.

(** [days.reduce((sum, day) => sum + day.amount, 0)]. *)
Definition sumDays (l : list Day) : number :=
  fold_left (fun sum d => add sum (dayAmount d)) l (ofZ 0).

(** [calculateSpendingTrend]. *)
Definition calculateSpendingTrend (dailyTotals : list Day) : Trend :=
  if (length dailyTotals <? 3)%nat then
    {| direction := Forecast.insufficient_data;
       strength := Forecast.strength0;
       percentageChange := None |}
  else
    let firstHalf := firstn (length dailyTotals / 2) dailyTotals in
    let secondHalf := skipn (length dailyTotals / 2) dailyTotals in
    let firstHalfAvg := div (sumDays firstHalf) (ofNat (length firstHalf)) in
    let secondHalfAvg :=
      div (sumDays secondHalf) (ofNat (length secondHalf)) in
    let difference := sub secondHalfAvg firstHalfAvg in
    let percentageChange :=
      mul (div (abs difference) (max firstHalfAvg (ofZ 1))) (ofZ 100) in
    if ltb (mul firstHalfAvg (decimal 1 10)) (abs difference) then
      {| direction := if ltb (ofZ 0) difference then Forecast.increasing
                      else Forecast.decreasing;
         strength := if ltb (ofZ 50) percentageChange then Forecast.high
                     else if ltb (ofZ 20) percentageChange
                          then Forecast.medium
                          else Forecast.low;
         percentageChange := Some percentageChange |}
    else
      {| direction := Forecast.stable; strength := Forecast.low;
         percentageChange := Some percentageChange |}.

(** The fields of an expense the detection reads; [date] is the time
    value of the [Date], in milliseconds. *)
Record Expense := {
  _id : nat;
  amount : number;
  description : string;
  date : Z
}.

Section Detection.

(** [String.prototype.toLowerCase]. *)
Variable toLowerCase : string -> string.

(** The difference of the dates in days and the similarity of the
    descriptions are kept as the quotients they round: a quotient of
    integers and its rounding lie on the same side of 7, and of 0.7. *)
Definition timeDiff (exp1 exp2 : Expense) : Q :=
  inject_Z (Z.abs (date exp1 - date exp2)) / inject_Z Forecast.msPerDay.

Definition descSimilarity (exp1 exp2 : Expense) : Q :=
  AIService.calculateTextSimilarity (toLowerCase (description exp1))
                                    (toLowerCase (description exp2)).

(** The tests of the duplicate loop's body. *)
Definition isDuplicate (exp1 exp2 : Expense) : bool :=
  ltb (abs (sub (amount exp1) (amount exp2))) (decimal 1 100)
  && (Js.leb (timeDiff exp1 exp2) 7
      && Js.ltb (7 # 10) (descSimilarity exp1 exp2)).

Definition duplicateFinding (exp1 exp2 : Expense) : AIService.Finding :=
  {| AIService.ftype := AIService.potential_duplicate;
     AIService.expenses := [_id exp1; _id exp2];
     AIService.fconfidence := descSimilarity exp1 exp2 |}.

(** The loop over [j = i+1 ..] for one [exp1]. *)
Fixpoint duplicatesWith (exp1 : Expense) (rest : list Expense)
    (suspicious : list AIService.Finding) : list AIService.Finding :=
  match rest with
  | [] => suspicious
  | exp2 :: rest' =>
      duplicatesWith exp1 rest'
        (if isDuplicate exp1 exp2
         then (suspicious ++ [duplicateFinding exp1 exp2])%list
         else suspicious)
  end.

(** The loop over [i]. *)
Fixpoint duplicateLoop (exps : list Expense)
    (suspicious : list AIService.Finding) : list AIService.Finding :=
  match exps with
  | [] => suspicious
  | exp1 :: rest => duplicateLoop rest (duplicatesWith exp1 rest suspicious)
  end.

(** [sort((a, b) => a - b)]: [x], which stands before the sorted elements
    [l], moves behind those [y] for which [x - y] is positive. *)
Fixpoint insertAmount (x : number) (l : list number) : list number :=
  match l with
  | [] => [x]
  | y :: rest =>
      if ltb (ofZ 0) (sub x y) then y :: insertAmount x rest else x :: l
  end.

Definition sortAmounts (l : list number) : list number :=
  fold_right insertAmount [] l.

Definition outlierThreshold (exps : list Expense) : number :=
  let amounts := sortAmounts (map amount exps) in
  let q3 := nth (floor_quarters 3 (length amounts)) amounts NaN in
  let q1 := nth (floor_quarters 1 (length amounts)) amounts NaN in
  let iqr := sub q3 q1 in
  add q3 (mul (decimal 15 10) iqr).

Definition outlierFinding (e : Expense) : AIService.Finding :=
  {| AIService.ftype := AIService.high_amount_outlier;
     AIService.expenses := [_id e];
     AIService.fconfidence := 7 # 10 |}.

Definition outlierLoop (exps : list Expense)
    (suspicious : list AIService.Finding) : list AIService.Finding :=
  if (5 <? length exps)%nat then
    let threshold := outlierThreshold exps in
    fold_left (fun susp e =>
                 if ltb threshold (amount e)
                 then (susp ++ [outlierFinding e])%list else susp)
              exps suspicious
  else suspicious.

(** The [suspicious] array when both checks are done. *)
Definition detected (exps : list Expense) : list AIService.Finding :=
  outlierLoop exps (duplicateLoop exps []).

(** [detectSuspiciousExpenses] on the active expenses of the window the
    query returns (by descending date). *)
Definition detectSuspiciousExpenses (exps : list Expense) : AIService.Report :=
  let susp := detected exps in
  {| AIService.totalExpensesChecked := length exps;
     AIService.suspiciousCount := length susp;
     AIService.suspicious := firstn 10 susp |}.

End Detection.

End Double.

(** * Auxiliary definitions

    Sample data, projections and the reference readings the statements
    below are phrased with. *)

Import BudgetService.
Import Forecast.
Import AIService.
Import Expense.

(** A team with a budget of 100, no alert sent so far. *)
Definition freshTeam (spent : Q) : Team.t :=
  {| Team.isActive := true; Team.budget := 100; Team.totalSpent := spent;
     Team.alertsSent := {| Team.warning := false; Team.critical := false |} |}.

(** The same team once the warning has been sent. *)
Definition warnedTeam : Team.t :=
  {| Team.isActive := true; Team.budget := 100; Team.totalSpent := 85;
     Team.alertsSent := {| Team.warning := true; Team.critical := false |} |}.

Definition spending (total : Q) (net : EmailService.Network) : Input :=
  {| approvedTotal := total; network := net |}.

Definition consoleOnly : EmailService.t :=
  {| EmailService.isBrevoConfigured := false;
     EmailService.isBackupConfigured := false;
     EmailService.brevoApi := false |}.

Definition bothConfigured : EmailService.t :=
  {| EmailService.isBrevoConfigured := true;
     EmailService.isBackupConfigured := true;
     EmailService.brevoApi := true |}.

Definition networkUp : EmailService.Network :=
  {| EmailService.prepare_ok := true; EmailService.brevo_ok := true;
     EmailService.backup_ok := true |}.

(** The transports work, but an element of [team.members] is [null]. *)
Definition unreadableMembers : EmailService.Network :=
  {| EmailService.prepare_ok := false; EmailService.brevo_ok := true;
     EmailService.backup_ok := true |}.

Definition networkDown : EmailService.Network :=
  {| EmailService.prepare_ok := true; EmailService.brevo_ok := false;
     EmailService.backup_ok := false |}.

(** The flags saved after a run of evaluations. *)
Definition flagsAfter (svc : BudgetService.t) (es : EmailService.t)
    (inps : list Input) (team : Team.t) : option Team.AlertsSent :=
  option_map Team.alertsSent (snd (checkRepeatedly svc es inps (Some team))).

Definition activeTeam (budget spent : Q) : Team.t :=
  {| Team.isActive := true; Team.budget := budget; Team.totalSpent := spent;
     Team.alertsSent := {| Team.warning := false; Team.critical := false |} |}.

Definition expenseOn (id : nat) (amount : Q) (dayNumber : Z) : Expense.t :=
  {| Expense._id := id; Expense.amount := amount;
     Expense.description := "expense";
     Expense.date := (dayNumber * Forecast.msPerDay)%Z |}.

(** The [avgDailySpending] field of the forecast, when there is one. *)
Definition forecastAvg (svc : BudgetService.t) (store : option Team.t)
    (recentExpenses : list Expense.t) (days : Q) : option Q :=
  match Forecast.calculateBudgetForecast svc store recentExpenses days with
  | Some f => Forecast.avgDailySpending f
  | None => None
  end.

Definition dayTotals (amounts : list Q) (days : list Z) : list Day :=
  map (fun p => {| day := snd p; dayAmount := fst p |}) (combine amounts days).

(** The duplicate findings of a window, pair by pair in loop order. *)
Fixpoint duplicatePairs (exps : list Expense.t) : list Finding :=
  match exps with
  | [] => []
  | exp1 :: rest =>
      map (duplicateFinding exp1) (filter (isDuplicate exp1) rest)
      ++ duplicatePairs rest
  end.

Definition outliersOf (exps : list Expense.t) : list Finding :=
  if (5 <? length exps)%nat
  then map outlierFinding
           (filter (fun e => ltb (outlierThreshold exps) (amount e)) exps)
  else [].

Definition isOutlier (f : Finding) : bool :=
  match ftype f with
  | high_amount_outlier => true
  | potential_duplicate => false
  end.

Definition withAmount (a : Q) (e : Expense.t) : Expense.t :=
  {| _id := _id e; amount := a; description := description e;
     date := date e |}.

Definition sampleWindow : list Expense.t :=
  [ {| _id := 1; amount := 10; description := "Taxi"; date := 0 |};
    {| _id := 2; amount := 12; description := "Lunch"; date := 0 |};
    {| _id := 3; amount := 11; description := "Paper"; date := 86400000 |};
    {| _id := 4; amount := 13; description := "Coffee"; date := 86400000 |};
    {| _id := 5; amount := 9; description := "Pens"; date := 172800000 |};
    {| _id := 6; amount := 500; description := "Laptop"; date := 172800000 |};
    {| _id := 7; amount := 500; description := "laptop"; date := 259200000 |} ].

(** The number of keywords of an entry that occur in the description, and
    the confidence it gives. *)
Definition matchCount (desc : string) (entry : Category * list string)
    : nat :=
  length (filter (fun keyword => includes desc keyword) (snd entry)).

Definition entryConfidence (desc : string)
    (entry : Category * list string) : Q :=
  Js.min (8 # 10) ((3 # 10) + ofNat (matchCount desc entry) * (2 # 10)).

(** What the loop has established after the entries [seen]. *)
Definition bestOf (desc : string) (seen : list (Category * list string))
    (best : Suggestion) : Prop :=
  (Forall (fun entry => matchCount desc entry = 0%nat) seen /\ best = noMatch)
  \/
  exists i entry,
    nth_error seen i = Some entry /\
    (0 < matchCount desc entry)%nat /\
    category best = fst entry /\
    AIService.confidence best = entryConfidence desc entry /\
    (forall j other, nth_error seen j = Some other ->
       (0 < matchCount desc other)%nat ->
       entryConfidence desc other <= entryConfidence desc entry) /\
    (forall j other, (j < i)%nat -> nth_error seen j = Some other ->
       (0 < matchCount desc other)%nat ->
       entryConfidence desc other < entryConfidence desc entry).

(** * Further code of the services *)

(** ** models: the other virtuals of Team *)

Module TeamVirtuals.

(** The [remainingBudget] virtual. *)
Definition remainingBudget (team : Team.t) : Q :=
  Js.max 0 (Team.budget team - Team.totalSpent team).

Inductive BudgetStatus :=
  statusOverBudget | statusWarning | statusModerate | statusGood.

(** The [budgetStatus] virtual. *)
Definition budgetStatus (team : Team.t) : BudgetStatus :=
  let utilization := Team.budgetUtilization team in
  if (100 <=? utilization)%Z then statusOverBudget
  else if (80 <=? utilization)%Z then statusWarning
  else if (60 <=? utilization)%Z then statusModerate
  else statusGood.

End TeamVirtuals.

(** ** The team collection

    The collection is the list of its documents; the [_id] of a document is
    its position. *)

Module TeamDb.

Definition t := list Team.t.

(** [Team.findById(id)]. *)
Definition findById (id : nat) (db : t) : option Team.t := nth_error db id.

(** [team.save()] of the document [id]. *)
Fixpoint save (id : nat) (team : Team.t) (db : t) : t :=
  match db, id with
  | [], _ => []
  | _ :: rest, O => team :: rest
  | d :: rest, S id' => d :: save id' team rest
  end.

(** The ids of [Team.find({ isActive: true })], in collection order. *)
Definition findActive (db : t) : list nat :=
  filter (fun id => match findById id db with
                    | Some team => Team.isActive team
                    | None => false
                    end)
         (seq 0 (length db)).

End TeamDb.

(** ** BudgetService: the batch check and the reports *)

Module BudgetReports.

Import BudgetService.

(** [checkBudgetAlerts(teamId)] against the collection. *)
Definition checkBudgetAlertsById (svc : BudgetService.t) (es : EmailService.t)
    (inp : Input) (teamId : nat) (db : TeamDb.t) : CheckResult * TeamDb.t :=
  let '(r, stored) :=
    checkBudgetAlerts svc es inp (TeamDb.findById teamId db) in
  (r, match stored with
      | Some team => TeamDb.save teamId team db
      | None => db
      end).

(** The loop of [checkAllTeamsBudgetAlerts] over the teams found; [inputs]
    gives, for each team, what the outside does during its check. *)
Fixpoint checkEach (svc : BudgetService.t) (es : EmailService.t)
    (inputs : nat -> Input) (ids : list nat) (db : TeamDb.t)
    : list CheckResult * TeamDb.t :=
  match ids with
  | [] => ([], db)
  | id :: rest =>
      let '(r, db) := checkBudgetAlertsById svc es (inputs id) id db in
      let '(rs, db) := checkEach svc es inputs rest db in
      (r :: rs, db)
  end.

Record BatchResult := {
  teamsChecked : nat;
  totalAlerts : nat;
  results : list CheckResult
}.

(** [checkAllTeamsBudgetAlerts]. *)
Definition checkAllTeamsBudgetAlerts (svc : BudgetService.t)
    (es : EmailService.t) (inputs : nat -> Input) (db : TeamDb.t)
    : BatchResult * TeamDb.t :=
  let teams := TeamDb.findActive db in
  let '(results, db) := checkEach svc es inputs teams db in
  ({| teamsChecked := length teams;
      totalAlerts :=
        fold_left (fun sum result => (sum + length (alertsOf result))%nat)
                  results 0%nat;
      results := results |}, db).

(** [getTeamsByBudgetStatus(status)]: the teams passing the filter (the
    report lists fields of each). *)
Definition getTeamsByBudgetStatus (svc : BudgetService.t) (status : string)
    (db : TeamDb.t) : list Team.t :=
  let teams := filter Team.isActive db in
  let u := Team.budgetUtilization in
  if String.eqb status "good" then
    filter (fun team => (u team <? WARNING_THRESHOLD svc)%Z) teams
  else if String.eqb status "warning" then
    filter (fun team => (WARNING_THRESHOLD svc <=? u team)%Z
                        && (u team <? CRITICAL_THRESHOLD svc)%Z) teams
  else if String.eqb status "critical" then
    filter (fun team => (CRITICAL_THRESHOLD svc <=? u team)%Z) teams
  else if String.eqb status "over-budget" then
    filter (fun team => (100 <=? u team)%Z) teams
  else teams.

Record StatusCounts := {
  good : nat;
  warning : nat;
  critical : nat;
  over_budget : nat
}.

Record Summary := {
  totalTeams : nat;
  totalBudget : Q;
  totalSpent : Q;
  avgUtilization : Z;
  statusCounts : StatusCounts;
  topSpendingTeams : list Team.t
}.

(** The body of the [forEach] of [getBudgetSummary] on the status counts. *)
Definition countStatus (svc : BudgetService.t) (c : StatusCounts)
    (team : Team.t) : StatusCounts :=
  let utilization := Team.budgetUtilization team in
  if (100 <=? utilization)%Z then
    {| good := good c; warning := warning c; critical := critical c;
       over_budget := S (over_budget c) |}
  else if (CRITICAL_THRESHOLD svc <=? utilization)%Z then
    {| good := good c; warning := warning c; critical := S (critical c);
       over_budget := over_budget c |}
  else if (WARNING_THRESHOLD svc <=? utilization)%Z then
    {| good := good c; warning := S (warning c); critical := critical c;
       over_budget := over_budget c |}
  else
    {| good := S (good c); warning := warning c; critical := critical c;
       over_budget := over_budget c |}.

(** [sort((a, b) => b.totalSpent - a.totalSpent)], stable. *)
Fixpoint insertBySpent (x : Team.t) (l : list Team.t) : list Team.t :=
  match l with
  | [] => [x]
  | y :: rest =>
      if leb (Team.totalSpent y) (Team.totalSpent x) then x :: l
      else y :: insertBySpent x rest
  end.

Definition sortBySpent (l : list Team.t) : list Team.t :=
  fold_right insertBySpent [] l.

(** [getBudgetSummary]. *)
Definition getBudgetSummary (svc : BudgetService.t) (db : TeamDb.t) : Summary :=
  let teams := filter Team.isActive db in
  let totalBudget := fold_left (fun sum team => sum + Team.budget team) teams 0 in
  let totalSpent :=
    fold_left (fun sum team => sum + Team.totalSpent team) teams 0 in
  {| totalTeams := length teams;
     totalBudget := totalBudget;
     totalSpent := totalSpent;
     avgUtilization := if ltb 0 totalBudget
                       then round (totalSpent / totalBudget * 100)
                       else 0%Z;
     statusCounts :=
       fold_left (countStatus svc) teams
                 {| good := 0; warning := 0; critical := 0; over_budget := 0 |};
     topSpendingTeams := firstn 5 (sortBySpent teams) |}.

End BudgetReports.

(** ** Dashboard route [POST /reset-budget-alerts] *)

Module DashboardRoutes.

Import BudgetService.

Definition noAlertsSent : Team.AlertsSent :=
  {| Team.warning := false; Team.critical := false |}.

(** The answers of the route: 404, 500 from the [catch] block, or 200 with
    the data. *)
Inductive Answer (A : Type) : Type :=
| notFound
| serverError
| ok (data : A).
Arguments notFound {A}.
Arguments serverError {A}.

(** The branch for one team. *)
Definition resetBudgetAlerts (svc : BudgetService.t) (es : EmailService.t)
    (inp : Input) (teamId : nat) (db : TeamDb.t)
    : Answer CheckResult * TeamDb.t :=
  match TeamDb.findById teamId db with
  | None => (notFound, db)
  | Some team =>
      match Team.save (Team.setAlertsSent noAlertsSent team) with
      | Threw => (serverError, db)
      | Returned team =>
          let db := TeamDb.save teamId team db in
          let '(result, db) :=
            BudgetReports.checkBudgetAlertsById svc es inp teamId db in
          (ok result, db)
      end
  end.

(** The loop of the branch for all teams, over the teams found beforehand:
    each document is saved with its flags reset, then checked; a save that
    fails ends the loop. *)
Fixpoint resetEach (svc : BudgetService.t) (es : EmailService.t)
    (inputs : nat -> Input) (teams : list (nat * Team.t)) (db : TeamDb.t)
    : Completion (list CheckResult) * TeamDb.t :=
  match teams with
  | [] => (Returned [], db)
  | (id, team) :: rest =>
      match Team.save (Team.setAlertsSent noAlertsSent team) with
      | Threw => (Threw, db)
      | Returned team =>
          let db := TeamDb.save id team db in
          let '(result, db) :=
            BudgetReports.checkBudgetAlertsById svc es (inputs id) id db in
          match resetEach svc es inputs rest db with
          | (Returned results, db) => (Returned (result :: results), db)
          | (Threw, db) => (Threw, db)
          end
      end
  end.

Definition resetAllBudgetAlerts (svc : BudgetService.t) (es : EmailService.t)
    (inputs : nat -> Input) (db : TeamDb.t)
    : Answer (list CheckResult) * TeamDb.t :=
  let teams :=
    flat_map (fun id => match TeamDb.findById id db with
                        | Some team => [(id, team)]
                        | None => []
                        end) (TeamDb.findActive db) in
  match resetEach svc es inputs teams db with
  | (Returned results, db) => (ok results, db)
  | (Threw, db) => (serverError, db)
  end.

End DashboardRoutes.

(** ** AIService: [suggestCategory] with a classifier *)

Module Classifier.

Import AIService.

(** What the chat completion gives: the request fails (or its content
    parses to something that is no object), the content is not JSON, or it
    parses to an object whose [category] is a string or not, whose
    [confidence] converts to a number or to [NaN] ([None]). *)
Inductive Outcome :=
| callFailed
| nonJson
| parsed (category : option string) (confidence : option Q)
         (reasoning : string).

(** [this.categories], with the category each name stands for. *)
Definition categories : list (string * Category) :=
  [ ("travel", travel); ("food", food); ("supplies", supplies);
    ("software", software); ("hardware", hardware); ("training", training);
    ("entertainment", entertainment); ("other", other) ]%string.

(** [this.categories.includes(name)], with the category found. *)
Fixpoint lookup (table : list (string * Category)) (name : string)
    : option Category :=
  match table with
  | [] => None
  | (n, c) :: rest => if String.eqb n name then Some c else lookup rest name
  end.

(** The double quote character, as a string. *)
Definition quote : string := String (ascii_of_nat 34) EmptyString.

(** The result; a [confidence] of [None] is [NaN]. *)
Record Result := {
  category : Category;
  confidence : option Q;
  reasoning : string
}.

Definition ofFallback (s : Suggestion) (note : string) : Result :=
  {| category := AIService.category s;
     confidence := Some (AIService.confidence s);
     reasoning := (AIService.reasoning s ++ note)%string |}.

(** [Math.max(lo, x)] and [Math.min(hi, x)] with [NaN] passed on. *)
Definition maxNaN (lo : Q) (x : option Q) : option Q :=
  option_map (fun v => Js.max lo v) x.
Definition minNaN (hi : Q) (x : option Q) : option Q :=
  option_map (fun v => Js.min hi v) x.

(** [suggestCategory]; [openai] is [None] when no client is configured. *)
Definition suggestCategory (openai : option Outcome) (description : string)
    : Result :=
  match openai with
  | None => ofFallback (fallbackCategorySuggestion description) ""
  | Some callFailed => ofFallback (fallbackCategorySuggestion description) ""
  | Some nonJson =>
      ofFallback (fallbackCategorySuggestion description)
                 " (AI returned non-JSON)"
  | Some (parsed cat conf reason) =>
      let known := match cat with
                   | Some name => lookup categories name
                   | None => None
                   end in
      let '(cat, conf, reason) :=
        match known with
        | Some c => (c, conf, reason)
        | None =>
            (other, maxNaN (1 # 10) (option_map (fun v => v - (3 # 10)) conf),
             (reason ++ " (Category corrected to " ++ quote ++ "other"
                     ++ quote ++ ")")%string)
        end in
      {| category := cat;
         confidence := maxNaN 0 (minNaN 1 conf);
         reasoning := reason |}
  end.

End Classifier.

(** ** AIService: [getTeamExpenseData] *)

Module SpendingData.

Import AIService.




Record Bucket := { bcategory : Category; bamount : Q; bcount : nat }.




Inductive Trend := no_data | stable | increasing | decreasing.

Record t := {
  totalExpenses : nat;
  totalAmount : Q;
  avgAmount : Q;
  budget : Q;
  budgetUtilization : Z;
  categoryBreakdown : list Bucket;
  trend : Trend
}.



End SpendingData.

(** ** emailService.js: [getTeamManagerEmails] *)

Module Recipients.

Inductive Role := manager | member.

Record Member := {
  name : string;
  email : string;
  role : Role;
  isActive : bool
}.

Record Recipient := { toEmail : string; toName : string }.

(** A string is truthy when it is not empty. *)
Definition truthy (s : string) : bool := negb (String.eqb s "").

Definition recipientOf (m : Member) : Recipient :=
  {| toEmail := email m; toName := name m |}.

(** [members.forEach(member => { if (test(member)) emails.push(...) })]. *)
Definition pushEach (test : Member -> bool) (members : list Member)
    (emails : list Recipient) : list Recipient :=
  fold_left (fun emails m =>
               if test m then (emails ++ [recipientOf m])%list else emails)
            members emails.

Definition isManagerToNotify (m : Member) : bool :=
  match role m with
  | manager => isActive m && truthy (email m)
  | member => false
  end.

Definition isMemberToNotify (m : Member) : bool :=
  isActive m && truthy (email m).

(** [getTeamManagerEmails(team)]: [members] is [None] when the team has no
    member array; [senderEmail] is [process.env.SENDER_EMAIL]. *)
Definition getTeamManagerEmails (members : option (list Member))
    (senderEmail : option string) : list Recipient :=
  let hasMembers := match members with
                    | Some l => (0 <? length l)%nat
                    | None => false
                    end in
  let list := match members with Some l => l | None => [] end in
  let emails := [] in
  let emails := if hasMembers then pushEach isManagerToNotify list emails
                else emails in
  let emails := if (length emails =? 0)%nat && hasMembers
                then pushEach isMemberToNotify list emails
                else emails in
  let emails :=
    if (length emails =? 0)%nat
    then match senderEmail with
         | Some s => if truthy s
                     then (emails ++ [{| toEmail := s;
                                         toName := "Team Manager" |}])%list
                     else emails
         | None => emails
         end
    else emails in
  emails.

End Recipients.

(** ** Readings and samples for the binary64 embeddings *)

Definition doubleTotals (amounts : list Binary64.number) (days : list Z)
    : list Double.Day :=
  map (fun p => {| Double.day := snd p; Double.dayAmount := fst p |})
      (combine amounts days).

(** The averages of the first [floor(n / 2)] daily totals and of the
    others, each summed from the left, starting from 0. *)
Definition doubleHalfAverages (totals : list Double.Day)
    : Binary64.number * Binary64.number :=
  let h := (length totals / 2)%nat in
  (Binary64.div
     (fold_left Binary64.add (map Double.dayAmount (firstn h totals))
                (Binary64.ofZ 0))
     (Binary64.ofNat h),
   Binary64.div
     (fold_left Binary64.add (map Double.dayAmount (skipn h totals))
                (Binary64.ofZ 0))
     (Binary64.ofNat (length totals - h))).

(** The duplicate findings of a window, pair by pair in loop order. *)
Fixpoint doublePairs (toLowerCase : string -> string)
    (exps : list Double.Expense) : list Finding :=
  match exps with
  | [] => []
  | exp1 :: rest =>
      (map (Double.duplicateFinding toLowerCase exp1)
           (filter (Double.isDuplicate toLowerCase exp1) rest)
       ++ doublePairs toLowerCase rest)%list
  end.

(** The outlier findings of a window, in window order. *)
Definition doubleOutliers (exps : list Double.Expense) : list Finding :=
  if (5 <? length exps)%nat
  then map Double.outlierFinding
           (filter (fun e => Binary64.ltb (Double.outlierThreshold exps)
                                          (Double.amount e)) exps)
  else [].




(** A window of six expenses, ten days apart from one another, one of
    them far above the others. *)
Definition spikeWindow64 : list Double.Expense :=
  map (fun p => {| Double._id := fst p; Double.amount := snd p;
                   Double.description := "expense";
                   Double.date := Z.of_nat (fst p) * 10 * Forecast.msPerDay |})
      [ (1%nat, Binary64.decimal 838 100); (2%nat, Binary64.decimal 2138 100);
        (3%nat, Binary64.decimal 4088 100); (4%nat, Binary64.decimal 838 100);
        (5%nat, Binary64.decimal 2138 100); (6%nat, Binary64.decimal 2138 100) ].

(** ** Readings used in the further properties *)

(** The threshold of an alert level. *)
Definition thresholdOf (svc : BudgetService.t) (k : AlertType) : Z :=
  match k with
  | warningAlert => WARNING_THRESHOLD svc
  | criticalAlert => CRITICAL_THRESHOLD svc
  end.

(** The alert of the level a utilization has reached, if any. *)
Definition alertReached (svc : BudgetService.t) (u : Z) : list Alert :=
  if (CRITICAL_THRESHOLD svc <=? u)%Z then [alertFor svc criticalAlert u]
  else if (WARNING_THRESHOLD svc <=? u)%Z then [alertFor svc warningAlert u]
  else [].

(** The flags a check leaves on a team that had none set. *)
Definition flagsReached (svc : BudgetService.t) (u : Z) : Team.AlertsSent :=
  if (u <? WARNING_THRESHOLD svc)%Z
  then {| Team.warning := false; Team.critical := false |}
  else if (CRITICAL_THRESHOLD svc <=? u)%Z
  then {| Team.warning := false; Team.critical := true |}
  else {| Team.warning := true; Team.critical := false |}.

Definition sampleDb : TeamDb.t :=
  [ freshTeam 10; warnedTeam;
    {| Team.isActive := false; Team.budget := 50; Team.totalSpent := 70;
       Team.alertsSent := {| Team.warning := true; Team.critical := true |} |};
    {| Team.isActive := true; Team.budget := 200; Team.totalSpent := 230;
       Team.alertsSent := {| Team.warning := true; Team.critical := true |} |} ].

(** [a] has spent at least as much as [b]. *)
Definition spendsAtLeast (a b : Team.t) : Prop :=
  Team.totalSpent b <= Team.totalSpent a.

(** The sum of a list of numbers, by recursion. *)
Fixpoint total (l : list Q) : Q :=
  match l with
  | [] => 0
  | x :: rest => x + total rest
  end.










(** The members of a team document, none when the array is missing. *)
Definition membersOf (members : option (list Recipients.Member))
    : list Recipients.Member :=
  match members with Some l => l | None => [] end.

Definition managersToNotify (members : option (list Recipients.Member))
    : list Recipients.Recipient :=
  map Recipients.recipientOf
      (filter Recipients.isManagerToNotify (membersOf members)).

Definition membersToNotify (members : option (list Recipients.Member))
    : list Recipients.Recipient :=
  map Recipients.recipientOf
      (filter Recipients.isMemberToNotify (membersOf members)).

Definition senderFallback (senderEmail : option string)
    : list Recipients.Recipient :=
  match senderEmail with
  | Some s => if Recipients.truthy s
              then [{| Recipients.toEmail := s;
                       Recipients.toName := "Team Manager" |}]
              else []
  | None => []
  end.

Definition sampleMembers : list Recipients.Member :=
  [ {| Recipients.name := "Ana"; Recipients.email := "ana@example.com";
       Recipients.role := Recipients.member; Recipients.isActive := true |};
    {| Recipients.name := "Ben"; Recipients.email := "ben@example.com";
       Recipients.role := Recipients.manager; Recipients.isActive := false |};
    {| Recipients.name := "Cy"; Recipients.email := "cy@example.com";
       Recipients.role := Recipients.manager; Recipients.isActive := true |} ].

(** A window with one amount far above the others. *)
Definition spikeWindow : list Expense.t :=
  [ expenseOn 1 10 0; expenseOn 2 12 0; expenseOn 3 11 1; expenseOn 4 13 1;
    expenseOn 5 9 2; expenseOn 6 14 2; expenseOn 7 500 3 ].

(** What the reset route answers for a team: the utilization of the forced
    check and the alert of the level it has reached. *)
Definition resetResult (svc : BudgetService.t) (inputs : nat -> Input)
    (entry : nat * Team.t) : CheckResult :=
  let u := utilizationAt (snd entry) (inputs (fst entry)) in
  Success u (alertReached svc u).

(** The stored documents pass the validators of the schema on the budget
    and the total. *)
Definition validTeam (team : Team.t) : Prop :=
  0 <= Team.budget team /\ 0 <= Team.totalSpent team.

(** * Properties *)

(** ** Numbers *)

Lemma ltb_lt x y : ltb x y = true <-> x < y.
Proof.
  unfold ltb. rewrite negb_true_iff, <- not_true_iff_false, Qle_bool_iff.
  split; [apply Qnot_le_lt | apply Qlt_not_le].
Qed.

Lemma ltb_ge x y : ltb x y = false <-> y <= x.
Proof. unfold ltb. rewrite negb_false_iff. apply Qle_bool_iff. Qed.

Lemma leb_le x y : leb x y = true <-> x <= y.
Proof. apply Qle_bool_iff. Qed.

(** ** Budget alerts *)

Section Alerts.

Import Team BudgetService.

Variable svc : BudgetService.t.
Variable es : EmailService.t.

#[local] Abbreviation W := (WARNING_THRESHOLD svc).
#[local] Abbreviation C := (CRITICAL_THRESHOLD svc).
#[local] Abbreviation decided := (BudgetService.decided svc).
#[local] Abbreviation trace := (BudgetService.trace svc).

(** A transport that fails is caught: with a mail that can be built the
    call resolves. *)
Lemma sendBudgetAlert_resolves (net : EmailService.Network) :
  EmailService.prepare_ok net = true ->
  exists r, EmailService.sendBudgetAlert es net = Returned r.
Proof.
  intros Hp.
  unfold EmailService.sendBudgetAlert, EmailService.prepareBudgetAlertEmail,
    EmailService.allFailed, EmailService.logEmailToConsole.
  rewrite Hp.
  repeat match goal with |- context [if ?b then _ else _] => destruct b end;
    eexists; reflexivity.
Qed.

Lemma resolves_returned (net : EmailService.Network) :
  EmailService.resolves es net = true ->
  exists r, EmailService.sendBudgetAlert es net = Returned r.
Proof.
  unfold EmailService.resolves.
  destruct (EmailService.sendBudgetAlert es net) as [r|];
    [eexists; reflexivity|discriminate].
Qed.

Lemma decide_returned r u flags :
  decide svc (Returned r) u flags = decided u flags.
Proof. reflexivity. Qed.

(** The catch blocks: when the notifier call throws, nothing is recorded
    and no flag is set. *)
Lemma decide_threw u flags :
  decide svc Threw u flags
  = ([], if (u <? W)%Z then {| warning := false; critical := false |}
         else flags).
Proof.
  unfold decide.
  destruct (_ && _); [|destruct (_ && _)]; destruct (u <? W)%Z; reflexivity.
Qed.

Lemma decided_below u flags :
  (W <= C)%Z -> (u < W)%Z ->
  decided u flags = ([], {| warning := false; critical := false |}).
Proof.
  intros HWC Hu. unfold BudgetService.decided, decide.
  destruct (Z.leb_spec C u); [lia|].
  destruct (Z.leb_spec W u); [lia|]. cbn.
  destruct (Z.ltb_spec u W); [reflexivity|lia].
Qed.

Lemma decided_level u flags :
  (W <= u)%Z ->
  decided u flags =
    match decidedLevel svc u flags with
    | Some criticalAlert =>
        ([alertFor svc criticalAlert u],
         {| warning := warning flags; critical := true |})
    | Some warningAlert =>
        ([alertFor svc warningAlert u],
         {| warning := true; critical := critical flags |})
    | None => ([], flags)
    end.
Proof.
  intros Hu. unfold BudgetService.decided, decide, decidedLevel.
  destruct (Z.ltb_spec u W); [lia|].
  destruct (_ && _); [reflexivity|]. destruct (_ && _); reflexivity.
Qed.

(** No notifier call is made when no alert is decided. *)
Lemma decide_quiet sent u flags :
  decidedLevel svc u flags = None -> decide svc sent u flags = decided u flags.
Proof.
  unfold BudgetService.decided, decide, decidedLevel.
  destruct (_ && _); [discriminate|]. destruct (_ && _); [discriminate|].
  reflexivity.
Qed.

Lemma preSave_valid team : valid team = true -> preSave team = team.
Proof.
  unfold valid, preSave. intros H. apply andb_prop in H. destruct H as [_ H].
  apply leb_le in H. rewrite (proj2 (ltb_ge _ _)) by exact H. reflexivity.
Qed.

Lemma save_valid team : valid team = true -> save team = Returned team.
Proof.
  intros H. unfold save. rewrite H, preSave_valid by exact H. reflexivity.
Qed.

(** One evaluation of an active team: a validation error at the first save
    ends it; otherwise the decision is made and saved. *)
Lemma checkBudgetAlerts_active inp team :
  isActive team = true ->
  checkBudgetAlerts svc es inp (Some team) =
    if savesPass team inp then
      let d := decide svc (EmailService.sendBudgetAlert es (network inp))
                 (utilizationAt team inp) (alertsSent team) in
      (Success (utilizationAt team inp) (fst d),
       Some (setAlertsSent (snd d) (setTotalSpent (approvedTotal inp) team)))
    else (Failure, Some team).
Proof.
  intros Ha. unfold checkBudgetAlerts, updateTotalSpent, savesPass, save at 1.
  rewrite Ha. cbn [negb].
  destruct (valid (setTotalSpent (approvedTotal inp) team)) eqn:Hv;
    [|reflexivity].
  rewrite preSave_valid by exact Hv. unfold utilizationAt.
  cbn [alertsSent setTotalSpent]. cbv zeta.
  destruct (decide svc _ _ _) as [alerts flags]. cbn [fst snd].
  rewrite save_valid by exact Hv. reflexivity.
Qed.

(** An evaluation that runs to its end. *)
Lemma checkBudgetAlerts_completes inp team :
  isActive team = true ->
  completes es team inp = true ->
  checkBudgetAlerts svc es inp (Some team) =
    (Success (utilizationAt team inp)
             (fst (decided (utilizationAt team inp) (alertsSent team))),
     Some (setAlertsSent
             (snd (decided (utilizationAt team inp) (alertsSent team)))
             (setTotalSpent (approvedTotal inp) team))).
Proof.
  intros Ha Hc. unfold completes in Hc. apply andb_prop in Hc.
  destruct Hc as [Hv Hr]. rewrite checkBudgetAlerts_active, Hv by exact Ha.
  destruct (resolves_returned _ Hr) as [r ->]. reflexivity.
Qed.

(** What an evaluation of an active team leaves: the team stays active
    with its budget, and either nothing was decided on and the flags are
    as before, or the decision was taken with a notifier that returned, or
    the notifier threw. *)
Lemma checkBudgetAlerts_step inp team :
  isActive team = true ->
  exists r team',
    checkBudgetAlerts svc es inp (Some team) = (r, Some team') /\
    isActive team' = true /\ budget team' = budget team /\
    let u := utilizationAt team inp in
    let flags := alertsSent team in
    (r = Failure /\ team' = team) \/
    (r = Success u (fst (decided u flags)) /\
     alertsSent team' = snd (decided u flags)) \/
    (r = Success u [] /\ alertsSent team' = snd (decide svc Threw u flags)
     /\ EmailService.sendBudgetAlert es (network inp) = Threw).
Proof.
  intros Ha. rewrite checkBudgetAlerts_active by exact Ha.
  destruct (savesPass team inp).
  - destruct (EmailService.sendBudgetAlert es (network inp)) as [r|] eqn:Es;
      cbv zeta; do 2 eexists; (split; [reflexivity|]);
      (split; [exact Ha|]); (split; [reflexivity|]); right.
    + left. split; reflexivity.
    + right. rewrite decide_threw. cbn [fst snd]. repeat split.
  - do 2 eexists. split; [reflexivity|]. split; [exact Ha|].
    split; [reflexivity|]. left. split; reflexivity.
Qed.

Lemma savesPass_valid team inp :
  0 <= budget team -> 0 <= approvedTotal inp -> savesPass team inp = true.
Proof.
  intros Hb Ht. unfold savesPass, valid. cbn [budget totalSpent setTotalSpent].
  apply andb_true_intro. split; apply leb_le; assumption.
Qed.

Lemma utilizationAt_budget inp team team' :
  budget team' = budget team -> utilizationAt team' inp = utilizationAt team inp.
Proof.
  intros Hb. unfold utilizationAt, budgetUtilization.
  cbn [budget totalSpent setTotalSpent]. rewrite Hb. reflexivity.
Qed.

Lemma completes_budget inp team team' :
  budget team' = budget team -> completes es team' inp = completes es team inp.
Proof.
  intros Hb. unfold completes, savesPass, valid.
  cbn [budget totalSpent setTotalSpent]. rewrite Hb. reflexivity.
Qed.

Lemma events_constant u inps : forall team,
  isActive team = true ->
  Forall (fun inp => utilizationAt team inp = u) inps ->
  Forall (fun inp => completes es team inp = true) inps ->
  events (fst (checkRepeatedly svc es inps (Some team)))
  = trace u (length inps) (alertsSent team).
Proof.
  induction inps as [|inp rest IH]; intros team Ha Hall Hrun; [reflexivity|].
  inversion Hall as [|? ? Hu Hrest]; subst.
  inversion Hrun as [|? ? Hc Hcrest]; subst.
  cbn [checkRepeatedly]. rewrite checkBudgetAlerts_completes by assumption.
  specialize (IH (setAlertsSent
             (snd (decided (utilizationAt team inp) (alertsSent team)))
             (setTotalSpent (approvedTotal inp) team))).
  destruct (checkRepeatedly svc es rest _) as [rs st] eqn:E.
  cbn [fst events map alertsOf length BudgetService.trace]. f_equal.
  cbn [fst] in IH. unfold events in IH. rewrite IH; [reflexivity|exact Ha| |].
  - eapply Forall_impl; [|exact Hrest]. intros a Ha'.
    rewrite <- Ha'. apply utilizationAt_budget. reflexivity.
  - eapply Forall_impl; [|exact Hcrest]. intros a Ha'.
    rewrite <- Ha'. apply completes_budget. reflexivity.
Qed.

(** Every evaluation emits at most one alert. *)
Lemma decide_length sent u flags : (length (fst (decide svc sent u flags)) <= 1)%nat.
Proof.
  unfold decide.
  repeat match goal with
         | |- context [if ?b then _ else _] => destruct b
         | |- context [match ?c with Returned _ => _ | Threw => _ end] =>
             destruct c
         end; cbn; lia.
Qed.

Lemma events_length_le_1 inps : forall store,
  Forall (fun a => (length a <= 1)%nat)
         (events (fst (checkRepeatedly svc es inps store))).
Proof.
  induction inps as [|inp rest IH]; intros store; [constructor|].
  cbn [checkRepeatedly].
  destruct (checkBudgetAlerts svc es inp store) as [r store'] eqn:Ec.
  specialize (IH store').
  destruct (checkRepeatedly svc es rest store') as [rs st].
  cbn [fst events map] in *. constructor; [|exact IH].
  destruct store as [team|]; [|injection Ec as <- _; cbn; lia].
  destruct (isActive team) eqn:Ha.
  - rewrite checkBudgetAlerts_active in Ec by exact Ha.
    destruct (savesPass team inp); injection Ec as <- _; cbn [alertsOf];
      [apply decide_length|cbn; lia].
  - unfold checkBudgetAlerts in Ec. rewrite Ha in Ec. injection Ec as <- _.
    cbn. lia.
Qed.

(** A level whose flag is set is not alerted while the utilization stays
    at or above the warning threshold; a level that is alerted has its flag
    set; whatever fails in between. *)
Lemma run_count k inps : forall team,
  isActive team = true ->
  Forall (fun inp => (W <= utilizationAt team inp)%Z) inps ->
  (countType k (events (fst (checkRepeatedly svc es inps (Some team))))
   + (if flagOf k (alertsSent team) then 1 else 0) <= 1)%nat.
Proof.
  induction inps as [|inp rest IH]; intros team Ha Hall.
  - cbn. destruct (flagOf k _); lia.
  - inversion Hall as [|? ? Hu Hrest]; subst.
    cbn [checkRepeatedly].
    destruct (checkBudgetAlerts_step inp team Ha)
      as (r & team' & -> & Ha' & Hb & Hcases).
    assert (Hrest' : Forall (fun i => (W <= utilizationAt team' i)%Z) rest).
    { eapply Forall_impl; [|exact Hrest]. intros i Hi.
      rewrite (utilizationAt_budget i team team' Hb). exact Hi. }
    specialize (IH team' Ha' Hrest').
    destruct (checkRepeatedly svc es rest (Some team')) as [rs st].
    cbn [fst events map] in *. unfold countType in *. cbn [concat].
    rewrite filter_app, length_app.
    cbv zeta in Hcases.
    set (u := utilizationAt team inp) in *.
    destruct Hcases as [[-> ->]|[[-> Hfl]|(-> & Hfl & _)]].
    + cbn [alertsOf filter length]. lia.
    + cbn [alertsOf]. rewrite Hfl in IH. rewrite decided_level in * by exact Hu.
      unfold decidedLevel in *.
      destruct (alertsSent team) as [fw fc]. cbn [warning critical] in *.
      destruct (C <=? u)%Z, (W <=? u)%Z, fw, fc, k;
        cbn [andb negb fst snd flagOf warning critical alertFor filter isType
               type length] in *; lia.
    + cbn [alertsOf filter length]. rewrite Hfl, decide_threw in IH.
      cbn [snd] in IH. destruct (Z.ltb_spec u W); [lia|]. lia.
Qed.

Hypothesis thresholds_ordered : (W <= C)%Z.

(** Below the warning threshold nothing is emitted. *)
Lemma run_below inps : forall team,
  isActive team = true ->
  Forall (fun inp => (utilizationAt team inp < W)%Z) inps ->
  concat (events (fst (checkRepeatedly svc es inps (Some team)))) = [].
Proof.
  induction inps as [|inp rest IH]; intros team Ha Hall; [reflexivity|].
  inversion Hall as [|? ? Hu Hrest]; subst.
  cbn [checkRepeatedly].
  destruct (checkBudgetAlerts_step inp team Ha)
    as (r & team' & -> & Ha' & Hb & Hcases).
  assert (Hrest' : Forall (fun i => (utilizationAt team' i < W)%Z) rest).
  { eapply Forall_impl; [|exact Hrest]. intros i Hi.
    rewrite (utilizationAt_budget i team team' Hb). exact Hi. }
  specialize (IH team' Ha' Hrest').
  destruct (checkRepeatedly svc es rest (Some team')) as [rs st].
  cbn [fst events map concat] in *. rewrite IH, app_nil_r.
  cbv zeta in Hcases.
  destruct Hcases as [[-> _]|[[-> _]|(-> & _)]]; try reflexivity.
  cbn [alertsOf]. rewrite decided_below by assumption. reflexivity.
Qed.

Lemma trace_quiet u n : forall flags,
  (W <= u)%Z -> decidedLevel svc u flags = None ->
  trace u n flags = repeat [] n.
Proof.
  induction n as [|n IH]; intros flags Hu Hnone; [reflexivity|].
  cbn [BudgetService.trace repeat]. rewrite decided_level, Hnone by assumption.
  cbn [fst snd]. f_equal. apply IH; assumption.
Qed.

End Alerts.

(** A notifier whose mail cannot be built: an element of [team.members]
    is [null]. *)
Lemma unreadable_members_reject :
  EmailService.sendBudgetAlert bothConfigured unreadableMembers = Threw /\
  EmailService.sendBudgetAlert consoleOnly unreadableMembers
  = Returned {| EmailService.success := true;
                EmailService.provider := Some EmailService.ConsoleLog |} /\
  exists r, EmailService.sendBudgetAlert bothConfigured networkDown = Returned r
            /\ EmailService.success r = false.
Proof. split; [reflexivity|]. split; [reflexivity|]. eexists. split; reflexivity. Qed.

(** C1, as stated, fails: at a utilization of 100 held over two evaluations
    from flags [{false, false}] the first evaluation emits the critical
    alert and the second one a warning alert, two events in total; and at a
    utilization of 85 held over two evaluations from flags
    [{warning: true, critical: false}] no event is emitted at all. *)
Lemma constant_critical_utilization_alerts_twice :
  let atCritical := [spending 100 networkUp; spending 100 networkUp] in
  let atWarning := [spending 85 networkUp; spending 85 networkUp] in
  let evs := events (fst (checkRepeatedly defaults consoleOnly atCritical
                            (Some (freshTeam 0)))) in
  let evs' := events (fst (checkRepeatedly defaults consoleOnly atWarning
                             (Some warnedTeam))) in
  Forall (fun inp => utilizationAt (freshTeam 0) inp = 100%Z) atCritical /\
  evs = [[alertFor defaults criticalAlert 100];
         [alertFor defaults warningAlert 100]] /\
  length (concat evs) <> 1%nat /\
  Forall (fun inp => utilizationAt warnedTeam inp = 85%Z) atWarning /\
  evs' = [[]; []] /\
  length (concat evs') <> 1%nat.
Proof.
cbv zeta. split; [repeat constructor|]. split; [reflexivity|].
split; [vm_compute; discriminate|]. split; [repeat constructor|].
split; [reflexivity|]. vm_compute. discriminate.
Qed.

(** C1, amended: with [WARNING_THRESHOLD <= CRITICAL_THRESHOLD] and a
    utilization [u] held constant over successive evaluations of an active
    team, from any flag state: every evaluation emits at most one event and
    no level is alerted twice; below the warning threshold nothing is
    emitted.  When moreover every evaluation runs to its end (its saves
    pass validation and its notifier call returns): for
    [WARNING_THRESHOLD <= u < CRITICAL_THRESHOLD] exactly one event, the
    warning on the first evaluation, is emitted when the warning flag
    starts unset, and none when it starts set; for
    [u >= CRITICAL_THRESHOLD] with the critical flag unset the first
    evaluation emits the critical alert and no later one repeats it. *)
Theorem constant_utilization_alerts_once_per_level
    (svc : BudgetService.t) (es : EmailService.t) (team : Team.t)
    (inps : list Input) (u : Z) :
  (WARNING_THRESHOLD svc <= CRITICAL_THRESHOLD svc)%Z ->
  Team.isActive team = true ->
  Forall (fun inp => utilizationAt team inp = u) inps ->
  let evs := events (fst (checkRepeatedly svc es inps (Some team))) in
  Forall (fun a => (length a <= 1)%nat) evs /\
  (countType warningAlert evs <= 1)%nat /\
  (countType criticalAlert evs <= 1)%nat /\
  ((u < WARNING_THRESHOLD svc)%Z -> concat evs = []) /\
  (Forall (fun inp => completes es team inp = true) inps ->
   ((WARNING_THRESHOLD svc <= u < CRITICAL_THRESHOLD svc)%Z ->
    evs = match inps with
          | [] => []
          | _ :: rest =>
              (if Team.warning (Team.alertsSent team) then []
               else [alertFor svc warningAlert u]) :: repeat [] (length rest)
          end) /\
   ((CRITICAL_THRESHOLD svc <= u)%Z ->
    Team.critical (Team.alertsSent team) = false ->
    forall inp rest, inps = inp :: rest ->
    exists later, evs = [alertFor svc criticalAlert u] :: later /\
                  countType criticalAlert later = 0%nat)).
Proof.
  intros HWC Ha Hall evs.
  assert (Hbelow : (u < WARNING_THRESHOLD svc)%Z -> concat evs = []).
  { intros Hu. apply run_below; try assumption.
    eapply Forall_impl; [|exact Hall]. intros i ->. exact Hu. }
  assert (Hcount : forall k, (countType k evs <= 1)%nat).
  { intros k. destruct (Z.ltb_spec u (WARNING_THRESHOLD svc)) as [Hu|Hu].
    - unfold countType. rewrite (Hbelow Hu). cbn. lia.
    - assert (H : (countType k evs
                   + (if flagOf k (Team.alertsSent team) then 1 else 0)
                   <= 1)%nat); [|lia].
      apply run_count; [exact Ha|].
      eapply Forall_impl; [|exact Hall]. intros i ->. exact Hu. }
  split; [apply events_length_le_1|].
  split; [apply Hcount|]. split; [apply Hcount|].
  split; [exact Hbelow|].
  intros Hrun. pose proof (Hcount criticalAlert) as Hk. subst evs.
  rewrite (events_constant svc es team Ha Hall Hrun) in Hk |- *.
  set (flags := Team.alertsSent team) in *. clearbody flags.
  split.
  - intros [Hlo Hhi]. destruct inps as [|inp rest]; [reflexivity|].
    cbn [length trace]. rewrite decided_level by assumption.
    unfold decidedLevel. destruct (Z.leb_spec (CRITICAL_THRESHOLD svc) u); [lia|].
    destruct (Z.leb_spec (WARNING_THRESHOLD svc) u); [|lia].
    cbn [andb]. destruct flags as [[|] fc]; cbn [Team.warning negb fst snd];
      (f_equal; apply trace_quiet; [assumption|]);
      unfold decidedLevel;
      (destruct (Z.leb_spec (CRITICAL_THRESHOLD svc) u); [lia|]);
      cbn [andb Team.warning negb]; rewrite andb_false_r; reflexivity.
  - intros Hu Hc inp rest Hinps.
    subst inps. cbn [length trace] in *.
    rewrite decided_level in * by lia. unfold decidedLevel in *.
    destruct (Z.leb_spec (CRITICAL_THRESHOLD svc) u); [|lia].
    rewrite Hc in *. cbn [andb negb fst snd] in *.
    eexists. split; [reflexivity|].
    unfold countType in *. cbn [concat app filter isType alertFor type length]
      in Hk. lia.
Qed.

Lemma constant_utilization_alerts_once_per_level_witness :
  let inps := [spending 85 networkUp; spending 85 networkDown;
               spending 85 networkUp] in
  let evs := events (fst (checkRepeatedly defaults bothConfigured inps
                            (Some (freshTeam 0)))) in
  Forall (fun inp => completes bothConfigured (freshTeam 0) inp = true) inps /\
  Forall (fun a => (length a <= 1)%nat) evs /\
  (countType warningAlert evs <= 1)%nat /\
  (countType criticalAlert evs <= 1)%nat /\
  evs = [[alertFor defaults warningAlert 85]; []; []].
Proof.
  cbv zeta.
  assert (Hrun : Forall (fun inp => completes bothConfigured (freshTeam 0) inp
                                    = true)
                        [spending 85 networkUp; spending 85 networkDown;
                         spending 85 networkUp])
    by (repeat constructor).
  destruct (@constant_utilization_alerts_once_per_level
              defaults bothConfigured (freshTeam 0)
              [spending 85 networkUp; spending 85 networkDown;
               spending 85 networkUp] 85%Z
              ltac:(vm_compute; discriminate) eq_refl
              ltac:(repeat constructor))
    as (Hone & Hw & Hc & _ & Hexact).
  destruct (Hexact Hrun) as [Hband _].
  split; [exact Hrun|]. split; [exact Hone|]. split; [exact Hw|].
  split; [exact Hc|]. apply Hband.
  split; [vm_compute; discriminate|reflexivity].
Defined.

(** C2, as stated, fails: when the mail of the first warning cannot be
    built, the notifier call of the evaluation at 85 rejects, that
    evaluation emits nothing and sets no flag, and the warning is emitted
    at 90 instead. *)
Lemma hysteresis_first_warning_lost :
  let team := freshTeam 0 in
  let inps := [spending 85 unreadableMembers; spending 90 networkUp;
               spending 100 networkUp; spending 70 networkUp;
               spending 90 networkUp] in
  let evs := events (fst (checkRepeatedly defaults bothConfigured inps
                            (Some team))) in
  map (utilizationAt team) inps = [85; 90; 100; 70; 90]%Z /\
  evs = [ []; [alertFor defaults warningAlert 90];
          [alertFor defaults criticalAlert 100]; [];
          [alertFor defaults warningAlert 90] ] /\
  evs <> [ [alertFor defaults warningAlert 85]; [];
           [alertFor defaults criticalAlert 100]; [];
           [alertFor defaults warningAlert 90] ].
Proof.
cbv zeta. split; [reflexivity|]. split; [reflexivity|]. vm_compute. discriminate.
Qed.

(** C2, amended: from flags [{false, false}] and the default thresholds
    80/100, the utilization sequence 85, 90, 100, 70, 90 yields a warning at
    85, nothing at 90, a critical alert at 100, nothing at 70, where both
    flags are reset, and a new warning at the final 90, provided the
    notifier calls of the three emitting evaluations return; whether they
    deliver does not matter. *)
Theorem hysteresis_sequence (es : EmailService.t)
    (n1 n2 n3 n4 n5 : EmailService.Network) (spent : Q) :
  EmailService.resolves es n1 = true ->
  EmailService.resolves es n3 = true ->
  EmailService.resolves es n5 = true ->
  let team := freshTeam spent in
  let inps := [spending 85 n1; spending 90 n2; spending 100 n3;
               spending 70 n4; spending 90 n5] in
  map (utilizationAt team) inps = [85; 90; 100; 70; 90]%Z /\
  events (fst (checkRepeatedly defaults es inps (Some team)))
  = [ [alertFor defaults warningAlert 85]; [];
      [alertFor defaults criticalAlert 100]; [];
      [alertFor defaults warningAlert 90] ] /\
  flagsAfter defaults es (firstn 3 inps) team
  = Some {| Team.warning := true; Team.critical := true |} /\
  flagsAfter defaults es (firstn 4 inps) team
  = Some {| Team.warning := false; Team.critical := false |}.
Proof.
  intros H1 H3 H5. cbv zeta. unfold flagsAfter.
  destruct (resolves_returned _ _ H1) as [r1 E1].
  destruct (resolves_returned _ _ H3) as [r3 E3].
  destruct (resolves_returned _ _ H5) as [r5 E5].
  cbn [firstn checkRepeatedly].
  repeat (rewrite checkBudgetAlerts_active by reflexivity;
          cbn [spending network approvedTotal];
          rewrite ?E1, ?E3, ?E5;
          change (savesPass _ _) with true; cbv iota zeta;
          cbn [fst snd Team.alertsSent Team.setAlertsSent Team.setTotalSpent]).
  repeat split; reflexivity.
Qed.

Lemma hysteresis_sequence_witness :
  let team := freshTeam 0 in
  let inps := [spending 85 networkDown; spending 90 unreadableMembers;
               spending 100 networkUp; spending 70 unreadableMembers;
               spending 90 networkDown] in
  map (utilizationAt team) inps = [85; 90; 100; 70; 90]%Z /\
  events (fst (checkRepeatedly defaults bothConfigured inps (Some team)))
  = [ [alertFor defaults warningAlert 85]; [];
      [alertFor defaults criticalAlert 100]; [];
      [alertFor defaults warningAlert 90] ] /\
  flagsAfter defaults bothConfigured (firstn 3 inps) team
  = Some {| Team.warning := true; Team.critical := true |} /\
  flagsAfter defaults bothConfigured (firstn 4 inps) team
  = Some {| Team.warning := false; Team.critical := false |}.
Proof.
  apply (@hysteresis_sequence bothConfigured networkDown unreadableMembers
           networkUp unreadableMembers networkDown 0); reflexivity.
Defined.

(** C3, as stated, fails: at a utilization of 100 the evaluation decides on
    the critical alert; with a mail that cannot be built the notifier call
    rejects, the evaluation records no alert and leaves the critical flag
    unset, and the next evaluation at the same utilization sends the
    critical alert. *)
Lemma rejected_notifier_leaves_flag_unset :
  let team := freshTeam 0 in
  let inp := spending 100 unreadableMembers in
  decidedLevel defaults (utilizationAt team inp) (Team.alertsSent team)
  = Some criticalAlert /\
  EmailService.sendBudgetAlert bothConfigured (network inp) = Threw /\
  exists team',
    checkBudgetAlerts defaults bothConfigured inp (Some team)
    = (Success 100 [], Some team') /\
    flagOf criticalAlert (Team.alertsSent team') = false /\
    events (fst (checkRepeatedly defaults bothConfigured
                   [spending 100 networkUp] (Some team')))
    = [[alertFor defaults criticalAlert 100]].
Proof.
cbv zeta. split; [reflexivity|]. split; [reflexivity|].
eexists. split; [reflexivity|]. split; reflexivity.
Qed.

(** C3, amended: when an evaluation whose saves pass validation decides on
    an alert of level [k]: if the delivery fails, the notifier call
    resolving with [success: false], the alert is still recorded and the
    flag of [k] is set in the saved team, so that later evaluations at the
    same utilization do not emit an alert of level [k] again; if the
    notifier call rejects, no alert is recorded and the flags are saved as
    they were. *)
Theorem delivery_failure_keeps_flag
    (svc : BudgetService.t) (es : EmailService.t) (team : Team.t)
    (inp : Input) (k : AlertType) :
  (WARNING_THRESHOLD svc <= CRITICAL_THRESHOLD svc)%Z ->
  Team.isActive team = true ->
  savesPass team inp = true ->
  decidedLevel svc (utilizationAt team inp) (Team.alertsSent team) = Some k ->
  (EmailService.deliveryFailed es (network inp) ->
   exists team',
     checkBudgetAlerts svc es inp (Some team)
     = (Success (utilizationAt team inp)
                [alertFor svc k (utilizationAt team inp)],
        Some team') /\
     flagOf k (Team.alertsSent team') = true /\
     forall later,
       Forall (fun i => utilizationAt team i = utilizationAt team inp) later ->
       countType k (events (fst (checkRepeatedly svc es later (Some team'))))
       = 0%nat) /\
  (EmailService.sendBudgetAlert es (network inp) = Threw ->
   exists team',
     checkBudgetAlerts svc es inp (Some team)
     = (Success (utilizationAt team inp) [], Some team') /\
     Team.alertsSent team' = Team.alertsSent team).
Proof.
  intros HWC Ha Hv Hk.
  set (u := utilizationAt team inp) in *.
  assert (Hu : (WARNING_THRESHOLD svc <= u)%Z).
  { unfold decidedLevel in Hk.
    destruct (Z.leb_spec (CRITICAL_THRESHOLD svc) u); [lia|].
    destruct (Z.leb_spec (WARNING_THRESHOLD svc) u); [lia|discriminate]. }
  rewrite checkBudgetAlerts_active, Hv by assumption. fold u. cbv zeta.
  split.
  - intros (r & -> & _). rewrite decide_returned.
    assert (Hfst : fst (decided svc u (Team.alertsSent team))
                   = [alertFor svc k u])
      by (rewrite decided_level, Hk by assumption; destruct k; reflexivity).
    assert (Hflag : flagOf k (snd (decided svc u (Team.alertsSent team)))
                    = true)
      by (rewrite decided_level, Hk by assumption; destruct k; reflexivity).
    rewrite Hfst. eexists. split; [reflexivity|]. split; [exact Hflag|].
    intros later Hall.
    match goal with
    | |- countType k (events (fst (checkRepeatedly _ _ _ (Some ?t)))) = _ =>
        pose proof (@run_count svc es k later t Ha) as Hc
    end.
    cbn [Team.alertsSent Team.setAlertsSent] in Hc. rewrite Hflag in Hc.
    assert (Hc' : forall n : nat, (n + 1 <= 1)%nat -> n = 0%nat) by lia.
    apply Hc', Hc.
    eapply Forall_impl; [|exact Hall]. intros i Hi.
    change (WARNING_THRESHOLD svc <= utilizationAt team i)%Z.
    rewrite Hi. exact Hu.
  - intros ->. rewrite decide_threw. cbn [fst snd].
    destruct (Z.ltb_spec u (WARNING_THRESHOLD svc)); [lia|].
    eexists. split; reflexivity.
Qed.

Lemma delivery_failure_keeps_flag_witness :
  EmailService.deliveryFailed bothConfigured
    (network (spending 100 networkDown)) /\
  exists team',
    checkBudgetAlerts defaults bothConfigured (spending 100 networkDown)
                      (Some (freshTeam 0))
    = (Success 100 [alertFor defaults criticalAlert 100], Some team') /\
    flagOf criticalAlert (Team.alertsSent team') = true /\
    forall later,
      Forall (fun i => utilizationAt (freshTeam 0) i = 100%Z) later ->
      countType criticalAlert
        (events (fst (checkRepeatedly defaults bothConfigured later
                        (Some team'))))
      = 0%nat.
Proof.
  assert (Hfail : EmailService.deliveryFailed bothConfigured
                    (network (spending 100 networkDown)))
    by (eexists; split; reflexivity).
  split; [exact Hfail|].
  apply (proj1 (@delivery_failure_keeps_flag defaults bothConfigured
                  (freshTeam 0) (spending 100 networkDown) criticalAlert
                  ltac:(vm_compute; discriminate) eq_refl eq_refl eq_refl)).
  exact Hfail.
Defined.

(** ** Forecast *)

Lemma fold_amounts (l : list Expense.t) : forall a,
  fold_left (fun sum e => sum + Expense.amount e) l a
  = fold_left Qplus (map Expense.amount l) a.
Proof. induction l as [|e l IH]; intros a; [reflexivity|apply IH]. Qed.

(** The grouping by day keeps one entry per calendar day of the window, so
    its length is the number of days with data. *)
Lemma addToDay_keys (key : Z) (amt : Q) (o : list Day) :
  map day (addToDay key amt o)
  = if in_dec Z.eq_dec key (map day o) then map day o
    else (map day o ++ [key])%list.
Proof.
induction o as [|d rest IH]; cbn [addToDay map]; [reflexivity|].
destruct (Z.eqb_spec (day d) key) as [E|E].
- cbn [map day]. destruct (in_dec Z.eq_dec key (day d :: map day rest)) as [_|H];
    [rewrite E; reflexivity|].
  exfalso. apply H. left. exact E.
- cbn [map]. rewrite IH.
  destruct (in_dec Z.eq_dec key (map day rest)) as [H|H];
    destruct (in_dec Z.eq_dec key (day d :: map day rest)) as [H'|H'];
    try reflexivity.
  + exfalso. apply H'. right. exact H.
  + destruct H' as [H'|H']; [contradiction|contradiction].
Qed.

Lemma addToDay_NoDup (key : Z) (amt : Q) (o : list Day) :
  NoDup (map day o) -> NoDup (map day (addToDay key amt o)).
Proof.
intros H. rewrite addToDay_keys.
destruct (in_dec Z.eq_dec key (map day o)) as [Hin|Hin]; [exact H|].
apply NoDup_app; [exact H|repeat constructor; intros []|].
intros x Hx [Hk|[]]. subst x. contradiction.
Qed.

Lemma addToDay_In (key : Z) (amt : Q) (o : list Day) (x : Z) :
  In x (map day (addToDay key amt o)) <-> In x (map day o) \/ x = key.
Proof.
rewrite addToDay_keys.
destruct (in_dec Z.eq_dec key (map day o)) as [Hin|Hin].
- split; [intros H; left; exact H|]. intros [H|H]; [exact H|subst x; exact Hin].
- rewrite in_app_iff. cbn. intuition congruence.
Qed.

Lemma dailyTotals_keys (exps : list Expense.t) : forall o,
  NoDup (map day o) ->
  let o' := fold_left (fun o e => addToDay (dateKey (date e)) (amount e) o)
                      exps o in
  NoDup (map day o') /\
  forall x, In x (map day o') <->
            In x (map day o) \/ In x (map (fun e => dateKey (date e)) exps).
Proof.
induction exps as [|e rest IH]; intros o Hnd; cbn [fold_left map].
- split; [exact Hnd|]. intros x. cbn. tauto.
- destruct (IH (addToDay (dateKey (date e)) (amount e) o)
              (addToDay_NoDup _ _ _ Hnd)) as [Hnd' Hin'].
  split; [exact Hnd'|]. intros x. rewrite Hin', addToDay_In. cbn.
  intuition congruence.
Qed.

Lemma insertDay_perm (x : Day) (l : list Day) :
  Permutation (insertDay x l) (x :: l).
Proof.
induction l as [|y rest IH]; cbn [insertDay]; [reflexivity|].
destruct (day x <=? day y)%Z; [reflexivity|].
rewrite IH. apply perm_swap.
Qed.

Lemma sortDays_perm (l : list Day) : Permutation (sortDays l) l.
Proof.
induction l as [|x l IH]; cbn [sortDays fold_right]; [reflexivity|].
rewrite insertDay_perm. apply perm_skip. exact IH.
Qed.

Lemma groupExpensesByDay_length (exps : list Expense.t) :
  length (groupExpensesByDay exps) = daysWithData exps.
Proof.
unfold groupExpensesByDay, daysWithData.
rewrite (Permutation_length (sortDays_perm _)).
destruct (dailyTotals_keys exps [] (NoDup_nil _)) as [Hnd Hin].
rewrite <- (length_map day).
apply Permutation_length, NoDup_Permutation;
  [exact Hnd|apply NoDup_nodup|].
intros x. rewrite Hin, nodup_In. cbn. tauto.
Qed.

(** C4, as stated, fails: two approved expenses of 10 on two different days
    give an average of 20 per day, where the total over the two days with
    data is 10 per day. *)
Lemma avgDailySpend_not_per_day_with_data :
  let exps := [expenseOn 1 10 0; expenseOn 2 10 1] in
  Forecast.daysWithData exps = 2%nat /\
  length (Forecast.groupExpensesByDay exps) = 2%nat /\
  Forecast.avgDailySpend_spec exps == 10 /\
  exists avg, forecastAvg defaults (Some (activeTeam 1000 0)) exps 30 = Some avg
              /\ avg == 20 /\ ~ avg == Forecast.avgDailySpend_spec exps.
Proof.
  cbv zeta. repeat split; try reflexivity.
  eexists. split; [reflexivity|]. split; [reflexivity|].
  vm_compute. discriminate.
Qed.

(** C4, amended: for every non-empty list of approved expenses in the
    lookback window, the forecast's average daily spending is the total
    recent spend divided by [max(1, n / 2)], [n] being the number of those
    expenses. *)
Theorem avgDailySpending_by_half_count
    (svc : BudgetService.t) (team : Team.t) (exps : list Expense.t) (days : Q) :
  Team.isActive team = true ->
  exps <> [] ->
  forecastAvg svc (Some team) exps days
  = Some (Forecast.totalRecentSpend exps
          / Js.max 1 (Forecast.ofNat (length exps) / 2)).
Proof.
  intros Ha Hne. unfold forecastAvg, Forecast.calculateBudgetForecast.
  rewrite Ha. cbn [negb].
  destruct exps as [|e rest]; [contradiction|].
  cbn [length Nat.eqb Forecast.avgDailySpending].
  unfold Forecast.totalRecentSpend, Js.sum. rewrite fold_amounts. reflexivity.
Qed.

Lemma avgDailySpending_by_half_count_witness :
  forecastAvg defaults (Some (activeTeam 1000 0))
              [expenseOn 1 10 0; expenseOn 2 10 1; expenseOn 3 25 1] 30
  = Some (Forecast.totalRecentSpend
            [expenseOn 1 10 0; expenseOn 2 10 1; expenseOn 3 25 1]
          / Js.max 1 (Forecast.ofNat 3 / 2)).
Proof.
  apply (@avgDailySpending_by_half_count defaults (activeTeam 1000 0)
           [expenseOn 1 10 0; expenseOn 2 10 1; expenseOn 3 25 1] 30).
  - reflexivity.
  - discriminate.
Defined.

Lemma sumDays_sum (l : list Day) : sumDays l = Js.sum (map dayAmount l).
Proof.
unfold sumDays, Js.sum. generalize 0.
induction l as [|d l IH]; intros a; [reflexivity|apply IH].
Qed.

Lemma fold_plus_nonneg (l : list Q) : forall a,
  0 <= a -> Forall (fun x => 0 <= x) l -> 0 <= fold_left Qplus l a.
Proof.
induction l as [|x l IH]; intros a Ha Hl; [exact Ha|].
inversion Hl as [|? ? Hx Hrest]; subst. cbn beta in Hx.
cbn [fold_left]. apply IH; [lra|assumption].
Qed.

Lemma sum_nonneg (l : list Day) :
  Forall (fun d => 0 <= dayAmount d) l -> 0 <= Js.sum (map dayAmount l).
Proof.
intros H. apply fold_plus_nonneg; [lra|].
induction H; constructor; assumption.
Qed.

Lemma ofNat_pos (n : nat) : (0 < n)%nat -> 0 < ofNat n.
Proof.
intros H. unfold ofNat, Qlt. cbn. lia.
Qed.

Lemma div_nonneg (a b : Q) : 0 <= a -> 0 < b -> 0 <= a / b.
Proof.
intros Ha Hb. apply Qle_shift_div_l; [assumption|]. rewrite Qmult_0_l. exact Ha.
Qed.

Lemma max_one_cases (a : Q) :
  (a < 1 /\ Js.max a 1 = 1) \/ (1 <= a /\ Js.max a 1 = a).
Proof.
unfold Js.max. destruct (ltb a 1) eqn:E.
- left. apply ltb_lt in E. split; [assumption|reflexivity].
- right. apply ltb_ge in E. split; [assumption|reflexivity].
Qed.

(** Comparing a percentage [d / m * 100] with a cutoff, without the
    division. *)
Lemma percent_gt (d m c : Q) : 0 < m -> (c < d / m * 100 <-> c * m < d * 100).
Proof.
intros Hm.
assert (E : d / m * 100 * m == d * 100) by (field; lra).
rewrite <- E. symmetry. apply Qmult_lt_r. assumption.
Qed.

Lemma percent_le (d m c : Q) : 0 < m -> (d / m * 100 <= c <-> d * 100 <= c * m).
Proof.
intros Hm.
assert (E : d / m * 100 * m == d * 100) by (field; lra).
rewrite <- E. symmetry. apply Qmult_le_r. assumption.
Qed.

(** The trend of at least three daily totals, on the averages of the two
    halves. *)
Lemma calculateSpendingTrend_halves (totals : list Day) :
  (3 <= length totals)%nat ->
  calculateSpendingTrend totals =
    let a1 := fst (halfAverages totals) in
    let a2 := snd (halfAverages totals) in
    let pct := Qabs (a2 - a1) / Js.max a1 1 * 100 in
    if ltb (a1 * (1 # 10)) (Qabs (a2 - a1)) then
      {| direction := if ltb 0 (a2 - a1) then increasing else decreasing;
         strength := if ltb 50 pct then high
                     else if ltb 20 pct then medium else low;
         percentageChange := Some pct |}
    else {| direction := stable; strength := low;
            percentageChange := Some pct |}.
Proof.
intros Hlen. unfold calculateSpendingTrend, halfAverages.
destruct (Nat.ltb_spec (length totals) 3); [lia|].
rewrite !sumDays_sum, length_firstn, length_skipn.
rewrite Nat.min_l by (apply Nat.Div0.div_le_upper_bound; lia).
reflexivity.
Qed.

Lemma firstHalfAvg_nonneg (totals : list Day) :
  (2 <= length totals)%nat ->
  Forall (fun d => 0 <= dayAmount d) totals ->
  0 <= fst (halfAverages totals).
Proof.
intros Hlen Hpos. unfold halfAverages. cbn [fst].
apply div_nonneg.
- apply sum_nonneg. rewrite <- (firstn_skipn (length totals / 2)) in Hpos.
  apply Forall_app in Hpos. apply Hpos.
- apply ofNat_pos. apply Nat.div_str_pos. lia.
Qed.

(** C5, as stated, fails on the strength: the daily totals 0.5, 0.5, 0.5,
    0.8, 0.8, 0.8 have half averages 0.5 and 0.8, a change of 60 percent,
    above the 50 percent cutoff, and the strength returned is medium. *)
Lemma strength_not_relative_below_one :
  let totals := dayTotals [5 # 10; 5 # 10; 5 # 10; 8 # 10; 8 # 10; 8 # 10]
                          [1; 2; 3; 4; 5; 6]%Z in
  relativeChangePercent totals == 60 /\
  strength_spec totals = high /\
  direction (calculateSpendingTrend totals) = increasing /\
  strength (calculateSpendingTrend totals) = medium.
Proof. cbv zeta. repeat split; reflexivity. Qed.

(** The same totals in the arithmetic of the code. *)
Lemma strength_below_one_binary64 :
  let totals := doubleTotals
                  [Binary64.decimal 5 10; Binary64.decimal 5 10;
                   Binary64.decimal 5 10; Binary64.decimal 8 10;
                   Binary64.decimal 8 10; Binary64.decimal 8 10]
                  [1; 2; 3; 4; 5; 6]%Z in
  Double.direction (Double.calculateSpendingTrend totals) = increasing /\
  Double.strength (Double.calculateSpendingTrend totals) = medium.
Proof. cbv zeta. split; vm_compute; reflexivity. Qed.

(** Rounding decides at the 10% cutoff: for the totals 0.30, 0.33, 0.33
    the difference of the averages, computed as 0.03000000000000003,
    exceeds the tenth of the first, and the trend is increasing. *)
Lemma trend_at_rounded_cutoff :
  let totals := doubleTotals
                  [Binary64.decimal 30 100; Binary64.decimal 33 100;
                   Binary64.decimal 33 100] [1; 2; 3]%Z in
  Double.direction (Double.calculateSpendingTrend totals) = increasing.
Proof. vm_compute. reflexivity. Qed.

(** The sum of [reduce] and the lengths of the halves. *)
Lemma double_sumDays (l : list Double.Day) :
  Double.sumDays l
  = fold_left Binary64.add (map Double.dayAmount l) (Binary64.ofZ 0).
Proof.
unfold Double.sumDays. generalize (Binary64.ofZ 0).
induction l as [|d l IH]; intros a; [reflexivity|]. cbn [fold_left map].
apply IH.
Qed.

Lemma double_trend_halves (totals : list Double.Day) :
  (3 <= length totals)%nat ->
  Double.calculateSpendingTrend totals
  = let a1 := fst (doubleHalfAverages totals) in
    let a2 := snd (doubleHalfAverages totals) in
    let difference := Binary64.sub a2 a1 in
    let pct :=
      Binary64.mul
        (Binary64.div (Binary64.abs difference)
                      (Binary64.max a1 (Binary64.ofZ 1)))
        (Binary64.ofZ 100) in
    if Binary64.ltb (Binary64.mul a1 (Binary64.decimal 1 10))
                    (Binary64.abs difference)
    then {| Double.direction :=
              if Binary64.ltb (Binary64.ofZ 0) difference then increasing
              else decreasing;
            Double.strength :=
              if Binary64.ltb (Binary64.ofZ 50) pct then high
              else if Binary64.ltb (Binary64.ofZ 20) pct then medium
                   else low;
            Double.percentageChange := Some pct |}
    else {| Double.direction := stable; Double.strength := low;
            Double.percentageChange := Some pct |}.
Proof.
intros Hlen. unfold Double.calculateSpendingTrend, doubleHalfAverages.
destruct (Nat.ltb_spec (length totals) 3); [lia|].
cbv zeta. cbn [fst snd]. rewrite !double_sumDays.
assert (Hh : (length totals / 2 <= length totals)%nat)
  by (apply Nat.Div0.div_le_upper_bound; lia).
rewrite length_firstn, length_skipn, Nat.min_l by exact Hh.
reflexivity.
Qed.

(** C5, amended: fewer than three daily totals give [insufficient_data].
    For at least three, with [a1] and [a2] the averages of the first
    [floor(n/2)] and of the remaining totals and all operations those of
    JavaScript's numbers: the trend has moved when [|a2 - a1|] exceeds
    [a1 * 0.1]; the direction is then increasing when [a2 - a1] is
    positive and decreasing otherwise, and it is stable when the trend has
    not moved; the strength of a trend that has moved is high, medium or
    low as the percentage [|a2 - a1| / max(a1, 1) * 100] is above 50, above
    20, or not, and the strength of a stable trend is low; the totals 10,
    10, 10, 50, 50, 50 give increasing and high. *)
Theorem spending_trend_rule :
  (forall totals, (length totals < 3)%nat ->
     Double.direction (Double.calculateSpendingTrend totals)
     = insufficient_data /\
     Double.strength (Double.calculateSpendingTrend totals) = strength0) /\
  (forall totals,
     (3 <= length totals)%nat ->
     let a1 := fst (doubleHalfAverages totals) in
     let a2 := snd (doubleHalfAverages totals) in
     let difference := Binary64.sub a2 a1 in
     let pct :=
       Binary64.mul
         (Binary64.div (Binary64.abs difference)
                       (Binary64.max a1 (Binary64.ofZ 1)))
         (Binary64.ofZ 100) in
     let moved := Binary64.ltb (Binary64.mul a1 (Binary64.decimal 1 10))
                               (Binary64.abs difference) in
     let t := Double.calculateSpendingTrend totals in
     (Double.direction t = increasing <->
      moved = true /\ Binary64.ltb (Binary64.ofZ 0) difference = true) /\
     (Double.direction t = decreasing <->
      moved = true /\ Binary64.ltb (Binary64.ofZ 0) difference = false) /\
     (Double.direction t = stable <-> moved = false) /\
     (Double.strength t = high <->
      moved = true /\ Binary64.ltb (Binary64.ofZ 50) pct = true) /\
     (Double.strength t = medium <->
      moved = true /\ Binary64.ltb (Binary64.ofZ 50) pct = false /\
      Binary64.ltb (Binary64.ofZ 20) pct = true) /\
     (Double.strength t = low <->
      moved = false \/
      (Binary64.ltb (Binary64.ofZ 50) pct = false /\
       Binary64.ltb (Binary64.ofZ 20) pct = false)) /\
     Double.percentageChange t = Some pct) /\
  (forall d1 d2 d3 d4 d5 d6,
     let t := Double.calculateSpendingTrend
                (doubleTotals
                   (map Binary64.ofZ [10; 10; 10; 50; 50; 50]%Z)
                   [d1; d2; d3; d4; d5; d6]) in
     Double.direction t = increasing /\ Double.strength t = high).
Proof.
split; [|split].
- intros totals Hlen. unfold Double.calculateSpendingTrend.
  destruct (Nat.ltb_spec (length totals) 3); [split; reflexivity|lia].
- intros totals Hlen a1 a2 difference pct moved t.
  subst t. rewrite double_trend_halves by exact Hlen.
  cbv zeta. fold a1 a2. fold difference. fold pct. fold moved.
  destruct moved; cbn [Double.direction Double.strength Double.percentageChange].
  + destruct (Binary64.ltb (Binary64.ofZ 0) difference),
             (Binary64.ltb (Binary64.ofZ 50) pct),
             (Binary64.ltb (Binary64.ofZ 20) pct);
      repeat split; try discriminate; try reflexivity;
      try (intros [Hx Hy]; discriminate);
      try (intros (Hx & Hy & Hz); discriminate);
      try (intros [Hx|[Hx Hy]]; discriminate);
      try (intros _; right; split; reflexivity).
  + repeat split; try discriminate; try reflexivity;
      try (intros [Hx Hy]; discriminate);
      try (intros (Hx & Hy & Hz); discriminate).
    intros _. left. reflexivity.
- intros. cbv zeta. split; vm_compute; reflexivity.
Qed.

Lemma spending_trend_rule_witness :
  let totals := doubleTotals
                  [Binary64.decimal 30 100; Binary64.decimal 33 100;
                   Binary64.decimal 33 100] [1; 2; 3]%Z in
  let a1 := fst (doubleHalfAverages totals) in
  let a2 := snd (doubleHalfAverages totals) in
  let difference := Binary64.sub a2 a1 in
  let pct :=
    Binary64.mul
      (Binary64.div (Binary64.abs difference)
                    (Binary64.max a1 (Binary64.ofZ 1)))
      (Binary64.ofZ 100) in
  let moved := Binary64.ltb (Binary64.mul a1 (Binary64.decimal 1 10))
                            (Binary64.abs difference) in
  let t := Double.calculateSpendingTrend totals in
  (Double.direction t = increasing <->
   moved = true /\ Binary64.ltb (Binary64.ofZ 0) difference = true) /\
  (Double.direction t = decreasing <->
   moved = true /\ Binary64.ltb (Binary64.ofZ 0) difference = false) /\
  (Double.direction t = stable <-> moved = false) /\
  (Double.strength t = high <->
   moved = true /\ Binary64.ltb (Binary64.ofZ 50) pct = true) /\
  (Double.strength t = medium <->
   moved = true /\ Binary64.ltb (Binary64.ofZ 50) pct = false /\
   Binary64.ltb (Binary64.ofZ 20) pct = true) /\
  (Double.strength t = low <->
   moved = false \/
   (Binary64.ltb (Binary64.ofZ 50) pct = false /\
    Binary64.ltb (Binary64.ofZ 20) pct = false)) /\
  Double.percentageChange t = Some pct.
Proof.
intros totals.
apply (proj1 (proj2 spending_trend_rule) totals).
cbn. lia.
Defined.

(** ** Text similarity *)

Lemma lev_0 str1 str2 j : lev str1 str2 0 j = j.
Proof. reflexivity. Qed.

Lemma lev_S_0 str1 str2 i : lev str1 str2 (S i) 0 = S i.
Proof. reflexivity. Qed.

Lemma lev_S_S str1 str2 i j :
  lev str1 str2 (S i) (S j)
  = min3 (lev str1 str2 i (S j) + 1) (lev str1 str2 (S i) j + 1)
         (lev str1 str2 i j + cost (charAt j str1) (charAt i str2)).
Proof. reflexivity. Qed.

Lemma lev_i_0 str1 str2 i : lev str1 str2 i 0 = i.
Proof. destruct i; reflexivity. Qed.

#[local] Opaque lev.

Lemma charAt_head c rest str k :
  (forall n, String.get n (String c rest) = String.get (k + n) str) ->
  charAt k str = c.
Proof.
intros H. specialize (H 0%nat). rewrite Nat.add_0_r in H.
unfold charAt. rewrite <- H. reflexivity.
Qed.

Lemma suffix_tail c rest str k :
  (forall n, String.get n (String c rest) = String.get (k + n) str) ->
  forall n, String.get n rest = String.get (S k + n) str.
Proof.
intros H n. specialize (H (S n)). rewrite Nat.add_succ_r in H. exact H.
Qed.

(** The inner loop computes the rest of row [i + 1]. *)
Lemma fillRow_lev str1 str2 i : forall rest j prevTail left,
  (forall n, String.get n rest = String.get (j + n) str1) ->
  prevTail = map (lev str1 str2 i) (seq j (S (String.length rest))) ->
  left = lev str1 str2 (S i) j ->
  fillRow (charAt i str2) rest prevTail left
  = map (lev str1 str2 (S i)) (seq (S j) (String.length rest)).
Proof.
induction rest as [|c1 rest IH]; intros j prevTail left Hsuf Hprev Hleft.
- reflexivity.
- subst prevTail left. cbn [String.length seq map fillRow].
  rewrite lev_S_S, (@charAt_head _ _ _ _ Hsuf). f_equal.
  apply IH; [apply (@suffix_tail _ _ _ _ Hsuf)|reflexivity|].
  rewrite lev_S_S, (@charAt_head _ _ _ _ Hsuf). reflexivity.
Qed.

(** The outer loop computes the rows from [i + 1] on. *)
Lemma fillRows_lev str1 str2 : forall rest i prevRow,
  (forall n, String.get n rest = String.get (i + n) str2) ->
  prevRow = map (lev str1 str2 i) (seq 0 (S (String.length str1))) ->
  fillRows str1 rest (S i) prevRow
  = map (fun r => map (lev str1 str2 r) (seq 0 (S (String.length str1))))
        (seq (S i) (String.length rest)).
Proof.
induction rest as [|c2 rest IH]; intros i prevRow Hsuf Hprev.
- reflexivity.
- cbn [String.length seq map fillRows].
  assert (Hrow : S i :: fillRow c2 str1 prevRow (S i)
                 = map (lev str1 str2 (S i)) (seq 0 (S (String.length str1)))).
  { cbn [seq map]. rewrite lev_S_0. f_equal.
    rewrite <- (@charAt_head _ _ _ _ Hsuf).
    apply fillRow_lev; [reflexivity|exact Hprev|reflexivity]. }
  rewrite Hrow. f_equal.
  apply IH; [apply (@suffix_tail _ _ _ _ Hsuf)|reflexivity].
Qed.

Lemma matrix_lev str1 str2 :
  matrix str1 str2
  = map (fun r => map (lev str1 str2 r) (seq 0 (S (String.length str1))))
        (seq 0 (S (String.length str2))).
Proof.
unfold matrix. cbn [seq map].
assert (H0 : forall k n, seq k n = map (lev str1 str2 0) (seq k n)).
{ intros k n. rewrite <- (map_id (seq k n)) at 1. apply map_ext.
  intros a. symmetry. apply lev_0. }
f_equal.
- f_equal. apply H0.
- apply fillRows_lev; [reflexivity|]. cbn [seq map]. f_equal. apply H0.
Qed.

Lemma nth_map_seq {A} (f : nat -> A) (n k : nat) (d : A) :
  (k < n)%nat -> nth k (map f (seq 0 n)) d = f k.
Proof.
intros Hk. rewrite (nth_indep _ d (f 0%nat)) by (rewrite length_map, length_seq; exact Hk).
rewrite map_nth, seq_nth by exact Hk. reflexivity.
Qed.

(** The distance read off the matrix is the recurrence at [(n, m)]. *)
Lemma editDistance_lev str1 str2 :
  editDistance str1 str2
  = lev str1 str2 (String.length str2) (String.length str1).
Proof.
unfold editDistance. rewrite matrix_lev.
rewrite nth_map_seq by lia. apply nth_map_seq. lia.
Qed.

Lemma cost_sym a b : cost a b = cost b a.
Proof. unfold cost. rewrite Ascii.eqb_sym. reflexivity. Qed.

Lemma cost_refl a : cost a a = 0%nat.
Proof. unfold cost. rewrite Ascii.eqb_refl. reflexivity. Qed.

Lemma lev_sym str1 str2 : forall i j,
  lev str1 str2 i j = lev str2 str1 j i.
Proof.
induction i as [|i IHi]; intros j.
- rewrite lev_0, lev_i_0. reflexivity.
- induction j as [|j IHj].
  + rewrite lev_S_0, lev_0. reflexivity.
  + rewrite !lev_S_S, IHj, !IHi, cost_sym. unfold min3. lia.
Qed.

Lemma lev_le_max str1 str2 : forall i j,
  (lev str1 str2 i j <= Nat.max i j)%nat.
Proof.
induction i as [|i IHi]; intros j.
- rewrite lev_0. lia.
- induction j as [|j IHj].
  + rewrite lev_S_0. lia.
  + rewrite lev_S_S. specialize (IHi j). unfold min3, cost.
    destruct (Ascii.eqb _ _); lia.
Qed.

Lemma lev_diag str : forall i, lev str str i i = 0%nat.
Proof.
induction i as [|i IH]; [reflexivity|].
rewrite lev_S_S, IH, cost_refl. unfold min3. lia.
Qed.

#[local] Transparent lev.

Lemma ofNat_le (a b : nat) : (a <= b)%nat -> ofNat a <= ofNat b.
Proof. intros H. unfold ofNat, Qle. cbn. lia. Qed.

(** C6: the text similarity is symmetric, is 1 on identical inputs, and
    lies in [0, 1] for all strings, the non-empty ones in particular. *)
Theorem text_similarity_symmetric_bounded :
  (forall a b : string,
     calculateTextSimilarity a b = calculateTextSimilarity b a) /\
  (forall a : string, calculateTextSimilarity a a == 1) /\
  (forall a b : string,
     0 <= calculateTextSimilarity a b /\ calculateTextSimilarity a b <= 1).
Proof.
split; [|split].
- intros a b. unfold calculateTextSimilarity.
  rewrite !editDistance_lev, (lev_sym a b), (Nat.max_comm (String.length b)).
  destruct (String.length a), (String.length b); reflexivity.
- intros a. unfold calculateTextSimilarity.
  rewrite editDistance_lev, lev_diag, Nat.max_id.
  destruct (String.length a) as [|n] eqn:E; [reflexivity|].
  cbn [Nat.eqb]. unfold ofNat. cbn [Z.of_nat inject_Z].
  unfold Qeq. cbn. lia.
- intros a b. unfold calculateTextSimilarity.
  rewrite editDistance_lev.
  pose proof (lev_le_max a b (String.length b) (String.length a)) as Hle.
  rewrite Nat.max_comm in Hle.
  destruct (String.length b) as [|n] eqn:En;
    [destruct (String.length a); cbn [Nat.eqb]; lra|].
  destruct (String.length a) as [|m] eqn:Em; cbn [Nat.eqb]; [lra|].
  set (d := lev a b (S n) (S m)) in *.
  set (mx := Nat.max (S m) (S n)) in *.
  assert (Hpos : 0 < ofNat mx) by (apply ofNat_pos; lia).
  assert (H0 : 0 <= ofNat d / ofNat mx).
  { apply div_nonneg; [|assumption]. apply (ofNat_le (a:=0)). lia. }
  assert (H1 : ofNat d / ofNat mx <= 1).
  { apply Qle_shift_div_r; [assumption|]. rewrite Qmult_1_l.
    apply ofNat_le. exact Hle. }
  lra.
Qed.

(** C10: the similarity of two empty strings is 1; the similarity of an
    empty and a non-empty string is 0, in either order. *)
Theorem text_similarity_empty_strings :
  calculateTextSimilarity "" "" = 1 /\
  forall (c : ascii) (s : string),
    calculateTextSimilarity (String c s) "" = 0 /\
    calculateTextSimilarity "" (String c s) = 0.
Proof. split; [reflexivity|]. intros c s. split; reflexivity. Qed.

(** ** Suspicious expenses *)

Lemma duplicatesWith_app exp1 : forall rest suspicious,
  duplicatesWith exp1 rest suspicious
  = suspicious ++ map (duplicateFinding exp1) (filter (isDuplicate exp1) rest).
Proof.
induction rest as [|exp2 rest IH]; intros suspicious; cbn [duplicatesWith filter].
- rewrite app_nil_r. reflexivity.
- rewrite IH. destruct (isDuplicate exp1 exp2); [|reflexivity].
  rewrite <- app_assoc. reflexivity.
Qed.

Lemma duplicateLoop_app : forall exps suspicious,
  duplicateLoop exps suspicious = suspicious ++ duplicatePairs exps.
Proof.
induction exps as [|exp1 rest IH]; intros suspicious; cbn [duplicateLoop duplicatePairs].
- rewrite app_nil_r. reflexivity.
- rewrite IH, duplicatesWith_app, <- app_assoc. reflexivity.
Qed.

Lemma outlier_fold (threshold : Q) : forall exps suspicious,
  fold_left (fun susp e =>
               if ltb threshold (amount e)
               then (susp ++ [outlierFinding e])%list else susp)
            exps suspicious
  = suspicious
    ++ map outlierFinding (filter (fun e => ltb threshold (amount e)) exps).
Proof.
induction exps as [|e rest IH]; intros suspicious; cbn [fold_left filter].
- rewrite app_nil_r. reflexivity.
- rewrite IH. destruct (ltb threshold (amount e)); [|reflexivity].
  rewrite <- app_assoc. reflexivity.
Qed.

(** The findings are the duplicates, then the outliers. *)
Lemma detected_split exps :
  detected exps = duplicatePairs exps ++ outliersOf exps.
Proof.
unfold detected, outlierLoop, outliersOf. rewrite duplicateLoop_app.
cbn [app]. destruct (5 <? length exps)%nat.
- apply outlier_fold.
- rewrite app_nil_r. reflexivity.
Qed.

Lemma duplicatePairs_type exps :
  Forall (fun f => ftype f = potential_duplicate) (duplicatePairs exps).
Proof.
induction exps as [|e rest IH]; cbn [duplicatePairs]; [constructor|].
apply Forall_app. split; [|exact IH].
apply Forall_forall. intros f Hf. apply in_map_iff in Hf.
destruct Hf as (e2 & <- & _). reflexivity.
Qed.

Lemma outliersOf_type exps :
  Forall (fun f => ftype f = high_amount_outlier) (outliersOf exps).
Proof.
unfold outliersOf. destruct (5 <? length exps)%nat; [|constructor].
apply Forall_forall. intros f Hf. apply in_map_iff in Hf.
destruct Hf as (e & <- & _). reflexivity.
Qed.

Lemma filter_none {A} (p : A -> bool) (l : list A) :
  Forall (fun x => p x = false) l -> filter p l = [].
Proof.
induction 1 as [|x l Hx _ IH]; [reflexivity|]. cbn. rewrite Hx. exact IH.
Qed.

Lemma filter_all {A} (p : A -> bool) (l : list A) :
  Forall (fun x => p x = true) l -> filter p l = l.
Proof.
induction 1 as [|x l Hx _ IH]; [reflexivity|]. cbn. rewrite Hx, IH. reflexivity.
Qed.

Lemma detected_outliers exps :
  filter isOutlier (detected exps) = outliersOf exps.
Proof.
rewrite detected_split, filter_app.
rewrite filter_none, filter_all; [reflexivity| |].
- eapply Forall_impl; [|apply outliersOf_type].
  intros f Hf. unfold isOutlier. rewrite Hf. reflexivity.
- eapply Forall_impl; [|apply duplicatePairs_type].
  intros f Hf. unfold isOutlier. rewrite Hf. reflexivity.
Qed.

Lemma detected_duplicates exps f :
  In f (detected exps) /\ ftype f = potential_duplicate
  <-> In f (duplicatePairs exps).
Proof.
rewrite detected_split, in_app_iff. split.
- intros [[H|H] Ht]; [exact H|].
  pose proof (outliersOf_type exps) as Ho. rewrite Forall_forall in Ho.
  rewrite (Ho f H) in Ht. discriminate.
- intros H. split; [left; exact H|].
  pose proof (duplicatePairs_type exps) as Hd. rewrite Forall_forall in Hd.
  exact (Hd f H).
Qed.

Lemma duplicatePairs_In (exps : list Expense.t) (f : Finding) :
  In f (duplicatePairs exps) <->
  exists i j exp1 exp2,
    (i < j)%nat /\ nth_error exps i = Some exp1 /\ nth_error exps j = Some exp2
    /\ isDuplicate exp1 exp2 = true /\ f = duplicateFinding exp1 exp2.
Proof.
induction exps as [|e rest IH]; cbn [duplicatePairs].
- split; [intros []|]. intros (i & j & e1 & e2 & _ & H & _).
  destruct i; discriminate.
- rewrite in_app_iff, in_map_iff, IH. split.
  + intros [(e2 & <- & Hin)|(i & j & e1 & e2 & Hij & Hi & Hj & Hd & Hf)].
    * apply filter_In in Hin. destruct Hin as [Hin Hd].
      apply In_nth_error in Hin. destruct Hin as [k Hk].
      exists 0%nat, (S k), e, e2. repeat split; try assumption. lia.
    * exists (S i), (S j), e1, e2. repeat split; try assumption. lia.
  + intros (i & j & e1 & e2 & Hij & Hi & Hj & Hd & Hf).
    destruct j as [|j]; [lia|]. cbn [nth_error] in Hj.
    destruct i as [|i]; cbn [nth_error] in Hi.
    * injection Hi as ->. left. exists e2. split; [symmetry; exact Hf|].
      apply filter_In. split; [|exact Hd]. eapply nth_error_In. exact Hj.
    * right. exists i, j, e1, e2. repeat split; try assumption. lia.
Qed.

(** The test of the duplicate loop, condition by condition. *)
Lemma isDuplicate_iff exp1 exp2 :
  isDuplicate exp1 exp2 = true <->
  Qabs (amount exp1 - amount exp2) < 1 # 100 /\
  (Z.abs (date exp1 - date exp2) <= 7 * Forecast.msPerDay)%Z /\
  7 # 10 < descSimilarity exp1 exp2.
Proof.
unfold isDuplicate. rewrite !andb_true_iff, !ltb_lt, leb_le.
assert (Ht : timeDiff exp1 exp2 <= 7 <->
             (Z.abs (date exp1 - date exp2) <= 7 * Forecast.msPerDay)%Z).
{ unfold timeDiff. generalize (Z.abs (date exp1 - date exp2)). intros z.
  assert (Hpos : 0 < inject_Z Forecast.msPerDay) by reflexivity.
  split.
  - intros H. apply (Qmult_le_r _ _ _ Hpos) in H.
    assert (E : inject_Z z / inject_Z Forecast.msPerDay
                * inject_Z Forecast.msPerDay == inject_Z z)
      by (field; intros Hc; vm_compute in Hc; discriminate).
    rewrite E in H. unfold Qle, Forecast.msPerDay in *. cbn in H. lia.
  - intros H. apply Qle_shift_div_r; [exact Hpos|].
    unfold Qle, Forecast.msPerDay in *. cbn. lia. }
rewrite Ht. tauto.
Qed.

(** The sort of the amounts yields a sorted permutation. *)
Lemma insertAmount_perm (x : Q) (l : list Q) :
  Permutation (insertAmount x l) (x :: l).
Proof.
induction l as [|y rest IH]; cbn [insertAmount]; [reflexivity|].
destruct (leb x y); [reflexivity|].
rewrite IH. apply perm_swap.
Qed.

Lemma sortAmounts_perm (l : list Q) : Permutation (sortAmounts l) l.
Proof.
induction l as [|x l IH]; cbn [sortAmounts fold_right]; [reflexivity|].
rewrite insertAmount_perm. apply perm_skip. exact IH.
Qed.

Lemma insertAmount_hd (x y : Q) (l : list Q) :
  y <= x -> HdRel Qle y l -> HdRel Qle y (insertAmount x l).
Proof.
intros Hyx Hhd. destruct l as [|z rest]; cbn [insertAmount].
- constructor. exact Hyx.
- destruct (leb x z); constructor; [exact Hyx|].
  inversion Hhd; assumption.
Qed.

Lemma insertAmount_sorted (x : Q) (l : list Q) :
  Sorted Qle l -> Sorted Qle (insertAmount x l).
Proof.
induction 1 as [|y rest Hs IH Hhd]; cbn [insertAmount].
- repeat constructor.
- destruct (leb x y) eqn:E.
  + apply leb_le in E. repeat constructor; assumption.
  + constructor; [exact IH|]. apply insertAmount_hd; [|exact Hhd].
    unfold leb in E. apply not_true_iff_false in E.
    rewrite Qle_bool_iff in E. apply Qlt_le_weak, Qnot_le_lt, E.
Qed.

Lemma sortAmounts_sorted (l : list Q) : StronglySorted Qle (sortAmounts l).
Proof.
apply Sorted_StronglySorted; [exact Qle_trans|].
induction l as [|x l IH]; cbn [sortAmounts fold_right]; [constructor|].
apply insertAmount_sorted. exact IH.
Qed.

Lemma outlierThreshold_quartiles (exps : list Expense.t) :
  outlierThreshold exps =
    let sorted := sortAmounts (map amount exps) in
    let q1 := nth (length exps / 4) sorted 0 in
    let q3 := nth (3 * length exps / 4) sorted 0 in
    q3 + (15 # 10) * (q3 - q1).
Proof.
unfold outlierThreshold, floor_quarters. cbv zeta.
rewrite (Permutation_length (sortAmounts_perm _)), length_map.
rewrite Nat.mul_1_l. reflexivity.
Qed.

(** ** Order of the binary64 numbers *)

Section Binary64Order.

#[local] Open Scope Z_scope.




















End Binary64Order.

(** ** Suspicious expenses on binary64 amounts *)








Section DoubleDetection.

Variable toLowerCase : string -> string.

Lemma double_duplicatesWith_app exp1 : forall rest suspicious,
  Double.duplicatesWith toLowerCase exp1 rest suspicious
  = suspicious ++ map (Double.duplicateFinding toLowerCase exp1)
                      (filter (Double.isDuplicate toLowerCase exp1) rest).
Proof.
induction rest as [|exp2 rest IH]; intros suspicious;
  cbn [Double.duplicatesWith filter].
- rewrite app_nil_r. reflexivity.
- rewrite IH. destruct (Double.isDuplicate toLowerCase exp1 exp2); [|reflexivity].
  rewrite <- app_assoc. reflexivity.
Qed.

Lemma double_duplicateLoop_app : forall exps suspicious,
  Double.duplicateLoop toLowerCase exps suspicious
  = suspicious ++ doublePairs toLowerCase exps.
Proof.
induction exps as [|exp1 rest IH]; intros suspicious;
  cbn [Double.duplicateLoop doublePairs].
- rewrite app_nil_r. reflexivity.
- rewrite IH, double_duplicatesWith_app, <- app_assoc. reflexivity.
Qed.

Lemma double_outlier_fold (threshold : Binary64.number) : forall exps suspicious,
  fold_left (fun susp e =>
               if Binary64.ltb threshold (Double.amount e)
               then (susp ++ [Double.outlierFinding e])%list else susp)
            exps suspicious
  = suspicious
    ++ map Double.outlierFinding
           (filter (fun e => Binary64.ltb threshold (Double.amount e)) exps).
Proof.
induction exps as [|e rest IH]; intros suspicious; cbn [fold_left filter].
- rewrite app_nil_r. reflexivity.
- rewrite IH. destruct (Binary64.ltb threshold (Double.amount e)); [|reflexivity].
  rewrite <- app_assoc. reflexivity.
Qed.

(** The findings are the duplicates, then the outliers. *)
Lemma double_detected_split exps :
  Double.detected toLowerCase exps
  = doublePairs toLowerCase exps ++ doubleOutliers exps.
Proof.
unfold Double.detected, Double.outlierLoop, doubleOutliers.
rewrite double_duplicateLoop_app.
cbn [app]. destruct (5 <? length exps)%nat.
- apply double_outlier_fold.
- rewrite app_nil_r. reflexivity.
Qed.

Lemma doublePairs_type exps :
  Forall (fun f => ftype f = potential_duplicate) (doublePairs toLowerCase exps).
Proof.
induction exps as [|e rest IH]; cbn [doublePairs]; [constructor|].
apply Forall_app. split; [|exact IH].
apply Forall_forall. intros f Hf. apply in_map_iff in Hf.
destruct Hf as (e2 & <- & _). reflexivity.
Qed.

Lemma doubleOutliers_type exps :
  Forall (fun f => ftype f = high_amount_outlier) (doubleOutliers exps).
Proof.
unfold doubleOutliers. destruct (5 <? length exps)%nat; [|constructor].
apply Forall_forall. intros f Hf. apply in_map_iff in Hf.
destruct Hf as (e & <- & _). reflexivity.
Qed.


Lemma double_detected_duplicates exps f :
  In f (Double.detected toLowerCase exps) /\ ftype f = potential_duplicate
  <-> In f (doublePairs toLowerCase exps).
Proof.
rewrite double_detected_split, in_app_iff. split.
- intros [[H|H] Ht]; [exact H|].
  pose proof (doubleOutliers_type exps) as Ho. rewrite Forall_forall in Ho.
  rewrite (Ho f H) in Ht. discriminate.
- intros H. split; [left; exact H|].
  pose proof (doublePairs_type exps) as Hd. rewrite Forall_forall in Hd.
  exact (Hd f H).
Qed.

Lemma doublePairs_In (exps : list Double.Expense) (f : Finding) :
  In f (doublePairs toLowerCase exps) <->
  exists i j exp1 exp2,
    (i < j)%nat /\ nth_error exps i = Some exp1 /\ nth_error exps j = Some exp2
    /\ Double.isDuplicate toLowerCase exp1 exp2 = true
    /\ f = Double.duplicateFinding toLowerCase exp1 exp2.
Proof.
induction exps as [|e rest IH]; cbn [doublePairs].
- split; [intros []|]. intros (i & j & e1 & e2 & _ & H & _).
  destruct i; discriminate.
- rewrite in_app_iff, in_map_iff, IH. split.
  + intros [(e2 & <- & Hin)|(i & j & e1 & e2 & Hij & Hi & Hj & Hd & Hf)].
    * apply filter_In in Hin. destruct Hin as [Hin Hd].
      apply In_nth_error in Hin. destruct Hin as [k Hk].
      exists 0%nat, (S k), e, e2. repeat split; try assumption. lia.
    * exists (S i), (S j), e1, e2. repeat split; try assumption. lia.
  + intros (i & j & e1 & e2 & Hij & Hi & Hj & Hd & Hf).
    destruct j as [|j]; [lia|]. cbn [nth_error] in Hj.
    destruct i as [|i]; cbn [nth_error] in Hi.
    * injection Hi as ->. left. exists e2. split; [symmetry; exact Hf|].
      apply filter_In. split; [|exact Hd]. eapply nth_error_In. exact Hj.
    * right. exists i, j, e1, e2. repeat split; try assumption. lia.
Qed.

(** The test of the duplicate loop, condition by condition. *)
Lemma double_isDuplicate_iff exp1 exp2 :
  Double.isDuplicate toLowerCase exp1 exp2 = true <->
  Binary64.ltb (Binary64.abs (Binary64.sub (Double.amount exp1)
                                           (Double.amount exp2)))
               (Binary64.decimal 1 100) = true /\
  (Z.abs (Double.date exp1 - Double.date exp2) <= 7 * Forecast.msPerDay)%Z /\
  7 # 10 < calculateTextSimilarity (toLowerCase (Double.description exp1))
                                   (toLowerCase (Double.description exp2)).
Proof.
unfold Double.isDuplicate, Double.descSimilarity.
rewrite !andb_true_iff, !ltb_lt, leb_le.
assert (Ht : Double.timeDiff exp1 exp2 <= 7 <->
             (Z.abs (Double.date exp1 - Double.date exp2)
              <= 7 * Forecast.msPerDay)%Z).
{ unfold Double.timeDiff.
  generalize (Z.abs (Double.date exp1 - Double.date exp2)). intros z.
  assert (Hpos : 0 < inject_Z Forecast.msPerDay) by reflexivity.
  split.
  - intros H. apply (Qmult_le_r _ _ _ Hpos) in H.
    assert (E : inject_Z z / inject_Z Forecast.msPerDay
                * inject_Z Forecast.msPerDay == inject_Z z)
      by (field; intros Hc; vm_compute in Hc; discriminate).
    rewrite E in H. unfold Qle, Forecast.msPerDay in *. cbn in H. lia.
  - intros H. apply Qle_shift_div_r; [exact Hpos|].
    unfold Qle, Forecast.msPerDay in *. cbn. lia. }
rewrite Ht. tauto.
Qed.


End DoubleDetection.

(** The rounding of the subtraction decides: of the amounts 8.38, 21.38,
    40.88, 8.38, 21.38, 21.38 the quartiles are 8.38 and 21.38, their
    difference is below 13, and the expense of 40.88 is flagged. *)
Lemma outlier_at_rounded_bound (toLowerCase : string -> string) :
  suspicious (Double.detectSuspiciousExpenses toLowerCase spikeWindow64)
  = [ {| ftype := high_amount_outlier; expenses := [3%nat];
         fconfidence := 7 # 10 |} ].
Proof. vm_compute. reflexivity. Qed.



(** The rounding of the subtraction decides: [10.01 - 10] computes to a
    number below 0.01, and the expenses of 10 and 10.01 pass the test of
    the amounts. *)
Lemma amounts_at_rounded_cutoff :
  Binary64.ltb
    (Binary64.abs (Binary64.sub (Binary64.decimal 1001 100) (Binary64.ofZ 10)))
    (Binary64.decimal 1 100) = true.
Proof. vm_compute. reflexivity. Qed.

(** C8: a pair of expenses of the window, [exp1] before [exp2] in the order
    of the window, is recorded as a duplicate finding, with the similarity
    of the lower-cased descriptions as confidence, exactly when
    [|amount1 - amount2| < 0.01] as JavaScript numbers, the dates are at
    most 7 days apart and that similarity exceeds 0.7; two expenses of
    50.00, two days apart, described as "Team lunch" and "Team Lunch ", are
    flagged, in either order. *)
Theorem duplicate_detection :
  (forall (toLowerCase : string -> string) (exps : list Double.Expense)
          (f : Finding),
     In f (Double.detected toLowerCase exps) /\
     ftype f = potential_duplicate <->
     exists i j exp1 exp2,
       (i < j)%nat /\
       nth_error exps i = Some exp1 /\ nth_error exps j = Some exp2 /\
       Binary64.ltb
         (Binary64.abs (Binary64.sub (Double.amount exp1)
                                     (Double.amount exp2)))
         (Binary64.decimal 1 100) = true /\
       (Z.abs (Double.date exp1 - Double.date exp2)
        <= 7 * Forecast.msPerDay)%Z /\
       7 # 10 < calculateTextSimilarity
                  (toLowerCase (Double.description exp1))
                  (toLowerCase (Double.description exp2)) /\
       f = {| ftype := potential_duplicate;
              expenses := [Double._id exp1; Double._id exp2];
              fconfidence :=
                calculateTextSimilarity
                  (toLowerCase (Double.description exp1))
                  (toLowerCase (Double.description exp2)) |}) /\
  (forall (toLowerCase : string -> string) (id1 id2 : nat) (t : Z),
     toLowerCase "Team lunch"%string = "team lunch"%string ->
     toLowerCase "Team Lunch "%string = "team lunch "%string ->
     let lunch1 := {| Double._id := id1; Double.amount := Binary64.ofZ 50;
                      Double.description := "Team lunch";
                      Double.date := t |} in
     let lunch2 := {| Double._id := id2; Double.amount := Binary64.ofZ 50;
                      Double.description := "Team Lunch ";
                      Double.date := t + 2 * Forecast.msPerDay |} in
     suspicious (Double.detectSuspiciousExpenses toLowerCase [lunch2; lunch1])
     = [ {| ftype := potential_duplicate; expenses := [id2; id1];
            fconfidence := 10 # 11 |} ] /\
     suspicious (Double.detectSuspiciousExpenses toLowerCase [lunch1; lunch2])
     = [ {| ftype := potential_duplicate; expenses := [id1; id2];
            fconfidence := 10 # 11 |} ]).
Proof.
split.
- intros toLowerCase exps f.
  rewrite double_detected_duplicates, doublePairs_In.
  split; intros (i & j & e1 & e2 & Hij & Hi & Hj & H).
  + destruct H as [Hd ->]. apply double_isDuplicate_iff in Hd.
    destruct Hd as (Ha & Ht & Hs).
    exists i, j, e1, e2. repeat split; assumption.
  + destruct H as (Ha & Ht & Hs & ->).
    exists i, j, e1, e2. repeat split; try assumption.
    apply double_isDuplicate_iff. repeat split; assumption.
- intros toLowerCase id1 id2 t L1 L2 lunch1 lunch2.
  assert (H21 : Double.isDuplicate toLowerCase lunch2 lunch1 = true).
  { apply double_isDuplicate_iff. cbn [Double.description lunch1 lunch2].
    rewrite L1, L2. repeat split.
    cbn [Double.date lunch1 lunch2]. unfold Forecast.msPerDay. lia. }
  assert (H12 : Double.isDuplicate toLowerCase lunch1 lunch2 = true).
  { apply double_isDuplicate_iff. cbn [Double.description lunch1 lunch2].
    rewrite L1, L2. repeat split.
    cbn [Double.date lunch1 lunch2]. unfold Forecast.msPerDay. lia. }
  unfold Double.detectSuspiciousExpenses, Double.detected, Double.outlierLoop.
  cbn [suspicious length Nat.ltb Nat.leb Double.duplicateLoop
       Double.duplicatesWith].
  rewrite H21, H12.
  unfold Double.duplicateFinding, Double.descSimilarity.
  cbn [Double.description Double._id lunch1 lunch2 app firstn].
  rewrite L1, L2. split; reflexivity.
Qed.

Lemma duplicate_detection_witness :
  let lunch1 := {| Double._id := 1; Double.amount := Binary64.ofZ 50;
                   Double.description := "Team lunch";
                   Double.date := 0 |} in
  let lunch2 := {| Double._id := 2; Double.amount := Binary64.ofZ 50;
                   Double.description := "Team Lunch ";
                   Double.date := 0 + 2 * Forecast.msPerDay |} in
  suspicious (Double.detectSuspiciousExpenses AIService.toLowerCase
                [lunch2; lunch1])
  = [ {| ftype := potential_duplicate; expenses := [2%nat; 1%nat];
         fconfidence := 10 # 11 |} ] /\
  suspicious (Double.detectSuspiciousExpenses AIService.toLowerCase
                [lunch1; lunch2])
  = [ {| ftype := potential_duplicate; expenses := [1%nat; 2%nat];
         fconfidence := 10 # 11 |} ].
Proof.
apply (proj2 duplicate_detection AIService.toLowerCase 1%nat 2%nat 0%Z);
  reflexivity.
Defined.

(** ** Category fallback *)

(** [includes] is substring containment. *)
Lemma prefix_app (kw s : string) :
  String.prefix kw s = true <-> exists post, s = (kw ++ post)%string.
Proof.
revert s. induction kw as [|c kw IH]; intros s.
- destruct s; cbn; split; intros; try reflexivity; eexists; reflexivity.
- destruct s as [|c' s]; cbn [String.prefix].
  + split; [discriminate|]. intros [post H]. discriminate.
  + destruct (ascii_dec c c') as [->|Hne].
    * rewrite IH. split; intros [post H]; exists post.
      -- cbn. rewrite H. reflexivity.
      -- cbn in H. injection H as H. exact H.
    * split; [discriminate|]. intros [post H]. cbn in H.
      injection H as H1 H2. congruence.
Qed.

Lemma includes_substring (s kw : string) :
  includes s kw = true <->
  exists pre post, s = (pre ++ kw ++ post)%string.
Proof.
induction s as [|c s IH]; cbn [includes]; rewrite orb_true_iff, prefix_app.
- split.
  + intros [[post H]|H]; [|discriminate]. exists ""%string, post. exact H.
  + intros (pre & post & H). left.
    destruct pre; [|discriminate]. exists post. exact H.
- rewrite IH. split.
  + intros [[post H]|(pre & post & H)].
    * exists ""%string, post. exact H.
    * exists (String c pre), post. cbn. rewrite H. reflexivity.
  + intros (pre & post & H). destruct pre as [|c' pre].
    * left. exists post. exact H.
    * right. cbn in H. injection H as _ H. exists pre, post. exact H.
Qed.

Section Fallback.

Variable desc : string.

Lemma entryConfidence_bounds entry :
  (0 < matchCount desc entry)%nat ->
  5 # 10 <= entryConfidence desc entry /\ entryConfidence desc entry <= 8 # 10.
Proof.
intros Hpos. unfold entryConfidence, Js.min.
assert (H1 : 1 <= ofNat (matchCount desc entry)) by (apply (ofNat_le (a:=1)); lia).
destruct (ltb _ _) eqn:E; [apply ltb_lt in E|apply ltb_ge in E]; lra.
Qed.

Lemma scoreEntry_cases (best : Suggestion) (entry : Category * list string) :
  scoreEntry desc best entry =
    if (0 <? matchCount desc entry)%nat then
      if ltb (AIService.confidence best) (entryConfidence desc entry)
      then {| category := fst entry;
              confidence := entryConfidence desc entry;
              reasoning := ("Matched keywords: "
                            ++ join (matchesOf desc (snd entry)))%string |}
      else best
    else best.
Proof. reflexivity. Qed.

Lemma nth_error_snoc {A} (l : list A) (x y : A) (j : nat) :
  nth_error (l ++ [x]) j = Some y ->
  (j < length l)%nat /\ nth_error l j = Some y \/ j = length l /\ y = x.
Proof.
intros H. destruct (Nat.lt_ge_cases j (length l)) as [Hlt|Hge].
- left. rewrite nth_error_app1 in H by exact Hlt. split; assumption.
- right. rewrite nth_error_app2 in H by exact Hge.
  destruct (j - length l)%nat as [|k] eqn:E; cbn in H.
  + injection H as <-. split; [lia|reflexivity].
  + destruct k; discriminate.
Qed.

Lemma bestOf_step seen best entry :
  bestOf desc seen best -> bestOf desc (seen ++ [entry]) (scoreEntry desc best entry).
Proof.
intros Hbest. rewrite scoreEntry_cases.
destruct (Nat.ltb_spec 0 (matchCount desc entry)) as [Hpos|Hzero].
- destruct (entryConfidence_bounds entry Hpos) as [Hlo Hhi].
  assert (Hnew : (forall j other, nth_error seen j = Some other ->
                    (0 < matchCount desc other)%nat ->
                    entryConfidence desc other < entryConfidence desc entry) ->
                 bestOf desc (seen ++ [entry])
                   {| category := fst entry;
                      confidence := entryConfidence desc entry;
                      reasoning := ("Matched keywords: "
                         ++ join (matchesOf desc (snd entry)))%string |}).
  { intros Hall. right. exists (length seen), entry.
    split; [rewrite nth_error_app2, Nat.sub_diag by lia; reflexivity|].
    split; [exact Hpos|]. split; [reflexivity|]. split; [reflexivity|].
    split.
    - intros j other Hj Ho. apply nth_error_snoc in Hj.
      destruct Hj as [[_ Hj]|[_ ->]]; [|lra].
      apply Qlt_le_weak. eapply Hall; eassumption.
    - intros j other Hlt Hj Ho. apply nth_error_snoc in Hj.
      destruct Hj as [[_ Hj]|[-> _]]; [|lia]. eapply Hall; eassumption. }
  destruct Hbest as [[Hnone ->]|(i & e & Hi & Hepos & Hcat & Hconf & Hle & Hlt)].
  + cbn [AIService.confidence noMatch].
    replace (ltb (1 # 10) (entryConfidence desc entry)) with true
      by (symmetry; apply ltb_lt; lra).
    apply Hnew.
    intros j other Hj Ho. rewrite Forall_forall in Hnone.
    apply nth_error_In in Hj. rewrite (Hnone _ Hj) in Ho. lia.
  + destruct (ltb (AIService.confidence best) (entryConfidence desc entry)) eqn:E.
    * apply Hnew. apply ltb_lt in E. rewrite Hconf in E.
      intros j other Hj Ho. eapply Qle_lt_trans; [|exact E].
      eapply Hle; eassumption.
    * apply ltb_ge in E. rewrite Hconf in E.
      right. exists i, e.
      split; [rewrite nth_error_app1; [exact Hi|]; apply nth_error_Some;
              congruence|].
      repeat split; try assumption.
      -- intros j other Hj Ho. apply nth_error_snoc in Hj.
         destruct Hj as [[_ Hj]|[_ ->]]; [|exact E].
         eapply Hle; eassumption.
      -- intros j other Hji Hj Ho. apply nth_error_snoc in Hj.
         destruct Hj as [[_ Hj]|[-> _]].
         ++ eapply Hlt; eassumption.
         ++ assert (i < length seen)%nat by (apply nth_error_Some; congruence).
            lia.
- destruct Hbest as [[Hnone ->]|(i & e & Hi & Hepos & Hcat & Hconf & Hle & Hlt)].
  + left. split; [|reflexivity]. apply Forall_app. split; [exact Hnone|].
    repeat constructor. lia.
  + right. exists i, e.
    split; [rewrite nth_error_app1; [exact Hi|]; apply nth_error_Some;
            congruence|].
    repeat split; try assumption.
    * intros j other Hj Ho. apply nth_error_snoc in Hj.
      destruct Hj as [[_ Hj]|[_ ->]]; [|lia]. eapply Hle; eassumption.
    * intros j other Hji Hj Ho. apply nth_error_snoc in Hj.
      destruct Hj as [[_ Hj]|[_ ->]]; [|lia]. eapply Hlt; eassumption.
Qed.

Lemma bestOf_fold : forall rest seen best,
  bestOf desc seen best ->
  bestOf desc (seen ++ rest) (fold_left (scoreEntry desc) rest best).
Proof.
induction rest as [|entry rest IH]; intros seen best Hbest.
- rewrite app_nil_r. exact Hbest.
- cbn [fold_left].
  replace (seen ++ entry :: rest) with ((seen ++ [entry]) ++ rest)
    by (rewrite <- app_assoc; reflexivity).
  apply IH, bestOf_step, Hbest.
Qed.

Lemma fallbackScore_best (table : list (Category * list string)) :
  bestOf desc table (fallbackScore table desc).
Proof.
apply (@bestOf_fold table [] noMatch). left. split; [constructor|reflexivity].
Qed.

End Fallback.

Lemma no_match_count (desc : string) (table : list (Category * list string)) :
  (forall c kws kw, In (c, kws) table -> In kw kws -> includes desc kw = false) ->
  Forall (fun entry => matchCount desc entry = 0%nat) table.
Proof.
intros H. apply Forall_forall. intros [c kws] Hin. unfold matchCount.
cbn [snd]. rewrite filter_none; [reflexivity|].
apply Forall_forall. intros kw Hkw. exact (H c kws kw Hin Hkw).
Qed.

Lemma some_match_count (desc : string) (c : Category) (kws : list string)
    (kw : string) :
  In kw kws -> includes desc kw = true -> (0 < matchCount desc (c, kws))%nat.
Proof.
intros Hin Hinc. unfold matchCount. cbn [snd].
assert (Hf : In kw (filter (fun keyword => includes desc keyword) kws))
  by (apply filter_In; split; assumption).
destruct (filter _ kws); [destruct Hf|cbn; lia].
Qed.

(** C9: the fallback scorer returns [other] with confidence 0.1 when no
    keyword of any category occurs in the lower-cased description;
    otherwise it returns a category with at least one match whose
    confidence [min(0.8, 0.3 + matches * 0.2)] is the highest among the
    categories with a match, and strictly higher than that of every such
    category declared before it; "Flight to client site" gives travel with
    a confidence in [0.3, 0.8]. *)
Theorem fallback_keyword_scorer :
  (forall description : string,
     let desc := toLowerCase description in
     let r := fallbackCategorySuggestion description in
     ((forall c kws kw,
         In (c, kws) categoryKeywords -> In kw kws ->
         includes desc kw = false) ->
      category r = other /\ AIService.confidence r = 1 # 10) /\
     ((exists c kws kw,
         In (c, kws) categoryKeywords /\ In kw kws /\
         includes desc kw = true) ->
      exists i c kws,
        nth_error categoryKeywords i = Some (c, kws) /\
        (0 < matchCount desc (c, kws))%nat /\
        category r = c /\
        AIService.confidence r
        = Js.min (8 # 10)
                 ((3 # 10) + ofNat (matchCount desc (c, kws)) * (2 # 10)) /\
        (forall j other,
           nth_error categoryKeywords j = Some other ->
           (0 < matchCount desc other)%nat ->
           entryConfidence desc other <= AIService.confidence r) /\
        (forall j other,
           (j < i)%nat -> nth_error categoryKeywords j = Some other ->
           (0 < matchCount desc other)%nat ->
           entryConfidence desc other < AIService.confidence r))) /\
  (let r := suggestCategory_unconfigured "Flight to client site" in
   category r = travel /\
   3 # 10 <= AIService.confidence r /\ AIService.confidence r <= 8 # 10).
Proof.
split.
- intros description desc r.
  pose proof (fallbackScore_best desc categoryKeywords) as Hbest.
  change (fallbackScore categoryKeywords desc) with r in Hbest.
  split.
  + intros Hnone.
    destruct Hbest as [[_ ->]|(i & e & Hi & Hpos & _)]; [split; reflexivity|].
    pose proof (no_match_count desc categoryKeywords Hnone) as Hall.
    rewrite Forall_forall in Hall. apply nth_error_In in Hi.
    rewrite (Hall e Hi) in Hpos. lia.
  + intros (c & kws & kw & Hin & Hkw & Hinc).
    destruct Hbest as [[Hall _]|(i & [c' kws'] & Hi & Hpos & Hcat & Hconf & Hle & Hlt)].
    * rewrite Forall_forall in Hall.
      pose proof (some_match_count desc c kws kw Hkw Hinc) as Hpos.
      rewrite (Hall _ Hin) in Hpos. lia.
    * exists i, c', kws'. rewrite Hconf.
      repeat split; try assumption.
- cbv zeta. split; [reflexivity|]. split; apply Qle_bool_imp_le; reflexivity.
Qed.

Lemma fallback_keyword_scorer_witness :
  (category (fallbackCategorySuggestion "Quarterly invoice") = other /\
   AIService.confidence (fallbackCategorySuggestion "Quarterly invoice")
   = 1 # 10) /\
  (let desc := toLowerCase "Flight to client site" in
   let r := fallbackCategorySuggestion "Flight to client site" in
   exists i c kws,
     nth_error categoryKeywords i = Some (c, kws) /\
     (0 < matchCount desc (c, kws))%nat /\
     category r = c /\
     AIService.confidence r
     = Js.min (8 # 10)
              ((3 # 10) + ofNat (matchCount desc (c, kws)) * (2 # 10)) /\
     (forall j other,
        nth_error categoryKeywords j = Some other ->
        (0 < matchCount desc other)%nat ->
        entryConfidence desc other <= AIService.confidence r) /\
     (forall j other,
        (j < i)%nat -> nth_error categoryKeywords j = Some other ->
        (0 < matchCount desc other)%nat ->
        entryConfidence desc other < AIService.confidence r)).
Proof.
split.
- apply (proj1 (proj1 fallback_keyword_scorer "Quarterly invoice"%string)).
  intros c kws kw Hin Hkw.
  assert (Hall : forallb (fun entry =>
             forallb (fun k => negb (includes (toLowerCase "Quarterly invoice") k))
                     (snd entry)) categoryKeywords = true) by reflexivity.
  rewrite forallb_forall in Hall. specialize (Hall _ Hin). cbn [snd] in Hall.
  rewrite forallb_forall in Hall. specialize (Hall _ Hkw).
  apply negb_true_iff in Hall. exact Hall.
- apply (proj2 (proj1 fallback_keyword_scorer "Flight to client site"%string)).
  exists travel, ["flight"; "hotel"; "uber"; "taxi"; "gas"; "mileage";
                  "rental"; "airbnb"; "trip"; "travel"]%string, "flight"%string.
  split; [left; reflexivity|]. split; [left; reflexivity|reflexivity].
Defined.

(** * Further properties *)

(** ** Alert check: single evaluations and runs *)

(** X1: as long as the notifier call returns, the result of an alert
    check and the document it saves do not depend on the email service's
    configuration or on whether a transport delivers: the alert is recorded
    and the flag set whether or not a mail leaves. *)
Theorem alert_check_ignores_email
    (svc : BudgetService.t) (es es' : EmailService.t) (total : Q)
    (net net' : EmailService.Network) (store : option Team.t) :
  EmailService.resolves es net = true ->
  EmailService.resolves es' net' = true ->
  checkBudgetAlerts svc es {| approvedTotal := total; network := net |} store
  = checkBudgetAlerts svc es' {| approvedTotal := total; network := net' |}
                      store.
Proof.
intros Hr Hr'.
destruct store as [team|]; [|reflexivity].
destruct (Team.isActive team) eqn:Ha.
- rewrite !checkBudgetAlerts_active by exact Ha. cbn [network].
  destruct (resolves_returned _ _ Hr) as [r ->].
  destruct (resolves_returned _ _ Hr') as [r' ->].
  reflexivity.
- unfold checkBudgetAlerts. rewrite Ha. reflexivity.
Qed.

Lemma alert_check_ignores_email_witness :
  checkBudgetAlerts defaults bothConfigured
    {| approvedTotal := 85; network := networkDown |} (Some (freshTeam 0))
  = checkBudgetAlerts defaults consoleOnly
      {| approvedTotal := 85; network := unreadableMembers |}
      (Some (freshTeam 0)).
Proof.
apply (@alert_check_ignores_email defaults bothConfigured consoleOnly 85
         networkDown unreadableMembers (Some (freshTeam 0))); reflexivity.
Defined.

Lemma decided_cases (svc : BudgetService.t) (u : Z) (flags : Team.AlertsSent) :
  fst (decided svc u flags)
  = match decidedLevel svc u flags with
    | Some k => [alertFor svc k u]
    | None => []
    end.
Proof.
unfold decided, decide, decidedLevel.
destruct (_ && _); [destruct (u <? _)%Z; reflexivity|].
destruct (_ && _); destruct (u <? _)%Z; reflexivity.
Qed.

Lemma decidedLevel_Some (svc : BudgetService.t) (u : Z)
    (flags : Team.AlertsSent) (k : AlertType) :
  decidedLevel svc u flags = Some k ->
  (thresholdOf svc k <= u)%Z /\ flagOf k flags = false.
Proof.
unfold decidedLevel.
destruct (Z.leb_spec (CRITICAL_THRESHOLD svc) u);
  destruct (Team.critical flags) eqn:Ec; cbn [andb negb];
  try (intros [= <-]; split; [assumption|exact Ec]);
  destruct (Z.leb_spec (WARNING_THRESHOLD svc) u);
  destruct (Team.warning flags) eqn:Ew; cbn [andb negb];
  try discriminate; intros [= <-]; split; assumption.
Qed.

(** X2: an alert check emits at most one alert, only for an active team,
    and every alert it emits is justified: it carries the utilization the
    check saw and the threshold of its level, the utilization is at or above
    that threshold, and the flag of that level was not set before. *)
Theorem emitted_alert_is_justified
    (svc : BudgetService.t) (es : EmailService.t) (inp : Input)
    (store : option Team.t) (a : Alert) :
  In a (alertsOf (fst (checkBudgetAlerts svc es inp store))) ->
  exists team,
    store = Some team /\ Team.isActive team = true /\
    alertsOf (fst (checkBudgetAlerts svc es inp store)) = [a] /\
    utilization a = utilizationAt team inp /\
    threshold a = thresholdOf svc (type a) /\
    (threshold a <= utilization a)%Z /\
    flagOf (type a) (Team.alertsSent team) = false.
Proof.
destruct store as [team|]; [|intros []].
destruct (Team.isActive team) eqn:Ha;
  [|unfold checkBudgetAlerts; rewrite Ha; intros []].
rewrite checkBudgetAlerts_active by exact Ha.
destruct (savesPass team inp); [|intros []].
destruct (EmailService.sendBudgetAlert es (network inp)) as [r|];
  [|rewrite decide_threw; intros []].
rewrite decide_returned. cbv zeta. cbn [fst alertsOf].
rewrite decided_cases.
destruct (decidedLevel svc _ _) as [k|] eqn:Ek; [|intros []].
intros [<-|[]]. exists team.
destruct (decidedLevel_Some _ _ _ Ek) as [Hu Hf].
destruct k; repeat split; assumption.
Qed.

Lemma emitted_alert_is_justified_witness :
  exists team,
    Some (freshTeam 0) = Some team /\ Team.isActive team = true /\
    alertsOf (fst (checkBudgetAlerts defaults bothConfigured
                     (spending 120 networkDown) (Some (freshTeam 0))))
    = [alertFor defaults criticalAlert 120] /\
    utilization (alertFor defaults criticalAlert 120)
    = utilizationAt team (spending 120 networkDown) /\
    threshold (alertFor defaults criticalAlert 120)
    = thresholdOf defaults (type (alertFor defaults criticalAlert 120)) /\
    (threshold (alertFor defaults criticalAlert 120)
     <= utilization (alertFor defaults criticalAlert 120))%Z /\
    flagOf (type (alertFor defaults criticalAlert 120))
           (Team.alertsSent team) = false.
Proof.
apply (@emitted_alert_is_justified defaults bothConfigured
         (spending 120 networkDown) (Some (freshTeam 0))
         (alertFor defaults criticalAlert 120)).
left. reflexivity.
Defined.

Lemma decided_flags (svc : BudgetService.t) (u : Z) (flags : Team.AlertsSent) :
  snd (decided svc u flags)
  = if (u <? WARNING_THRESHOLD svc)%Z
    then {| Team.warning := false; Team.critical := false |}
    else match decidedLevel svc u flags with
         | Some criticalAlert =>
             {| Team.warning := Team.warning flags; Team.critical := true |}
         | Some warningAlert =>
             {| Team.warning := true; Team.critical := Team.critical flags |}
         | None => flags
         end.
Proof.
unfold decided, decide, decidedLevel.
destruct (_ && _); [destruct (u <? _)%Z; reflexivity|].
destruct (_ && _); destruct (u <? _)%Z; reflexivity.
Qed.

(** X3: an alert check of an active team whose budget and approved total
    are not negative succeeds and saves the team with the total of its
    approved expenses, its budget unchanged; below the warning threshold
    both flags are saved as cleared, and at or above it no flag is cleared: a
    flag is set afterwards exactly when it was set before or the alert of
    its level has just been emitted. *)
Theorem flags_cleared_only_below_warning
    (svc : BudgetService.t) (es : EmailService.t) (inp : Input)
    (team : Team.t) :
  Team.isActive team = true ->
  0 <= Team.budget team ->
  0 <= approvedTotal inp ->
  exists u alerts team',
    checkBudgetAlerts svc es inp (Some team)
    = (Success u alerts, Some team') /\
    u = utilizationAt team inp /\
    Team.isActive team' = true /\
    Team.budget team' = Team.budget team /\
    Team.totalSpent team' = approvedTotal inp /\
    ((u < WARNING_THRESHOLD svc)%Z ->
     Team.alertsSent team'
     = {| Team.warning := false; Team.critical := false |}) /\
    ((WARNING_THRESHOLD svc <= u)%Z ->
     forall k, flagOf k (Team.alertsSent team') = true <->
               flagOf k (Team.alertsSent team) = true \/
               alerts = [alertFor svc k u]).
Proof.
intros Ha Hb Ht. rewrite checkBudgetAlerts_active by exact Ha.
rewrite (savesPass_valid team inp Hb Ht). cbv zeta.
do 3 eexists. split; [reflexivity|]. split; [reflexivity|].
split; [exact Ha|]. split; [reflexivity|]. split; [reflexivity|].
cbn [Team.alertsSent Team.setAlertsSent].
set (u := utilizationAt team inp). set (flags := Team.alertsSent team).
destruct (EmailService.sendBudgetAlert es (network inp)) as [r|].
- rewrite decide_returned, decided_flags, decided_cases.
  split.
  + intros Hu.
    destruct (Z.ltb_spec u (WARNING_THRESHOLD svc)); [reflexivity|lia].
  + intros Hu k. destruct (Z.ltb_spec u (WARNING_THRESHOLD svc)); [lia|].
    destruct (decidedLevel svc u flags) as [k'|] eqn:Ek.
    * destruct (decidedLevel_Some _ _ _ Ek) as [_ Hf].
      destruct k, k'; cbn [flagOf Team.warning Team.critical alertFor] in *;
        split; try (intros; right; reflexivity); try (intros; reflexivity);
        try (intros H'; left; exact H');
        intros [H'|H']; try exact H'; discriminate.
    * split; [intros H'; left; exact H'|].
      intros [H'|H']; [exact H'|discriminate].
- rewrite decide_threw. cbn [fst snd]. split.
  + intros Hu.
    destruct (Z.ltb_spec u (WARNING_THRESHOLD svc)); [reflexivity|lia].
  + intros Hu k. destruct (Z.ltb_spec u (WARNING_THRESHOLD svc)); [lia|].
    split; [intros H'; left; exact H'|].
    intros [H'|H']; [exact H'|destruct k; discriminate].
Qed.

Lemma flags_cleared_only_below_warning_witness :
  exists u alerts team',
    checkBudgetAlerts defaults consoleOnly (spending 50 networkUp)
                      (Some warnedTeam)
    = (Success u alerts, Some team') /\
    u = utilizationAt warnedTeam (spending 50 networkUp) /\
    Team.isActive team' = true /\
    Team.budget team' = Team.budget warnedTeam /\
    Team.totalSpent team' = approvedTotal (spending 50 networkUp) /\
    ((u < WARNING_THRESHOLD defaults)%Z ->
     Team.alertsSent team'
     = {| Team.warning := false; Team.critical := false |}) /\
    ((WARNING_THRESHOLD defaults <= u)%Z ->
     forall k, flagOf k (Team.alertsSent team') = true <->
               flagOf k (Team.alertsSent warnedTeam) = true \/
               alerts = [alertFor defaults k u]).
Proof.
apply (@flags_cleared_only_below_warning defaults consoleOnly
         (spending 50 networkUp) warnedTeam).
- reflexivity.
- cbn. lra.
- cbn. lra.
Defined.

(** X4: while the utilization stays at or above the warning threshold,
    however it varies from one evaluation to the next, each alert level is
    emitted at most once, and not at all when its flag was already set. *)
Theorem no_repeat_while_above_warning
    (svc : BudgetService.t) (es : EmailService.t) (k : AlertType)
    (inps : list Input) (team : Team.t) :
  Team.isActive team = true ->
  Forall (fun inp => (WARNING_THRESHOLD svc <= utilizationAt team inp)%Z) inps ->
  (countType k (events (fst (checkRepeatedly svc es inps (Some team))))
   + (if flagOf k (Team.alertsSent team) then 1 else 0) <= 1)%nat.
Proof.
intros Ha Hall. apply run_count; assumption.
Qed.

Lemma no_repeat_while_above_warning_witness :
  (countType warningAlert
     (events (fst (checkRepeatedly defaults bothConfigured
                     [spending 85 networkUp; spending 120 networkDown;
                      spending 95 networkUp; spending 81 networkUp]
                     (Some (freshTeam 0)))))
   + (if flagOf warningAlert (Team.alertsSent (freshTeam 0)) then 1 else 0)
   <= 1)%nat.
Proof.
apply (@no_repeat_while_above_warning defaults bothConfigured warningAlert
         [spending 85 networkUp; spending 120 networkDown;
          spending 95 networkUp; spending 81 networkUp] (freshTeam 0)).
- reflexivity.
- repeat (constructor; [vm_compute; discriminate|]). constructor.
Defined.

(** X5: a flag that is set after a run of evaluations and was not set
    before it witnesses that some evaluation of the run saw a utilization at
    or above the threshold of that level; in particular the critical flag
    is never set by evaluations that all stay below the critical
    threshold. *)
Theorem flag_set_only_by_reaching_threshold
    (svc : BudgetService.t) (es : EmailService.t) (k : AlertType)
    (inps : list Input) (team : Team.t) (flags : Team.AlertsSent) :
  Team.isActive team = true ->
  flagOf k (Team.alertsSent team) = false ->
  flagsAfter svc es inps team = Some flags ->
  flagOf k flags = true ->
  Exists (fun inp => (thresholdOf svc k <= utilizationAt team inp)%Z) inps.
Proof.
revert team. induction inps as [|inp rest IH]; intros team Ha Hbefore Hafter Hset.
- unfold flagsAfter in Hafter. cbn in Hafter. injection Hafter as <-.
  congruence.
- unfold flagsAfter in Hafter. cbn [checkRepeatedly] in Hafter.
  destruct (checkBudgetAlerts_step svc es inp team Ha)
    as (r & team' & Ec & Ha' & Hb & Hcases).
  rewrite Ec in Hafter.
  destruct (checkRepeatedly svc es rest (Some team')) as [rs st] eqn:Er.
  cbn [snd] in Hafter.
  assert (Hafter' : flagsAfter svc es rest team' = Some flags)
    by (unfold flagsAfter; rewrite Er; exact Hafter).
  cbv zeta in Hcases. set (u := utilizationAt team inp) in *.
  destruct (flagOf k (Team.alertsSent team')) eqn:Ek'.
  + apply Exists_cons_hd. fold u.
    destruct Hcases as [[_ ->]|[[_ Hfl]|(_ & Hfl & _)]].
    * congruence.
    * rewrite Hfl, decided_flags in Ek'.
      destruct (Z.ltb_spec u (WARNING_THRESHOLD svc));
        [destruct k; discriminate|].
      destruct (decidedLevel svc u (Team.alertsSent team)) as [k'|] eqn:Ed;
        [|congruence].
      destruct (decidedLevel_Some _ _ _ Ed) as [Hu _].
      destruct k, k'; cbn [flagOf Team.warning Team.critical] in *;
        try congruence; exact Hu.
    * rewrite Hfl, decide_threw in Ek'. cbn [snd] in Ek'.
      destruct (u <? WARNING_THRESHOLD svc)%Z;
        [destruct k; discriminate|congruence].
  + apply Exists_cons_tl.
    assert (Hex : Exists (fun i => (thresholdOf svc k <= utilizationAt team' i)%Z)
                         rest)
      by (apply (IH team' Ha' Ek' Hafter' Hset)).
    eapply Exists_impl; [|exact Hex]. intros i Hi. cbv beta in Hi.
    rewrite (utilizationAt_budget i team team' Hb) in Hi. exact Hi.
Qed.

Lemma flag_set_only_by_reaching_threshold_witness :
  Exists (fun inp => (thresholdOf defaults criticalAlert
                      <= utilizationAt (freshTeam 0) inp)%Z)
         [spending 85 networkUp; spending 120 networkDown;
          spending 95 networkUp].
Proof.
apply (@flag_set_only_by_reaching_threshold defaults bothConfigured
         criticalAlert
         [spending 85 networkUp; spending 120 networkDown;
          spending 95 networkUp]
         (freshTeam 0) {| Team.warning := true; Team.critical := true |});
  reflexivity.
Defined.


(** ** The team collection *)

Lemma save_length (id : nat) (team : Team.t) (db : TeamDb.t) :
  length (TeamDb.save id team db) = length db.
Proof.
revert id. induction db as [|d rest IH]; intros [|id]; cbn; auto.
Qed.

Lemma findById_save (id j : nat) (team : Team.t) (db : TeamDb.t) :
  TeamDb.findById j (TeamDb.save id team db)
  = if (j =? id)%nat
    then match TeamDb.findById id db with
         | Some _ => Some team
         | None => None
         end
    else TeamDb.findById j db.
Proof.
unfold TeamDb.findById. revert id j.
induction db as [|d rest IH]; intros id j.
- cbn. destruct id, j; cbn; try reflexivity.
  destruct (j =? id)%nat; reflexivity.
- destruct id as [|id], j as [|j]; cbn; try reflexivity. apply IH.
Qed.

Lemma save_same (id : nat) (team : Team.t) (db : TeamDb.t) :
  TeamDb.findById id db = Some team -> TeamDb.save id team db = db.
Proof.
unfold TeamDb.findById. revert id.
induction db as [|d rest IH]; intros [|id] H; cbn in *; try discriminate.
- injection H as ->. reflexivity.
- rewrite IH by exact H. reflexivity.
Qed.

(** A check by id touches the document of that id only. *)
Lemma checkBudgetAlertsById_spec (svc : BudgetService.t) (es : EmailService.t)
    (inp : Input) (id : nat) (db : TeamDb.t) :
  let r := checkBudgetAlerts svc es inp (TeamDb.findById id db) in
  fst (BudgetReports.checkBudgetAlertsById svc es inp id db) = fst r /\
  length (snd (BudgetReports.checkBudgetAlertsById svc es inp id db))
  = length db /\
  forall j,
    TeamDb.findById j (snd (BudgetReports.checkBudgetAlertsById svc es inp id db))
    = if (j =? id)%nat then snd r else TeamDb.findById j db.
Proof.
cbv zeta. unfold BudgetReports.checkBudgetAlertsById.
destruct (TeamDb.findById id db) as [team|] eqn:Ef.
- destruct (checkBudgetAlerts svc es inp (Some team)) as [r [team'|]] eqn:Ec;
    cbn [fst snd].
  + split; [reflexivity|]. split; [apply save_length|].
    intros j. rewrite findById_save, Ef. reflexivity.
  + exfalso. destruct (Team.isActive team) eqn:Ha.
    * destruct (checkBudgetAlerts_step svc es inp team Ha)
        as (r' & t' & E & _).
      rewrite E in Ec. discriminate.
    * unfold checkBudgetAlerts in Ec. rewrite Ha in Ec. discriminate.
- cbn [checkBudgetAlerts fst snd]. split; [reflexivity|]. split; [reflexivity|].
  intros j. destruct (Nat.eqb_spec j id) as [->|]; [exact Ef|reflexivity].
Qed.

Lemma checkEach_spec (svc : BudgetService.t) (es : EmailService.t)
    (inputs : nat -> Input) (ids : list nat) : forall db,
  NoDup ids ->
  fst (BudgetReports.checkEach svc es inputs ids db)
  = map (fun id => fst (checkBudgetAlerts svc es (inputs id)
                          (TeamDb.findById id db))) ids /\
  length (snd (BudgetReports.checkEach svc es inputs ids db)) = length db /\
  forall j,
    TeamDb.findById j (snd (BudgetReports.checkEach svc es inputs ids db))
    = if in_dec Nat.eq_dec j ids
      then snd (checkBudgetAlerts svc es (inputs j) (TeamDb.findById j db))
      else TeamDb.findById j db.
Proof.
induction ids as [|id rest IH]; intros db Hnd.
- cbn. repeat split; reflexivity.
- inversion Hnd as [|? ? Hnotin Hnd']; subst.
  cbn [BudgetReports.checkEach].
  destruct (checkBudgetAlertsById_spec svc es (inputs id) id db)
    as (Hr & Hlen & Hfind).
  destruct (BudgetReports.checkBudgetAlertsById svc es (inputs id) id db)
    as [r db1]. cbn [fst snd] in Hr, Hlen, Hfind.
  destruct (IH db1 Hnd') as (Hrs & Hlen' & Hfind').
  destruct (BudgetReports.checkEach svc es inputs rest db1) as [rs db2].
  cbn [fst snd] in *. split; [|split].
  + cbn [map]. rewrite Hr, Hrs. f_equal. apply map_ext_in.
    intros j Hj. rewrite Hfind.
    destruct (Nat.eqb_spec j id) as [->|]; [contradiction|reflexivity].
  + congruence.
  + intros j. rewrite Hfind', !Hfind.
    destruct (in_dec Nat.eq_dec j (id :: rest)) as [Hin'|Hin'];
      destruct (in_dec Nat.eq_dec j rest) as [Hin|Hin];
      destruct (Nat.eqb_spec j id) as [->|Hne]; try reflexivity.
    * contradiction.
    * destruct Hin' as [Hin'|Hin']; [congruence|contradiction].
    * exfalso. apply Hin'. right. exact Hin.
    * exfalso. apply Hin'. right. exact Hin.
    * exfalso. apply Hin'. left. reflexivity.
Qed.

Lemma findActive_NoDup (db : TeamDb.t) : NoDup (TeamDb.findActive db).
Proof. apply NoDup_filter, seq_NoDup. Qed.

Lemma findActive_In (db : TeamDb.t) (id : nat) :
  In id (TeamDb.findActive db) <->
  exists team, TeamDb.findById id db = Some team /\ Team.isActive team = true.
Proof.
unfold TeamDb.findActive. rewrite filter_In, in_seq. split.
- intros [_ H]. destruct (TeamDb.findById id db) as [team|]; [|discriminate].
  exists team. split; [reflexivity|exact H].
- intros (team & Hf & Ha). rewrite Hf. split; [|exact Ha].
  split; [lia|]. cbn. apply nth_error_Some. unfold TeamDb.findById in Hf.
  congruence.
Qed.

Lemma filter_seq_nth {A} (p : A -> bool) (l : list A) : forall pre,
  length (filter (fun id => match nth_error (pre ++ l) id with
                            | Some x => p x
                            | None => false
                            end) (seq (length pre) (length l)))
  = length (filter p l).
Proof.
induction l as [|x l IH]; intros pre; [reflexivity|].
cbn [length seq filter].
rewrite nth_error_app2, Nat.sub_diag by lia. cbn [nth_error].
specialize (IH (pre ++ [x])%list).
rewrite <- app_assoc, length_app in IH. cbn [app length] in IH.
rewrite Nat.add_1_r in IH.
destruct (p x); cbn [length]; rewrite IH; reflexivity.
Qed.

Lemma findActive_length (db : TeamDb.t) :
  length (TeamDb.findActive db) = length (filter Team.isActive db).
Proof. exact (filter_seq_nth Team.isActive db []). Qed.

Lemma check_alerts_le_1 (svc : BudgetService.t) (es : EmailService.t)
    (inp : Input) (store : option Team.t) :
  (length (alertsOf (fst (checkBudgetAlerts svc es inp store))) <= 1)%nat.
Proof.
destruct store as [team|]; [|cbn; lia].
destruct (Team.isActive team) eqn:Ha;
  [|unfold checkBudgetAlerts; rewrite Ha; cbn; lia].
rewrite checkBudgetAlerts_active by exact Ha.
destruct (savesPass team inp); [|cbn; lia]. cbv zeta. cbn [fst alertsOf].
apply decide_length.
Qed.

Lemma sum_alerts_le (rs : list CheckResult) : forall acc,
  Forall (fun r => (length (alertsOf r) <= 1)%nat) rs ->
  (fold_left (fun sum result => (sum + length (alertsOf result))%nat) rs acc
   <= acc + length rs)%nat.
Proof.
induction rs as [|r rs IH]; intros acc H; cbn [fold_left length]; [lia|].
inversion H as [|? ? Hr Hrs]; subst. specialize (IH (acc + length (alertsOf r))%nat Hrs).
lia.
Qed.

(** X6: the batch check evaluates every active team, each exactly as a
    single check of that team on the collection as it was: the results are
    the single results in collection order, every document is saved as its
    own check saves it, inactive teams are left alone, and the total of
    alerts is at most the number of teams checked. *)
Theorem batch_check_is_per_team
    (svc : BudgetService.t) (es : EmailService.t) (inputs : nat -> Input)
    (db : TeamDb.t) :
  let batch := fst (BudgetReports.checkAllTeamsBudgetAlerts svc es inputs db) in
  let db' := snd (BudgetReports.checkAllTeamsBudgetAlerts svc es inputs db) in
  BudgetReports.teamsChecked batch = length (filter Team.isActive db) /\
  BudgetReports.results batch
  = map (fun id => fst (checkBudgetAlerts svc es (inputs id)
                          (TeamDb.findById id db)))
        (TeamDb.findActive db) /\
  (BudgetReports.totalAlerts batch <= BudgetReports.teamsChecked batch)%nat /\
  length db' = length db /\
  forall id,
    TeamDb.findById id db'
    = match TeamDb.findById id db with
      | Some team =>
          if Team.isActive team
          then snd (checkBudgetAlerts svc es (inputs id) (Some team))
          else Some team
      | None => None
      end.
Proof.
cbv zeta. unfold BudgetReports.checkAllTeamsBudgetAlerts.
destruct (@checkEach_spec svc es inputs (TeamDb.findActive db) db
            (findActive_NoDup db)) as (Hrs & Hlen & Hfind).
destruct (BudgetReports.checkEach svc es inputs (TeamDb.findActive db) db)
  as [rs db'].
cbn [fst snd BudgetReports.teamsChecked BudgetReports.results
       BudgetReports.totalAlerts] in *.
split; [apply findActive_length|]. split; [exact Hrs|].
split.
- pose proof (@sum_alerts_le rs 0%nat) as Hsum.
  replace (length rs) with (length (TeamDb.findActive db)) in Hsum
    by (rewrite Hrs, length_map; reflexivity).
  cbn [Nat.add] in Hsum. apply Hsum.
  rewrite Hrs. apply Forall_forall. intros r Hr. apply in_map_iff in Hr.
  destruct Hr as (id & <- & _). apply check_alerts_le_1.
- split; [exact Hlen|]. intros id. rewrite Hfind.
  destruct (in_dec Nat.eq_dec id (TeamDb.findActive db)) as [Hin|Hin].
  + apply findActive_In in Hin. destruct Hin as (team & -> & ->). reflexivity.
  + destruct (TeamDb.findById id db) as [team|] eqn:Ef; [|reflexivity].
    destruct (Team.isActive team) eqn:Ha; [|reflexivity].
    exfalso. apply Hin, findActive_In. exists team. split; assumption.
Qed.


(** ** Resetting the flags: the dashboard route *)

Lemma decided_fresh (svc : BudgetService.t) (u : Z) :
  decided svc u DashboardRoutes.noAlertsSent
  = (alertReached svc u, flagsReached svc u).
Proof.
unfold decided, decide, alertReached, flagsReached, DashboardRoutes.noAlertsSent.
cbn [Team.warning Team.critical negb].
rewrite !andb_true_r.
destruct (Z.leb_spec (CRITICAL_THRESHOLD svc) u);
  destruct (Z.leb_spec (WARNING_THRESHOLD svc) u);
  destruct (Z.ltb_spec u (WARNING_THRESHOLD svc)); try lia; reflexivity.
Qed.

Lemma findById_Some_save (id : nat) (team team' : Team.t) (db : TeamDb.t) :
  TeamDb.findById id db = Some team ->
  TeamDb.findById id (TeamDb.save id team' db) = Some team'.
Proof. intros H. rewrite findById_save, Nat.eqb_refl, H. reflexivity. Qed.

Lemma valid_le (team : Team.t) :
  Team.valid team = true <-> 0 <= Team.budget team /\ 0 <= Team.totalSpent team.
Proof.
unfold Team.valid. rewrite andb_true_iff, !leb_le. reflexivity.
Qed.

Lemma save_reset (team : Team.t) :
  Team.save (Team.setAlertsSent DashboardRoutes.noAlertsSent team)
  = if Team.valid team
    then Returned (Team.setAlertsSent DashboardRoutes.noAlertsSent team)
    else Threw.
Proof.
unfold Team.save.
change (Team.valid (Team.setAlertsSent DashboardRoutes.noAlertsSent team))
  with (Team.valid team).
destruct (Team.valid team) eqn:Hv; [|reflexivity].
rewrite preSave_valid; [reflexivity|exact Hv].
Qed.

(** The step of the reset route: the flags are cleared and saved, then the
    team is checked. *)
Lemma reset_then_check (svc : BudgetService.t) (es : EmailService.t)
    (inp : Input) (teamId : nat) (db : TeamDb.t) (team : Team.t) :
  TeamDb.findById teamId db = Some team ->
  Team.isActive team = true ->
  completes es team inp = true ->
  let u := utilizationAt team inp in
  let db1 :=
    TeamDb.save teamId
      (Team.setAlertsSent DashboardRoutes.noAlertsSent team) db in
  exists db' team',
    BudgetReports.checkBudgetAlertsById svc es inp teamId db1
    = (Success u (alertReached svc u), db') /\
    length db' = length db /\
    TeamDb.findById teamId db' = Some team' /\
    Team.alertsSent team' = flagsReached svc u /\
    Team.budget team' = Team.budget team /\
    Team.isActive team' = true /\
    forall j, j <> teamId -> TeamDb.findById j db' = TeamDb.findById j db.
Proof.
intros Hf Ha Hc u.
set (reset := Team.setAlertsSent DashboardRoutes.noAlertsSent team).
intros db1.
assert (Hf1 : TeamDb.findById teamId db1 = Some reset)
  by (apply (findById_Some_save _ _ _ Hf)).
destruct (checkBudgetAlertsById_spec svc es inp teamId db1)
  as (Hr & Hlen & Hfind).
destruct (BudgetReports.checkBudgetAlertsById svc es inp teamId db1)
  as [r db2]. cbn [fst snd] in Hr, Hlen, Hfind.
assert (Hc' : completes es reset inp = true)
  by (rewrite <- Hc; apply completes_budget; reflexivity).
rewrite Hf1, (checkBudgetAlerts_completes svc es inp reset Ha Hc')
  in Hr, Hfind.
cbn [fst snd] in Hr, Hfind.
change (utilizationAt reset inp) with u in Hr, Hfind.
change (Team.alertsSent reset) with DashboardRoutes.noAlertsSent in Hr, Hfind.
rewrite decided_fresh in Hr, Hfind. cbn [fst snd] in Hr, Hfind.
eexists db2, _. split; [rewrite Hr; reflexivity|].
split; [rewrite Hlen; apply save_length|].
split; [rewrite Hfind, Nat.eqb_refl; reflexivity|].
split; [reflexivity|]. split; [reflexivity|]. split; [exact Ha|].
intros j Hj. rewrite Hfind.
destruct (Nat.eqb_spec j teamId) as [->|_]; [contradiction|].
unfold db1. rewrite findById_save.
destruct (Nat.eqb_spec j teamId) as [->|_]; [contradiction|reflexivity].
Qed.

(** X7: the reset route answers 404 for an unknown team and 500, changing
    nothing, for a team whose stored budget or total is negative.  For an
    active team that passes validation, with an approved total that is not
    negative and a notifier call that returns, it always re-sends the alert
    of the level the utilization has reached, whatever had been sent
    before: critical at or above the critical threshold, otherwise warning
    at or above the warning threshold, otherwise none; it leaves only the
    flag of that alert set and touches no other team. *)
Theorem reset_route_realerts
    (svc : BudgetService.t) (es : EmailService.t) (inp : Input)
    (teamId : nat) (db : TeamDb.t) :
  (TeamDb.findById teamId db = None ->
   DashboardRoutes.resetBudgetAlerts svc es inp teamId db
   = (DashboardRoutes.notFound, db)) /\
  (forall team,
     TeamDb.findById teamId db = Some team ->
     Team.valid team = false ->
     DashboardRoutes.resetBudgetAlerts svc es inp teamId db
     = (DashboardRoutes.serverError, db)) /\
  (forall team,
     TeamDb.findById teamId db = Some team ->
     Team.isActive team = true ->
     Team.valid team = true ->
     completes es team inp = true ->
     let u := utilizationAt team inp in
     exists db' team',
       DashboardRoutes.resetBudgetAlerts svc es inp teamId db
       = (DashboardRoutes.ok (Success u (alertReached svc u)), db') /\
       length db' = length db /\
       TeamDb.findById teamId db' = Some team' /\
       Team.alertsSent team' = flagsReached svc u /\
       Team.budget team' = Team.budget team /\
       forall j, j <> teamId -> TeamDb.findById j db' = TeamDb.findById j db).
Proof.
split; [|split].
- intros Hnone. unfold DashboardRoutes.resetBudgetAlerts. rewrite Hnone.
  reflexivity.
- intros team Hf Hv. unfold DashboardRoutes.resetBudgetAlerts.
  rewrite Hf, save_reset, Hv. reflexivity.
- intros team Hf Ha Hv Hc u. unfold DashboardRoutes.resetBudgetAlerts.
  rewrite Hf, save_reset, Hv.
  destruct (@reset_then_check svc es inp teamId db team Hf Ha Hc)
    as (db' & team' & Hcheck & Hlen & Hf' & Hfl & Hb & _ & Hother).
  cbv zeta in Hcheck. rewrite Hcheck.
  exists db', team'. repeat split; assumption.
Qed.

Lemma reset_route_realerts_witness :
  let inp := spending 230 networkDown in
  let team := {| Team.isActive := true; Team.budget := 200;
                 Team.totalSpent := 230;
                 Team.alertsSent := {| Team.warning := true;
                                       Team.critical := true |} |} in
  let u := utilizationAt team inp in
  exists db' team',
    DashboardRoutes.resetBudgetAlerts defaults bothConfigured inp 3 sampleDb
    = (DashboardRoutes.ok (Success u (alertReached defaults u)), db') /\
    length db' = length sampleDb /\
    TeamDb.findById 3 db' = Some team' /\
    Team.alertsSent team' = flagsReached defaults u /\
    Team.budget team' = Team.budget team /\
    forall j, j <> 3%nat -> TeamDb.findById j db' = TeamDb.findById j sampleDb.
Proof.
intros inp team.
apply (proj2 (proj2 (reset_route_realerts defaults bothConfigured inp 3
                       sampleDb)) team);
  reflexivity.
Defined.


Lemma resetEach_spec (svc : BudgetService.t) (es : EmailService.t)
    (inputs : nat -> Input) (teams : list (nat * Team.t)) : forall db,
  NoDup (map fst teams) ->
  (forall id team, In (id, team) teams ->
     TeamDb.findById id db = Some team /\ Team.isActive team = true /\
     Team.valid team = true /\ completes es team (inputs id) = true) ->
  fst (DashboardRoutes.resetEach svc es inputs teams db)
  = Returned (map (resetResult svc inputs) teams) /\
  length (snd (DashboardRoutes.resetEach svc es inputs teams db)) = length db /\
  (forall j, ~ In j (map fst teams) ->
     TeamDb.findById j (snd (DashboardRoutes.resetEach svc es inputs teams db))
     = TeamDb.findById j db) /\
  (forall id team, In (id, team) teams ->
     exists team',
       TeamDb.findById id (snd (DashboardRoutes.resetEach svc es inputs teams db))
       = Some team' /\
       Team.alertsSent team'
       = flagsReached svc (utilizationAt team (inputs id)) /\
       Team.budget team' = Team.budget team /\
       Team.isActive team' = true).
Proof.
induction teams as [|[id team] rest IH]; intros db Hnd Hall.
- cbn. repeat split; try reflexivity. intros id team [].
- cbn [map fst] in Hnd. inversion Hnd as [|? ? Hnotin Hnd']; subst.
  destruct (Hall id team (or_introl eq_refl)) as (Hf & Ha & Hv & Hc).
  cbn [DashboardRoutes.resetEach]. rewrite save_reset, Hv.
  destruct (@reset_then_check svc es (inputs id) id db team Hf Ha Hc)
    as (db1 & team1 & Hcheck & Hlen1 & Hf1 & Hfl1 & Hb1 & Ha1 & Hother1).
  cbv zeta in Hcheck. rewrite Hcheck.
  assert (Hall' : forall id' team', In (id', team') rest ->
            TeamDb.findById id' db1 = Some team' /\
            Team.isActive team' = true /\ Team.valid team' = true /\
            completes es team' (inputs id') = true).
  { intros id' team' Hin.
    destruct (Hall id' team' (or_intror Hin)) as (Hf' & Hrest').
    rewrite Hother1; [auto|]. intros ->. apply Hnotin.
    apply (in_map fst) in Hin. exact Hin. }
  destruct (IH db1 Hnd' Hall') as (Hrs & Hlen & Hout & Hin).
  destruct (DashboardRoutes.resetEach svc es inputs rest db1) as [rs db2].
  cbn [fst snd] in *. subst rs. cbn [fst snd]. split; [|split; [|split]].
  + reflexivity.
  + congruence.
  + intros j Hj. cbn [map fst In] in Hj.
    rewrite Hout by (intros HH; apply Hj; right; exact HH).
    apply Hother1. intros ->. apply Hj. left. reflexivity.
  + intros id' team' [E|Hin'].
    * injection E as <- <-. exists team1. rewrite Hout by exact Hnotin.
      auto.
    * apply Hin. exact Hin'.
Qed.

Lemma activeEntries_spec (db : TeamDb.t) :
  let teams :=
    flat_map (fun id => match TeamDb.findById id db with
                        | Some team => [(id, team)]
                        | None => []
                        end) (TeamDb.findActive db) in
  map fst teams = TeamDb.findActive db /\
  forall id team, In (id, team) teams <->
                  TeamDb.findById id db = Some team /\ Team.isActive team = true.
Proof.
cbv zeta. split.
- assert (H : forall ids, (forall id, In id ids -> In id (TeamDb.findActive db)) ->
            map fst (flat_map (fun id => match TeamDb.findById id db with
                                         | Some team => [(id, team)]
                                         | None => []
                                         end) ids) = ids).
  { induction ids as [|id rest IH]; intros Hsub; [reflexivity|].
    cbn [flat_map]. rewrite map_app, IH by (intros; apply Hsub; right; auto).
    destruct (proj1 (findActive_In db id) (Hsub id (or_introl eq_refl)))
      as (team & -> & _). reflexivity. }
  apply H. auto.
- intros id team. rewrite in_flat_map. split.
  + intros (id' & Hin & Hm). apply findActive_In in Hin.
    destruct Hin as (team' & Hf & Ha). rewrite Hf in Hm.
    destruct Hm as [E|[]]. injection E as <- <-. auto.
  + intros [Hf Ha]. exists id. split.
    * apply findActive_In. exists team. auto.
    * rewrite Hf. left. reflexivity.
Qed.

(** X26: without a team id the reset route handles every active team like
    the single-team branch, in collection order: when the stored budgets
    and totals and the approved totals are not negative and the notifier
    calls return, each active team gets the answer of a forced check from
    cleared flags - the alert of the level its utilization has reached -
    and is left with only the flag of that alert set; inactive teams are
    not touched. *)
Theorem reset_all_realerts
    (svc : BudgetService.t) (es : EmailService.t) (inputs : nat -> Input)
    (db : TeamDb.t) :
  Forall validTeam db ->
  (forall id team,
     TeamDb.findById id db = Some team -> Team.isActive team = true ->
     completes es team (inputs id) = true) ->
  exists results db',
    DashboardRoutes.resetAllBudgetAlerts svc es inputs db
    = (DashboardRoutes.ok results, db') /\
    length results = length (filter Team.isActive db) /\
    Forall2 (fun id r =>
               exists team, TeamDb.findById id db = Some team /\
                            r = resetResult svc inputs (id, team))
            (TeamDb.findActive db) results /\
    length db' = length db /\
    forall id team,
      TeamDb.findById id db = Some team ->
      if Team.isActive team
      then exists team',
             TeamDb.findById id db' = Some team' /\
             Team.alertsSent team'
             = flagsReached svc (utilizationAt team (inputs id)) /\
             Team.budget team' = Team.budget team /\
             Team.isActive team' = true
      else TeamDb.findById id db' = Some team.
Proof.
intros Hvalid Hruns. unfold DashboardRoutes.resetAllBudgetAlerts.
destruct (activeEntries_spec db) as [Hids Hentries]. cbv zeta in Hids, Hentries.
set (teams := flat_map _ (TeamDb.findActive db)) in *.
assert (Hnd : NoDup (map fst teams))
  by (rewrite Hids; apply findActive_NoDup).
assert (Hall : forall id team, In (id, team) teams ->
          TeamDb.findById id db = Some team /\ Team.isActive team = true /\
          Team.valid team = true /\ completes es team (inputs id) = true).
{ intros id team Hin. apply Hentries in Hin. destruct Hin as [Hf Ha].
  repeat split; try assumption; [|apply Hruns; assumption].
  rewrite Forall_forall in Hvalid. apply valid_le.
  apply (Hvalid team). apply (nth_error_In _ _ Hf). }
destruct (@resetEach_spec svc es inputs teams db Hnd Hall)
  as (Hrs & Hlen & Hout & Hin).
destruct (DashboardRoutes.resetEach svc es inputs teams db) as [rs db'].
cbn [fst snd] in *. subst rs. do 2 eexists. split; [reflexivity|].
split; [|split; [|split]].
- rewrite length_map, <- findActive_length, <- Hids, length_map.
  reflexivity.
- rewrite <- Hids. clear - Hentries.
  assert (H : forall l, (forall e, In e l -> In e teams) ->
            Forall2 (fun id r =>
                       exists team, TeamDb.findById id db = Some team /\
                                    r = resetResult svc inputs (id, team))
                    (map fst l) (map (resetResult svc inputs) l)).
  { induction l as [|[id team] rest IH]; intros Hsub; cbn [map]; constructor.
    - exists team. split; [|reflexivity].
      apply (Hentries id team), Hsub. left. reflexivity.
    - apply IH. intros e He. apply Hsub. right. exact He. }
  apply H. auto.
- exact Hlen.
- intros id team Hf. destruct (Team.isActive team) eqn:Ha.
  + apply Hin, Hentries. auto.
  + rewrite Hout; [exact Hf|]. rewrite Hids. intros Hact.
    apply findActive_In in Hact. destruct Hact as (team' & Hf' & Ha').
    congruence.
Qed.

Lemma reset_all_realerts_witness :
  let inputs := fun _ : nat => spending 230 networkDown in
  exists results db',
    DashboardRoutes.resetAllBudgetAlerts defaults bothConfigured inputs sampleDb
    = (DashboardRoutes.ok results, db') /\
    length results = length (filter Team.isActive sampleDb) /\
    Forall2 (fun id r =>
               exists team, TeamDb.findById id sampleDb = Some team /\
                            r = resetResult defaults inputs (id, team))
            (TeamDb.findActive sampleDb) results /\
    length db' = length sampleDb /\
    forall id team,
      TeamDb.findById id sampleDb = Some team ->
      if Team.isActive team
      then exists team',
             TeamDb.findById id db' = Some team' /\
             Team.alertsSent team'
             = flagsReached defaults (utilizationAt team (inputs id)) /\
             Team.budget team' = Team.budget team /\
             Team.isActive team' = true
      else TeamDb.findById id db' = Some team.
Proof.
intros inputs.
apply (@reset_all_realerts defaults bothConfigured inputs sampleDb).
- repeat constructor; cbn; lra.
- intros id team Hf Ha. unfold completes, savesPass.
  apply andb_true_intro. split; [|reflexivity].
  unfold sampleDb, TeamDb.findById in Hf.
  destruct id as [|[|[|[|id]]]]; cbn [nth_error] in Hf;
    [| | | |destruct id; discriminate];
    injection Hf as <-; reflexivity.
Defined.


(** ** Team virtuals *)

Lemma floor_ge (n : Z) (y : Q) : (n <= Qfloor y)%Z <-> inject_Z n <= y.
Proof.
split.
- intros H. apply Qle_trans with (inject_Z (Qfloor y)); [|apply Qfloor_le].
  rewrite <- Zle_Qle. exact H.
- intros H. rewrite <- (Qfloor_Z n). apply Qfloor_resp_le. exact H.
Qed.

Lemma percent_ge (s b c : Q) : 0 < b -> (c <= s / b * 100 <-> c * b <= s * 100).
Proof.
intros Hb.
assert (E : s / b * 100 * b == s * 100) by (field; lra).
rewrite <- E. symmetry. apply Qmult_le_r. exact Hb.
Qed.

Lemma budgetUtilization_ge_100 (team : Team.t) :
  0 < Team.budget team ->
  ((100 <= Team.budgetUtilization team)%Z <->
   (995 # 1000) * Team.budget team <= Team.totalSpent team).
Proof.
intros Hb. unfold Team.budgetUtilization.
assert (Hb' : ltb 0 (Team.budget team) = true) by (apply ltb_lt; exact Hb).
rewrite Hb'. unfold round.
set (x := Team.totalSpent team / Team.budget team * 100).
rewrite floor_ge. change (inject_Z 100) with 100.
assert (H1 : 100 <= x + (1 # 2) <-> (995 # 10) <= x) by (split; intros; lra).
rewrite H1. unfold x. rewrite percent_ge by exact Hb.
split; intros; lra.
Qed.

Lemma budgetUtilization_positive (budget total : Q) :
  0 < budget ->
  Team.budgetUtilization (activeTeam budget total)
  = round (total / budget * 100).
Proof.
intros Hb. unfold Team.budgetUtilization, activeTeam.
cbn [Team.budget Team.totalSpent].
rewrite (proj2 (ltb_lt _ _)) by exact Hb. reflexivity.
Qed.

Lemma round_le (x y : Q) : x <= y -> (round x <= round y)%Z.
Proof. intros H. unfold round. apply Qfloor_resp_le. lra. Qed.

Lemma percent_le_total (b s s' : Q) :
  0 < b -> s <= s' -> s / b * 100 <= s' / b * 100.
Proof.
intros Hb Hs. apply percent_ge; [exact Hb|].
assert (E : s / b * 100 * b == s * 100) by (field; lra).
rewrite E. lra.
Qed.

Lemma percent_le_budget (b b' s : Q) :
  0 < b -> b <= b' -> 0 <= s -> s / b' * 100 <= s / b * 100.
Proof.
intros Hb Hb' Hs. apply percent_ge; [exact Hb|].
assert (E : s / b' * 100 * b' == s * 100) by (field; lra).
assert (H0 : 0 <= s / b' * 100).
{ apply percent_ge; [lra|]. lra. }
assert (H1 : s / b' * 100 * b <= s / b' * 100 * b').
{ rewrite !(Qmult_comm (s / b' * 100)). apply Qmult_le_compat_r; assumption. }
lra.
Qed.

(** X9: the utilization is 0 without a positive budget.  With a positive
    budget it is not negative when the total spent is not, it is at most
    100 while the total does not exceed the budget and at least 100 once
    it has reached it, it does not decrease when the total grows and, for
    a total that is not negative, does not increase when the budget
    grows. *)
Theorem budgetUtilization_monotone (budget total : Q) :
  let u := fun b t => Team.budgetUtilization (activeTeam b t) in
  (budget <= 0 -> u budget total = 0%Z) /\
  (0 < budget ->
   (0 <= total -> (0 <= u budget total)%Z) /\
   (total <= budget -> (u budget total <= 100)%Z) /\
   (budget <= total -> (100 <= u budget total)%Z) /\
   (forall total', total <= total' -> (u budget total <= u budget total')%Z) /\
   (forall budget',
      budget <= budget' -> 0 <= total ->
      (u budget' total <= u budget total)%Z)).
Proof.
cbv zeta. split.
- intros Hb. unfold Team.budgetUtilization, activeTeam.
  cbn [Team.budget Team.totalSpent].
  rewrite (proj2 (ltb_ge _ _)) by exact Hb. reflexivity.
- intros Hb. rewrite budgetUtilization_positive by exact Hb.
  split; [|split; [|split; [|split]]].
  + intros Ht. apply (Z.le_trans _ (round 0)); [discriminate|].
    apply round_le. apply percent_ge; [exact Hb|]. lra.
  + intros Ht. apply (Z.le_trans _ (round 100)); [|discriminate].
    apply round_le.
    assert (E : budget / budget * 100 == 100) by (field; lra).
    apply Qle_trans with (budget / budget * 100);
      [apply percent_le_total; assumption|rewrite E; apply Qle_refl].
  + intros Ht. apply (Z.le_trans _ (round 100)); [discriminate|].
    apply round_le.
    assert (E : budget / budget * 100 == 100) by (field; lra).
    apply Qle_trans with (budget / budget * 100);
      [rewrite E; apply Qle_refl|apply percent_le_total; assumption].
  + intros total' Ht. rewrite budgetUtilization_positive by exact Hb.
    apply round_le, percent_le_total; assumption.
  + intros budget' Hb' Ht.
    rewrite budgetUtilization_positive by lra.
    apply round_le, percent_le_budget; assumption.
Qed.

Lemma budgetUtilization_monotone_witness :
  let u := fun b t => Team.budgetUtilization (activeTeam b t) in
  (0 <= 199 -> (0 <= u 200%Q 199%Q)%Z) /\
  (199 <= 200 -> (u 200%Q 199%Q <= 100)%Z) /\
  (200 <= 199 -> (100 <= u 200%Q 199%Q)%Z) /\
  (forall total', 199 <= total' -> (u 200%Q 199%Q <= u 200%Q total')%Z) /\
  (forall budget',
     200 <= budget' -> 0 <= 199 -> (u budget' 199%Q <= u 200%Q 199%Q)%Z).
Proof.
apply (proj2 (budgetUtilization_monotone 200 199)). reflexivity.
Defined.

(** X10: the remaining budget is never negative and is 0 exactly when the
    total spent has reached the budget; a team with a positive budget and
    nothing remaining has a utilization of at least 100 and the status
    over-budget. *)
Theorem remainingBudget_exhausted (team : Team.t) :
  0 <= TeamVirtuals.remainingBudget team /\
  (TeamVirtuals.remainingBudget team == 0 <->
   Team.budget team <= Team.totalSpent team) /\
  (0 < Team.budget team ->
   TeamVirtuals.remainingBudget team == 0 ->
   (100 <= Team.budgetUtilization team)%Z /\
   TeamVirtuals.budgetStatus team = TeamVirtuals.statusOverBudget).
Proof.
unfold TeamVirtuals.remainingBudget, Js.max.
destruct (ltb 0 (Team.budget team - Team.totalSpent team)) eqn:E;
  [apply ltb_lt in E|apply ltb_ge in E].
- split; [lra|]. split; [split; intros; lra|]. intros; lra.
- split; [lra|]. split; [split; intros; [lra|reflexivity]|].
  intros Hb _.
  assert (Hu : (100 <= Team.budgetUtilization team)%Z).
  { apply (budgetUtilization_ge_100 team Hb). lra. }
  split; [exact Hu|]. unfold TeamVirtuals.budgetStatus.
  destruct (Z.leb_spec 100 (Team.budgetUtilization team)); [reflexivity|lia].
Qed.

Lemma remainingBudget_exhausted_witness :
  (100 <= Team.budgetUtilization (activeTeam 200 230))%Z /\
  TeamVirtuals.budgetStatus (activeTeam 200 230)
  = TeamVirtuals.statusOverBudget.
Proof.
apply (proj2 (proj2 (remainingBudget_exhausted (activeTeam 200 230))));
  reflexivity.
Defined.


(** ** Status lists and the budget summary *)

Lemma filter_length_split {A} (p q r : A -> bool) (l : list A) :
  (forall x, In x l ->
     (if p x then 1 else 0) + (if q x then 1 else 0) + (if r x then 1 else 0)
     = 1)%nat ->
  (length (filter p l) + length (filter q l) + length (filter r l)
   = length l)%nat.
Proof.
induction l as [|x l IH]; intros H; [reflexivity|].
specialize (IH (fun y Hy => H y (or_intror Hy))).
specialize (H x (or_introl eq_refl)).
cbn [filter length]. destruct (p x), (q x), (r x); cbn [length] in *; lia.
Qed.

(** X11: when the warning threshold is not above the critical one, the
    status lists good, warning and critical partition the active teams:
    every active team is in exactly one of them; any other status name gives
    all active teams; and with a critical threshold of at most 100 every
    over-budget team is also in the critical list. *)
Theorem status_lists_partition (svc : BudgetService.t) (db : TeamDb.t) :
  (WARNING_THRESHOLD svc <= CRITICAL_THRESHOLD svc)%Z ->
  let get := fun status => BudgetReports.getTeamsByBudgetStatus svc status db in
  (forall status,
     status <> "good"%string -> status <> "warning"%string ->
     status <> "critical"%string -> status <> "over-budget"%string ->
     get status = filter Team.isActive db) /\
  (forall team,
     In team (get "all"%string) ->
     (In team (get "good"%string) /\ ~ In team (get "warning"%string)
        /\ ~ In team (get "critical"%string)) \/
     (~ In team (get "good"%string) /\ In team (get "warning"%string)
        /\ ~ In team (get "critical"%string)) \/
     (~ In team (get "good"%string) /\ ~ In team (get "warning"%string)
        /\ In team (get "critical"%string))) /\
  (length (get "good"%string) + length (get "warning"%string)
   + length (get "critical"%string) = length (get "all"%string))%nat /\
  ((CRITICAL_THRESHOLD svc <= 100)%Z ->
   incl (get "over-budget"%string) (get "critical"%string)).
Proof.
intros HWC get. subst get. unfold BudgetReports.getTeamsByBudgetStatus.
split.
{ intros status H1 H2 H3 H4.
  apply String.eqb_neq in H1, H2, H3, H4. rewrite H1, H2, H3, H4.
  reflexivity. }
cbn [String.eqb Ascii.eqb Bool.eqb andb].
set (teams := filter Team.isActive db).
split; [|split].
- intros team Hin. rewrite !filter_In.
  destruct (Z.ltb_spec (Team.budgetUtilization team) (WARNING_THRESHOLD svc));
    destruct (Z.leb_spec (WARNING_THRESHOLD svc) (Team.budgetUtilization team));
    destruct (Z.ltb_spec (Team.budgetUtilization team) (CRITICAL_THRESHOLD svc));
    destruct (Z.leb_spec (CRITICAL_THRESHOLD svc) (Team.budgetUtilization team));
    try lia; cbn [andb].
  + left. repeat split; try assumption; intros [_ ?]; discriminate.
  + right; left. repeat split; try assumption; intros [_ ?]; discriminate.
  + right; right. repeat split; try assumption; intros [_ ?]; discriminate.
- apply filter_length_split. intros team _.
  destruct (Z.ltb_spec (Team.budgetUtilization team) (WARNING_THRESHOLD svc));
    destruct (Z.leb_spec (WARNING_THRESHOLD svc) (Team.budgetUtilization team));
    destruct (Z.ltb_spec (Team.budgetUtilization team) (CRITICAL_THRESHOLD svc));
    destruct (Z.leb_spec (CRITICAL_THRESHOLD svc) (Team.budgetUtilization team));
    try lia; reflexivity.
- intros HC team. rewrite !filter_In. intros [Hin Hu]. split; [exact Hin|].
  apply Z.leb_le. apply Z.leb_le in Hu. lia.
Qed.

Lemma status_lists_partition_witness :
  let get := fun status =>
    BudgetReports.getTeamsByBudgetStatus defaults status sampleDb in
  (forall status,
     status <> "good"%string -> status <> "warning"%string ->
     status <> "critical"%string -> status <> "over-budget"%string ->
     get status = filter Team.isActive sampleDb) /\
  (forall team,
     In team (get "all"%string) ->
     (In team (get "good"%string) /\ ~ In team (get "warning"%string)
        /\ ~ In team (get "critical"%string)) \/
     (~ In team (get "good"%string) /\ In team (get "warning"%string)
        /\ ~ In team (get "critical"%string)) \/
     (~ In team (get "good"%string) /\ ~ In team (get "warning"%string)
        /\ In team (get "critical"%string))) /\
  (length (get "good"%string) + length (get "warning"%string)
   + length (get "critical"%string) = length (get "all"%string))%nat /\
  ((CRITICAL_THRESHOLD defaults <= 100)%Z ->
   incl (get "over-budget"%string) (get "critical"%string)).
Proof.
apply (@status_lists_partition defaults sampleDb).
vm_compute. discriminate.
Defined.

(** The status counts of the summary, as lengths of filters. *)
Lemma countStatus_fold (svc : BudgetService.t) (teams : list Team.t) :
  forall c,
  let u := Team.budgetUtilization in
  fold_left (BudgetReports.countStatus svc) teams c
  = {| BudgetReports.good :=
         BudgetReports.good c
         + length (filter (fun t => negb (100 <=? u t)%Z
                                    && negb (CRITICAL_THRESHOLD svc <=? u t)%Z
                                    && negb (WARNING_THRESHOLD svc <=? u t)%Z)
                          teams);
       BudgetReports.warning :=
         BudgetReports.warning c
         + length (filter (fun t => negb (100 <=? u t)%Z
                                    && negb (CRITICAL_THRESHOLD svc <=? u t)%Z
                                    && (WARNING_THRESHOLD svc <=? u t)%Z)
                          teams);
       BudgetReports.critical :=
         BudgetReports.critical c
         + length (filter (fun t => negb (100 <=? u t)%Z
                                    && (CRITICAL_THRESHOLD svc <=? u t)%Z)
                          teams);
       BudgetReports.over_budget :=
         BudgetReports.over_budget c
         + length (filter (fun t => (100 <=? u t)%Z) teams) |}%nat.
Proof.
induction teams as [|t teams IH]; intros c; cbv zeta in *.
- cbn. rewrite !Nat.add_0_r. destruct c; reflexivity.
- cbn [fold_left filter]. rewrite IH. unfold BudgetReports.countStatus.
  destruct (100 <=? Team.budgetUtilization t)%Z;
    [|destruct (CRITICAL_THRESHOLD svc <=? Team.budgetUtilization t)%Z;
      [|destruct (WARNING_THRESHOLD svc <=? Team.budgetUtilization t)%Z]];
    cbn [negb andb length BudgetReports.good BudgetReports.warning
           BudgetReports.critical BudgetReports.over_budget];
    f_equal; lia.
Qed.

Lemma filter_ext_length {A} (p q : A -> bool) (l : list A) :
  (forall x, p x = q x) -> length (filter p l) = length (filter q l).
Proof. intros H. rewrite (filter_ext p q H). reflexivity. Qed.

(** X12: the status counts of the budget summary add up to the number of
    active teams; the critical count is 0 whenever the critical threshold
    is 100 or more, as by default; and for thresholds with warning <=
    critical <= 100 the counts agree with the status lists: good and warning
    with the lists of those names, over_budget with the over-budget list,
    and critical plus over_budget with the critical list. *)
Theorem summary_counts_agree_with_lists
    (svc : BudgetService.t) (db : TeamDb.t) :
  let counts := BudgetReports.statusCounts (BudgetReports.getBudgetSummary svc db) in
  let get := fun status => BudgetReports.getTeamsByBudgetStatus svc status db in
  BudgetReports.totalTeams (BudgetReports.getBudgetSummary svc db)
  = length (filter Team.isActive db) /\
  (BudgetReports.good counts + BudgetReports.warning counts
   + BudgetReports.critical counts + BudgetReports.over_budget counts
   = length (filter Team.isActive db))%nat /\
  BudgetReports.over_budget counts = length (get "over-budget"%string) /\
  ((100 <= CRITICAL_THRESHOLD svc)%Z -> BudgetReports.critical counts = 0%nat) /\
  ((WARNING_THRESHOLD svc <= CRITICAL_THRESHOLD svc)%Z ->
   (CRITICAL_THRESHOLD svc <= 100)%Z ->
   BudgetReports.good counts = length (get "good"%string) /\
   BudgetReports.warning counts = length (get "warning"%string) /\
   (BudgetReports.critical counts + BudgetReports.over_budget counts
    = length (get "critical"%string))%nat).
Proof.
cbv zeta. unfold BudgetReports.getBudgetSummary, BudgetReports.getTeamsByBudgetStatus.
cbn [String.eqb Ascii.eqb Bool.eqb andb BudgetReports.statusCounts
       BudgetReports.totalTeams].
set (teams := filter Team.isActive db).
rewrite countStatus_fold. cbv zeta.
cbn [BudgetReports.good BudgetReports.warning BudgetReports.critical
       BudgetReports.over_budget Nat.add].
split; [reflexivity|]. split; [|split; [reflexivity|split]].
- clearbody teams. induction teams as [|t teams IH]; [reflexivity|].
  cbn [filter length].
  destruct (100 <=? Team.budgetUtilization t)%Z;
    destruct (CRITICAL_THRESHOLD svc <=? Team.budgetUtilization t)%Z;
    destruct (WARNING_THRESHOLD svc <=? Team.budgetUtilization t)%Z;
    cbn [negb andb length]; lia.
- intros HC. rewrite filter_none; [reflexivity|].
  apply Forall_forall. intros t _.
  destruct (Z.leb_spec 100 (Team.budgetUtilization t));
    destruct (Z.leb_spec (CRITICAL_THRESHOLD svc) (Team.budgetUtilization t));
    try reflexivity; lia.
- intros HWC HC. split; [|split].
  + apply filter_ext_length. intros t.
    destruct (Z.leb_spec 100 (Team.budgetUtilization t));
      destruct (Z.leb_spec (CRITICAL_THRESHOLD svc) (Team.budgetUtilization t));
      destruct (Z.leb_spec (WARNING_THRESHOLD svc) (Team.budgetUtilization t));
      destruct (Z.ltb_spec (Team.budgetUtilization t) (WARNING_THRESHOLD svc));
      try lia; reflexivity.
  + apply filter_ext_length. intros t.
    destruct (Z.leb_spec 100 (Team.budgetUtilization t));
      destruct (Z.leb_spec (CRITICAL_THRESHOLD svc) (Team.budgetUtilization t));
      destruct (Z.leb_spec (WARNING_THRESHOLD svc) (Team.budgetUtilization t));
      destruct (Z.ltb_spec (Team.budgetUtilization t) (CRITICAL_THRESHOLD svc));
      try lia; reflexivity.
  + clearbody teams. induction teams as [|t teams IH]; [reflexivity|].
    cbn [filter length].
    destruct (Z.leb_spec 100 (Team.budgetUtilization t));
      destruct (Z.leb_spec (CRITICAL_THRESHOLD svc) (Team.budgetUtilization t));
      cbn [negb andb length]; lia.
Qed.

Lemma summary_counts_agree_with_lists_witness :
  let counts :=
    BudgetReports.statusCounts (BudgetReports.getBudgetSummary defaults sampleDb) in
  let get := fun status =>
    BudgetReports.getTeamsByBudgetStatus defaults status sampleDb in
  BudgetReports.critical counts = 0%nat /\
  BudgetReports.good counts = length (get "good"%string) /\
  BudgetReports.warning counts = length (get "warning"%string) /\
  (BudgetReports.critical counts + BudgetReports.over_budget counts
   = length (get "critical"%string))%nat.
Proof.
cbv zeta.
pose proof (summary_counts_agree_with_lists defaults sampleDb) as H.
cbv zeta in H. destruct H as (_ & _ & _ & Hcrit & Hlists).
split; [apply Hcrit; vm_compute; discriminate|].
apply Hlists; vm_compute; discriminate.
Defined.

Lemma insertBySpent_perm (x : Team.t) (l : list Team.t) :
  Permutation (BudgetReports.insertBySpent x l) (x :: l).
Proof.
induction l as [|y rest IH]; cbn [BudgetReports.insertBySpent]; [reflexivity|].
destruct (leb _ _); [reflexivity|]. rewrite IH. apply perm_swap.
Qed.

Lemma sortBySpent_perm (l : list Team.t) :
  Permutation (BudgetReports.sortBySpent l) l.
Proof.
induction l as [|x l IH]; cbn [BudgetReports.sortBySpent fold_right];
  [reflexivity|].
rewrite insertBySpent_perm. apply perm_skip. exact IH.
Qed.

Lemma insertBySpent_sorted (x : Team.t) (l : list Team.t) :
  Sorted spendsAtLeast l -> Sorted spendsAtLeast (BudgetReports.insertBySpent x l).
Proof.
induction 1 as [|y rest Hs IH Hhd]; cbn [BudgetReports.insertBySpent].
- repeat constructor.
- destruct (leb (Team.totalSpent y) (Team.totalSpent x)) eqn:E.
  + apply leb_le in E. repeat constructor; assumption.
  + assert (Hyx : spendsAtLeast y x).
    { unfold spendsAtLeast. unfold leb in E. apply not_true_iff_false in E.
      rewrite Qle_bool_iff in E. apply Qlt_le_weak, Qnot_le_lt, E. }
    constructor; [exact IH|].
    destruct rest as [|z rest']; cbn [BudgetReports.insertBySpent].
    * constructor. exact Hyx.
    * destruct (leb (Team.totalSpent z) (Team.totalSpent x));
        constructor; [exact Hyx|]. inversion Hhd; assumption.
Qed.

Lemma sortBySpent_sorted (l : list Team.t) :
  StronglySorted spendsAtLeast (BudgetReports.sortBySpent l).
Proof.
apply Sorted_StronglySorted.
- intros a b c Hab Hbc. unfold spendsAtLeast in *. lra.
- induction l as [|x l IH]; cbn [BudgetReports.sortBySpent fold_right];
    [constructor|]. apply insertBySpent_sorted. exact IH.
Qed.

Lemma StronglySorted_split {A} (R : A -> A -> Prop) (n : nat) (l : list A) :
  StronglySorted R l ->
  StronglySorted R (firstn n l) /\
  forall x y, In x (firstn n l) -> In y (skipn n l) -> R x y.
Proof.
revert n. induction l as [|a l IH]; intros n Hs.
- rewrite firstn_nil, skipn_nil. split; [constructor|]. intros x y [].
- destruct n as [|n]; cbn [firstn skipn].
  + split; [constructor|]. intros x y [].
  + inversion Hs as [|? ? Hs' Hall]; subst.
    destruct (IH n Hs') as [Hf Hx]. rewrite Forall_forall in Hall.
    split.
    * constructor; [exact Hf|]. apply Forall_forall. intros x Hin.
      apply Hall. rewrite <- (firstn_skipn n l). apply in_or_app.
      left. exact Hin.
    * intros x y [<-|Hin] Hy.
      -- apply Hall. rewrite <- (firstn_skipn n l). apply in_or_app.
         right. exact Hy.
      -- apply Hx; assumption.
Qed.

(** X13: the top spending teams of the summary are at most five active
    teams, all five when there are that many, listed by descending total
    spent, each team at most as often as it is active, and no active team
    left out has spent more than one that is listed. *)
Theorem top_spending_teams_are_the_highest
    (svc : BudgetService.t) (db : TeamDb.t) :
  let top := BudgetReports.topSpendingTeams (BudgetReports.getBudgetSummary svc db) in
  length top = Nat.min 5 (length (filter Team.isActive db)) /\
  StronglySorted spendsAtLeast top /\
  exists others,
    Permutation (top ++ others) (filter Team.isActive db) /\
    forall listed other,
      In listed top -> In other others ->
      Team.totalSpent other <= Team.totalSpent listed.
Proof.
cbv zeta. unfold BudgetReports.getBudgetSummary.
cbn [BudgetReports.topSpendingTeams].
set (teams := filter Team.isActive db).
pose proof (sortBySpent_perm teams) as Hperm.
destruct (StronglySorted_split 5 (sortBySpent_sorted teams)) as [Hs Hx].
split; [rewrite length_firstn, (Permutation_length Hperm); reflexivity|].
split; [exact Hs|].
exists (skipn 5 (BudgetReports.sortBySpent teams)).
split; [rewrite firstn_skipn; exact Hperm|].
intros listed other Hl Ho. exact (Hx listed other Hl Ho).
Qed.


(** ** Forecast: grouping, recommendations, projection *)

Lemma fold_plus_total (l : list Q) : forall a,
  fold_left Qplus l a == a + total l.
Proof.
induction l as [|x l IH]; intros a; cbn [fold_left total]; [lra|].
rewrite IH. lra.
Qed.

Lemma sum_total (l : list Q) : Js.sum l == total l.
Proof. unfold Js.sum. rewrite fold_plus_total. lra. Qed.









(** X15: the recommendations of a forecast are at most three and never
    contradict each other: critical is given exactly for a projected
    utilization above 100, warning exactly for one at or above the warning
    threshold and at most 100, so never both; the info note exactly for an
    increasing trend of more than low strength; and the positive note
    exactly for a current utilization below 50 with a projected one below
    70, so never together with critical. *)
Theorem recommendations_are_consistent
    (svc : BudgetService.t) (projected : Z) (t : Trend) (current : Z) :
  let recs := generateRecommendations svc projected t current in
  (length recs <= 3)%nat /\ NoDup recs /\
  (In recCritical recs <-> (100 < projected)%Z) /\
  (In recWarning recs <->
   (projected <= 100)%Z /\ (WARNING_THRESHOLD svc <= projected)%Z) /\
  (In recInfo recs <->
   direction t = increasing /\ strength t <> low) /\
  (In recPositive recs <-> (current < 50)%Z /\ (projected < 70)%Z) /\
  ~ (In recCritical recs /\ In recWarning recs) /\
  ~ (In recCritical recs /\ In recPositive recs).
Proof.
cbv zeta. unfold generateRecommendations.
destruct (Z.ltb_spec 100 projected);
  destruct (Z.leb_spec (WARNING_THRESHOLD svc) projected);
  destruct (Z.ltb_spec current 50);
  destruct (Z.ltb_spec projected 70);
  destruct (direction t), (strength t);
  cbn [app andb length In];
  (split; [lia|]);
  (split; [repeat constructor; cbn [In]; intuition discriminate|]);
  repeat split; try lia; try congruence;
  try (intros H'; repeat destruct H' as [H'|H']; try discriminate H';
       try contradiction; try lia);
  try (intros [H1 H2]; try lia; try congruence);
  try (intros _; auto 6; fail);
  intuition (try discriminate; try lia; try congruence).
Qed.


Lemma total_nonneg (l : list Q) : Forall (fun x => 0 <= x) l -> 0 <= total l.
Proof.
induction 1 as [|x l Hx _ IH]; cbn [total]; lra.
Qed.

Lemma fold_amounts_total (exps : list Expense.t) :
  fold_left (fun sum e => sum + amount e) exps 0 == total (map amount exps).
Proof. rewrite fold_amounts, fold_plus_total. lra. Qed.

Lemma max_one_ge (x : Q) : 1 <= Js.max 1 x.
Proof.
unfold Js.max. destruct (ltb 1 x) eqn:E; [apply ltb_lt in E|]; lra.
Qed.

Lemma trend_direction_insufficient (totals : list Day) :
  direction (calculateSpendingTrend totals) = insufficient_data <->
  (length totals < 3)%nat.
Proof.
unfold calculateSpendingTrend.
destruct (Nat.ltb_spec (length totals) 3) as [H|H].
- split; [intros _; exact H|reflexivity].
- split; [|lia]. destruct (ltb _ _); cbn [direction];
    [destruct (ltb _ _)|]; discriminate.
Qed.

Lemma trend_direction_not_no_data (totals : list Day) :
  direction (calculateSpendingTrend totals) <> no_data.
Proof.
unfold calculateSpendingTrend.
destruct (_ <? _)%nat; [discriminate|].
destruct (ltb _ _); cbn [direction]; [destruct (ltb _ _)|]; discriminate.
Qed.

(** X16: the forecast of an active team.  Without recent approved expenses
    it projects no spending, keeps the current total and utilization and
    reports no over-budget risk, with low confidence and trend no_data.
    With expenses, the projected spending is the average daily spending
    times the period and the projected total adds it to the current total,
    so with non-negative amounts and period the projection is never below
    the current total; the over-budget risk is flagged exactly when the
    recommendations contain the critical one; confidence is low below 5
    expenses and high above 20; and the trend is insufficient_data exactly
    when the expenses fall on fewer than three calendar days. *)
Theorem forecast_projection
    (svc : BudgetService.t) (team : Team.t) (exps : list Expense.t)
    (days : Q) :
  Team.isActive team = true ->
  exists f,
    calculateBudgetForecast svc (Some team) exps days = Some f /\
    (exps = [] ->
     avgDailySpending f = None /\ projectedSpending f = 0 /\
     projectedTotal f = Team.totalSpent team /\
     projectedUtilization f = Team.budgetUtilization team /\
     isOverBudgetRisk f = false /\ Forecast.confidence f = confLow /\
     trend f = no_data /\ recommendations f = None) /\
    (exps <> [] ->
     exists avg recs,
       avgDailySpending f = Some avg /\ recommendations f = Some recs /\
       projectedSpending f = avg * days /\
       projectedTotal f = Team.totalSpent team + avg * days /\
       (Forall (fun e => 0 <= amount e) exps -> 0 <= days ->
        0 <= avg /\ Team.totalSpent team <= projectedTotal f) /\
       (isOverBudgetRisk f = true <-> In recCritical recs) /\
       (Forecast.confidence f = confLow <-> (length exps < 5)%nat) /\
       (Forecast.confidence f = confHigh <-> (20 < length exps)%nat) /\
       trend f <> no_data /\
       (trend f = insufficient_data <-> (daysWithData exps < 3)%nat)).
Proof.
intros Ha. unfold calculateBudgetForecast. rewrite Ha. cbn [negb].
destruct exps as [|e rest].
- cbn [length Nat.eqb]. eexists. split; [reflexivity|]. split.
  + intros _. cbn. repeat split.
  + intros H. contradiction.
- cbn [length Nat.eqb]. eexists. split; [reflexivity|]. split; [discriminate|].
  intros _. set (exps := e :: rest).
  change (S (length rest)) with (length exps).
  eexists _, _. cbn [avgDailySpending recommendations projectedSpending
                       projectedTotal isOverBudgetRisk Forecast.confidence trend].
  split; [reflexivity|]. split; [reflexivity|]. split; [reflexivity|].
  split; [reflexivity|].
  split; [|split; [|split; [|split; [|split]]]].
  + intros Hpos Hdays.
    assert (Havg : 0 <= fold_left (fun sum e0 => sum + amount e0) exps 0
                        / Js.max 1 (ofNat (length exps) / 2)).
    { apply div_nonneg.
      - rewrite fold_amounts_total. apply total_nonneg.
        apply Forall_forall. intros x Hx. apply in_map_iff in Hx.
        destruct Hx as (e' & <- & He'). rewrite Forall_forall in Hpos.
        apply Hpos. exact He'.
      - pose proof (max_one_ge (ofNat (length exps) / 2)). lra. }
    split; [exact Havg|].
    set (avg := fold_left _ exps 0 / _) in *.
    assert (0 <= avg * days) by (apply Qmult_le_0_compat; assumption).
    lra.
  + unfold generateRecommendations.
    set (p := round _).
    destruct (Z.ltb_spec 100 p).
    * split; [intros _; left; reflexivity|reflexivity].
    * split; [discriminate|]. intros Hin. exfalso.
      cbn [app] in Hin.
      repeat match type of Hin with
             | context [if ?b then _ else _] => destruct b
             | context [match direction ?x with _ => _ end] =>
                 destruct (direction x)
             | context [match strength ?x with _ => _ end] =>
                 destruct (strength x)
             end;
        cbn [app In] in Hin; intuition discriminate.
  + destruct (Nat.ltb_spec (length exps) 5) as [H|H].
    * split; [intros _; exact H|reflexivity].
    * split; [|lia]. destruct (20 <? length exps)%nat; discriminate.
  + destruct (Nat.ltb_spec (length exps) 5) as [H|H].
    * split; [discriminate|lia].
    * destruct (Nat.ltb_spec 20 (length exps)) as [H'|H'].
      -- split; [intros _; exact H'|reflexivity].
      -- split; [discriminate|lia].
  + apply trend_direction_not_no_data.
  + rewrite trend_direction_insufficient, groupExpensesByDay_length.
    reflexivity.
Qed.

Lemma forecast_projection_witness :
  exists f,
    calculateBudgetForecast defaults (Some (activeTeam 1000 400))
      [expenseOn 1 10 0; expenseOn 2 10 1; expenseOn 3 25 1] 30 = Some f /\
    ([expenseOn 1 10 0; expenseOn 2 10 1; expenseOn 3 25 1] = [] ->
     avgDailySpending f = None /\ projectedSpending f = 0 /\
     projectedTotal f = Team.totalSpent (activeTeam 1000 400) /\
     projectedUtilization f = Team.budgetUtilization (activeTeam 1000 400) /\
     isOverBudgetRisk f = false /\ Forecast.confidence f = confLow /\
     trend f = no_data /\ recommendations f = None) /\
    ([expenseOn 1 10 0; expenseOn 2 10 1; expenseOn 3 25 1] <> [] ->
     exists avg recs,
       avgDailySpending f = Some avg /\ recommendations f = Some recs /\
       projectedSpending f = avg * 30 /\
       projectedTotal f = Team.totalSpent (activeTeam 1000 400) + avg * 30 /\
       (Forall (fun e => 0 <= amount e)
               [expenseOn 1 10 0; expenseOn 2 10 1; expenseOn 3 25 1] ->
        0 <= 30 ->
        0 <= avg /\ Team.totalSpent (activeTeam 1000 400) <= projectedTotal f) /\
       (isOverBudgetRisk f = true <-> In recCritical recs) /\
       (Forecast.confidence f = confLow <-> (3 < 5)%nat) /\
       (Forecast.confidence f = confHigh <-> (20 < 3)%nat) /\
       trend f <> no_data /\
       (trend f = insufficient_data <->
        (daysWithData [expenseOn 1 10 0; expenseOn 2 10 1; expenseOn 3 25 1]
         < 3)%nat)).
Proof.
apply (@forecast_projection defaults (activeTeam 1000 400)
         [expenseOn 1 10 0; expenseOn 2 10 1; expenseOn 3 25 1] 30).
reflexivity.
Defined.


(** ** Category suggestion *)

Lemma fallback_confidence_cases (description : string) :
  let r := fallbackCategorySuggestion description in
  (r = noMatch /\
   Forall (fun entry => matchCount (toLowerCase description) entry = 0%nat)
          categoryKeywords) \/
  (exists entry,
     In entry categoryKeywords /\
     (0 < matchCount (toLowerCase description) entry)%nat /\
     AIService.category r = fst entry /\
     AIService.confidence r = entryConfidence (toLowerCase description) entry).
Proof.
cbv zeta.
destruct (fallbackScore_best (toLowerCase description) categoryKeywords)
  as [[Hall Hr]|(i & entry & Hi & Hpos & Hcat & Hconf & _)].
- left. split; assumption.
- right. exists entry. apply nth_error_In in Hi. repeat split; assumption.
Qed.

Lemma entryConfidence_values (desc : string) (entry : Category * list string) :
  (0 < matchCount desc entry)%nat ->
  entryConfidence desc entry == 5 # 10 \/
  entryConfidence desc entry == 7 # 10 \/
  entryConfidence desc entry == 8 # 10.
Proof.
intros Hpos. unfold entryConfidence.
destruct (matchCount desc entry) as [|[|[|n]]]; [lia| | |].
- left. reflexivity.
- right; left. reflexivity.
- right; right. unfold Js.min.
  assert (H3 : 3 <= ofNat (S (S (S n)))) by (apply (ofNat_le (a:=3)); lia).
  destruct (ltb _ _) eqn:E; [apply ltb_lt in E; lra|reflexivity].
Qed.

Lemma lowerChar_idempotent (c : ascii) : lowerChar (lowerChar c) = lowerChar c.
Proof.
destruct c as [[|] [|] [|] [|] [|] [|] [|] [|]]; reflexivity.
Qed.

Lemma toLowerCase_idempotent (s : string) :
  toLowerCase (toLowerCase s) = toLowerCase s.
Proof.
induction s as [|c s IH]; cbn [toLowerCase]; [reflexivity|].
rewrite lowerChar_idempotent, IH. reflexivity.
Qed.


(** X17: the keyword scorer's answer depends on the description only up to
    the case of its letters; its confidence is one of 0.1, 0.5, 0.7 and 0.8;
    and it answers [other] exactly when its confidence is 0.1, which is
    exactly when no keyword of any category occurs in the description. *)
Theorem fallback_confidence_levels (description : string) :
  let r := fallbackCategorySuggestion description in
  fallbackCategorySuggestion (toLowerCase description) = r /\
  (AIService.confidence r == 1 # 10 \/ AIService.confidence r == 5 # 10 \/
   AIService.confidence r == 7 # 10 \/ AIService.confidence r == 8 # 10) /\
  (AIService.category r = other <-> AIService.confidence r == 1 # 10) /\
  (AIService.category r = other <->
   forall c kws kw,
     In (c, kws) categoryKeywords -> In kw kws ->
     includes (toLowerCase description) kw = false).
Proof.
cbv zeta. split.
{ unfold fallbackCategorySuggestion. rewrite toLowerCase_idempotent.
  reflexivity. }
assert (Hnot_other : forall entry, In entry categoryKeywords ->
                                   fst entry <> other).
{ intros entry Hin. cbn in Hin.
  repeat (destruct Hin as [<-|Hin]; [discriminate|]). destruct Hin. }
destruct (fallback_confidence_cases description)
  as [[Hr Hall]|(entry & Hin & Hpos & Hcat & Hconf)].
- rewrite Hr. cbn [AIService.confidence AIService.category noMatch].
  split; [left; reflexivity|]. split; [split; reflexivity|].
  split; [|reflexivity]. intros _ c kws kw Hc Hkw.
  rewrite Forall_forall in Hall. specialize (Hall _ Hc).
  destruct (includes (toLowerCase description) kw) eqn:E; [|reflexivity].
  pose proof (some_match_count (toLowerCase description) c kws kw Hkw E).
  lia.
- rewrite Hcat, Hconf.
  pose proof (entryConfidence_values _ _ Hpos) as Hv.
  pose proof (entryConfidence_bounds _ _ Hpos) as [Hlo _].
  split; [right; exact Hv|].
  split; [split; [intros E; destruct (Hnot_other _ Hin E)|intros E; lra]|].
  split; [intros E; destruct (Hnot_other _ Hin E)|].
  intros Hnone. exfalso. destruct entry as [c kws].
  pose proof (no_match_count (toLowerCase description) categoryKeywords Hnone)
    as Hall.
  rewrite Forall_forall in Hall. rewrite (Hall _ Hin) in Hpos. lia.
Qed.

Lemma fallback_confidence_range (description : string) :
  1 # 10 <= AIService.confidence (fallbackCategorySuggestion description) /\
  AIService.confidence (fallbackCategorySuggestion description) <= 8 # 10.
Proof.
destruct (fallback_confidence_cases description)
  as [[Hr _]|(entry & _ & Hpos & _ & Hconf)].
- rewrite Hr. cbn. split; apply Qle_bool_imp_le; reflexivity.
- rewrite Hconf. pose proof (entryConfidence_bounds _ _ Hpos). lra.
Qed.

Lemma clamp_range (v : Q) : 0 <= Js.max 0 (Js.min 1 v) /\ Js.max 0 (Js.min 1 v) <= 1.
Proof.
unfold Js.max, Js.min.
destruct (ltb v 1) eqn:E1; [apply ltb_lt in E1|apply ltb_ge in E1];
  match goal with |- context [ltb 0 ?x] => destruct (ltb 0 x) eqn:E0 end;
  [apply ltb_lt in E0|apply ltb_ge in E0|apply ltb_lt in E0|apply ltb_ge in E0];
  lra.
Qed.

Lemma clamp_id (v : Q) : 0 <= v -> v <= 1 -> Js.max 0 (Js.min 1 v) == v.
Proof.
intros H0 H1. unfold Js.max, Js.min.
destruct (ltb v 1) eqn:E1; [apply ltb_lt in E1|apply ltb_ge in E1];
  match goal with |- context [ltb 0 ?x] => destruct (ltb 0 x) eqn:E0 end;
  [apply ltb_lt in E0|apply ltb_ge in E0|apply ltb_lt in E0|apply ltb_ge in E0];
  lra.
Qed.

Lemma clamp_keeps_tenth (v : Q) :
  1 # 10 <= v -> 1 # 10 <= Js.max 0 (Js.min 1 v).
Proof.
intros Hv. unfold Js.max, Js.min.
destruct (ltb v 1) eqn:E1; [apply ltb_lt in E1|apply ltb_ge in E1];
  match goal with |- context [ltb 0 ?x] => destruct (ltb 0 x) eqn:E0 end;
  [apply ltb_lt in E0|apply ltb_ge in E0|apply ltb_lt in E0|apply ltb_ge in E0];
  lra.
Qed.

(** X18: [suggestCategory] never fails.  Without a client, on a failed
    request or on content that is no JSON it answers what the keyword
    scorer answers.  On a parsed answer, a category of the list is returned
    as it is, with the classifier's confidence when that lies in [0, 1]; a
    category that is missing or not of the list is answered as [other],
    with a confidence of at least 0.1.  A confidence returned is a number
    unless the classifier's was none, and every number returned lies in
    [0, 1]. *)
Theorem suggestCategory_degrades_gracefully
    (openai : option Classifier.Outcome) (description : string) :
  let r := Classifier.suggestCategory openai description in
  let fb := fallbackCategorySuggestion description in
  ((openai = None \/ openai = Some Classifier.callFailed
    \/ openai = Some Classifier.nonJson) ->
   Classifier.category r = AIService.category fb /\
   Classifier.confidence r = Some (AIService.confidence fb)) /\
  (forall cat conf reason,
     openai = Some (Classifier.parsed cat conf reason) ->
     (forall c, Classifier.confidence r = Some c -> 0 <= c /\ c <= 1) /\
     (Classifier.confidence r = None <-> conf = None) /\
     (forall name c,
        cat = Some name -> Classifier.lookup Classifier.categories name = Some c ->
        Classifier.category r = c /\
        forall v, conf = Some v -> 0 <= v -> v <= 1 ->
                  exists v', Classifier.confidence r = Some v' /\ v' == v) /\
     ((cat = None \/
       exists name, cat = Some name /\
                    Classifier.lookup Classifier.categories name = None) ->
      Classifier.category r = other /\
      forall c, Classifier.confidence r = Some c -> 1 # 10 <= c)) /\
  (forall c, Classifier.confidence r = Some c -> 0 <= c /\ c <= 1).
Proof.
cbv zeta.
pose proof (fallback_confidence_range description) as [Hlo Hhi].
assert (Hfb : forall note c,
          Classifier.confidence
            (Classifier.ofFallback (fallbackCategorySuggestion description) note)
          = Some c -> 0 <= c /\ c <= 1).
{ intros note c [= <-]. lra. }
split; [|split].
- intros [ -> | [ -> | -> ] ]; split; reflexivity.
- intros cat conf reason ->. cbn [Classifier.suggestCategory].
  set (known := match cat with
                | Some name => Classifier.lookup Classifier.categories name
                | None => None
                end).
  assert (Hr : forall c,
            Classifier.confidence
              (let '(cat0, conf0, reason0) :=
                 match known with
                 | Some c0 => (c0, conf, reason)
                 | None =>
                     (other,
                      Classifier.maxNaN (1 # 10)
                        (option_map (fun v => v - (3 # 10)) conf),
                      (reason ++ " (Category corrected to " ++ Classifier.quote
                         ++ "other" ++ Classifier.quote ++ ")")%string)
                 end in
               {| Classifier.category := cat0;
                  Classifier.confidence :=
                    Classifier.maxNaN 0 (Classifier.minNaN 1 conf0);
                  Classifier.reasoning := reason0 |}) = Some c ->
            0 <= c /\ c <= 1).
  { intros c. destruct known, conf; cbn; intros [= <-]; apply clamp_range. }
  split; [exact Hr|]. split; [|split].
  + destruct known, conf; cbn; split; congruence.
  + intros name c -> Hl. unfold known. rewrite Hl. split; [reflexivity|].
    intros v -> H0 H1. cbn. eexists. split; [reflexivity|].
    apply clamp_id; assumption.
  + intros Hunk.
    assert (Hk : known = None).
    { unfold known. destruct Hunk as [ -> | (name & -> & Hl)]; [reflexivity|exact Hl]. }
    rewrite Hk. split; [reflexivity|].
    destruct conf as [v|]; cbn; [|discriminate]. intros c [= <-].
    apply clamp_keeps_tenth. unfold Js.max.
    destruct (ltb (1 # 10) (v - (3 # 10))) eqn:E;
      [apply ltb_lt in E|]; lra.
- intros c Hc. destruct openai as [[| |cat conf reason]|];
    try (eapply Hfb; exact Hc).
  cbn [Classifier.suggestCategory] in Hc.
  destruct (match cat with
            | Some name => Classifier.lookup Classifier.categories name
            | None => None
            end), conf; cbn in Hc; try discriminate;
    injection Hc as <-; apply clamp_range.
Qed.

Lemma suggestCategory_degrades_gracefully_witness :
  let r := Classifier.suggestCategory
             (Some (Classifier.parsed (Some "Travel"%string) (Some (9 # 10))
                                      "Air fare"%string))
             "Flight to client site"%string in
  Classifier.category r = other /\
  (forall c, Classifier.confidence r = Some c -> 1 # 10 <= c) /\
  (forall c, Classifier.confidence r = Some c -> 0 <= c /\ c <= 1).
Proof.
cbv zeta.
pose proof (suggestCategory_degrades_gracefully
              (Some (Classifier.parsed (Some "Travel"%string) (Some (9 # 10))
                                       "Air fare"%string))
              "Flight to client site"%string) as H.
cbv zeta in H. destruct H as (_ & Hparsed & Hrange).
destruct (Hparsed _ _ _ eq_refl) as (_ & _ & _ & Hunknown).
destruct Hunknown as [Hcat Hconf].
- right. exists "Travel"%string. split; reflexivity.
- split; [exact Hcat|]. split; [exact Hconf|exact Hrange].
Defined.


(** ** Text similarity and duplicates *)

#[local] Opaque lev.


Lemma cost_zero a b : cost a b = 0%nat -> a = b.
Proof.
unfold cost. destruct (Ascii.eqb_spec a b); [auto|discriminate].
Qed.

Lemma lev_zero str1 str2 : forall i j,
  lev str1 str2 i j = 0%nat ->
  i = j /\ forall k, (k < i)%nat -> charAt k str1 = charAt k str2.
Proof.
induction i as [|i IHi]; intros j H.
- rewrite lev_0 in H. subst j. split; [reflexivity|]. intros k Hk. lia.
- destruct j as [|j]; [rewrite lev_S_0 in H; discriminate|].
  rewrite lev_S_S in H. unfold min3 in H.
  assert (H0 : lev str1 str2 i j = 0%nat /\
               cost (charAt j str1) (charAt i str2) = 0%nat) by lia.
  destruct H0 as [Hl Hc]. destruct (IHi j Hl) as [-> Hk].
  split; [reflexivity|]. intros k Hlt.
  destruct (Nat.eq_dec k j) as [->|Hne]; [apply cost_zero; exact Hc|].
  apply Hk. lia.
Qed.

#[local] Transparent lev.

Lemma charAt_0 c s : charAt 0 (String c s) = c.
Proof. reflexivity. Qed.

Lemma charAt_S k c s : charAt (S k) (String c s) = charAt k s.
Proof. reflexivity. Qed.

Lemma string_ext (a : string) : forall b,
  String.length a = String.length b ->
  (forall k, (k < String.length a)%nat -> charAt k a = charAt k b) ->
  a = b.
Proof.
induction a as [|c a IH]; intros [|c' b] Hlen Hk; cbn in Hlen;
  try discriminate; [reflexivity|].
f_equal.
- specialize (Hk 0%nat). rewrite !charAt_0 in Hk. apply Hk. cbn. lia.
- apply IH; [lia|]. intros k Hlt. specialize (Hk (S k)).
  rewrite !charAt_S in Hk. apply Hk. cbn. lia.
Qed.

Lemma calculateTextSimilarity_sym (a b : string) :
  calculateTextSimilarity a b = calculateTextSimilarity b a.
Proof.
unfold calculateTextSimilarity.
rewrite !editDistance_lev, (lev_sym a b), (Nat.max_comm (String.length b)).
destruct (String.length a), (String.length b); reflexivity.
Qed.

Lemma calculateTextSimilarity_refl (a : string) :
  calculateTextSimilarity a a == 1.
Proof.
unfold calculateTextSimilarity.
rewrite editDistance_lev, lev_diag, Nat.max_id.
destruct (String.length a) as [|n] eqn:E; [reflexivity|].
cbn [Nat.eqb]. unfold ofNat. cbn [Z.of_nat inject_Z].
unfold Qeq. cbn. lia.
Qed.

Lemma ofNat_div_zero (d m : nat) :
  (0 < m)%nat -> ofNat d / ofNat m == 0 -> d = 0%nat.
Proof.
intros Hm H.
assert (Hpos : 0 < ofNat m) by (apply ofNat_pos; exact Hm).
assert (E : ofNat d == 0).
{ assert (E' : ofNat d == ofNat d / ofNat m * ofNat m) by (field; lra).
  rewrite E', H. lra. }
unfold ofNat, Qeq in E. cbn in E. lia.
Qed.


(** X19: the similarity is 1 only for identical strings: two strings have
    similarity 1 exactly when they are equal. *)
Theorem similarity_one_iff_equal (a b : string) :
  calculateTextSimilarity a b == 1 <-> a = b.
Proof.
split; [|intros ->; apply calculateTextSimilarity_refl].
unfold calculateTextSimilarity. rewrite editDistance_lev.
destruct (String.length b) as [|n] eqn:En.
- destruct (String.length a) as [|m] eqn:Em; cbn [Nat.eqb].
  + intros _. destruct a, b; try discriminate. reflexivity.
  + intros H. exfalso. revert H. unfold Qeq. cbn. lia.
- destruct (String.length a) as [|m] eqn:Em; cbn [Nat.eqb].
  + intros H. exfalso. revert H. unfold Qeq. cbn. lia.
  + intros H.
    assert (Hd : lev a b (S n) (S m) = 0%nat).
    { apply (@ofNat_div_zero _ (Nat.max (S m) (S n))); [lia|]. lra. }
    destruct (lev_zero a b _ _ Hd) as [Hnm Hk]. injection Hnm as ->.
    apply string_ext; [congruence|]. intros k Hlt. apply Hk. lia.
Qed.




(** X21: whether two expenses count as duplicates, and with what
    confidence, does not depend on which of them comes first; and two
    expenses of equal amount, with descriptions equal up to letter case and
    dates at most 7 days apart, always count as duplicates, with
    confidence 1. *)
Theorem duplicate_test_symmetric :
  (forall exp1 exp2,
     isDuplicate exp1 exp2 = isDuplicate exp2 exp1 /\
     descSimilarity exp1 exp2 = descSimilarity exp2 exp1) /\
  (forall exp1 exp2,
     amount exp1 == amount exp2 ->
     toLowerCase (description exp1) = toLowerCase (description exp2) ->
     (Z.abs (date exp1 - date exp2) <= 7 * msPerDay)%Z ->
     isDuplicate exp1 exp2 = true /\ descSimilarity exp1 exp2 == 1).
Proof.
split.
- intros exp1 exp2.
  assert (Hs : descSimilarity exp1 exp2 = descSimilarity exp2 exp1)
    by apply calculateTextSimilarity_sym.
  split; [|exact Hs]. unfold isDuplicate, timeDiff.
  rewrite Hs, (Qabs_Qminus (amount exp1)).
  replace (date exp1 - date exp2)%Z with (- (date exp2 - date exp1))%Z by lia.
  rewrite Z.abs_opp. reflexivity.
- intros exp1 exp2 Ha Hd Ht.
  assert (Hs : descSimilarity exp1 exp2 == 1).
  { unfold descSimilarity. rewrite Hd. apply calculateTextSimilarity_refl. }
  split; [|exact Hs]. apply isDuplicate_iff. split; [|split].
  + assert (E : amount exp1 - amount exp2 == 0) by lra.
    rewrite E. reflexivity.
  + exact Ht.
  + rewrite Hs. reflexivity.
Qed.

Lemma duplicate_test_symmetric_witness :
  let e1 := {| _id := 1; amount := 25 # 2; description := "Coffee beans";
               date := 0 |} in
  let e2 := {| _id := 2; amount := 50 # 4; description := "COFFEE beans";
               date := 432000000 |} in
  isDuplicate e1 e2 = true /\ descSimilarity e1 e2 == 1.
Proof.
apply (proj2 duplicate_test_symmetric
         {| _id := 1; amount := 25 # 2; description := "Coffee beans";
            date := 0 |}
         {| _id := 2; amount := 50 # 4; description := "COFFEE beans";
            date := 432000000 |}).
- reflexivity.
- reflexivity.
- vm_compute. discriminate.
Defined.

Lemma duplicatePairs_length (exps : list Expense.t) :
  (2 * length (duplicatePairs exps) <= length exps * (length exps - 1))%nat.
Proof.
induction exps as [|e rest IH]; [cbn; lia|].
cbn [duplicatePairs length]. rewrite length_app, length_map.
pose proof (filter_length_le (isDuplicate e) rest) as Hf.
destruct rest as [|e' rest']; [cbn in *; lia|].
cbn [length] in *. nia.
Qed.

(** X22: the report counts all findings and lists the first ten of them in
    detection order, the duplicate findings before any outlier finding; so
    once ten duplicates are found no outlier is listed.  There are at most
    n (n - 1) / 2 duplicate findings and at most n outlier findings for n
    expenses. *)
Theorem report_lists_first_ten (exps : list Expense.t) :
  let r := detectSuspiciousExpenses exps in
  totalExpensesChecked r = length exps /\
  suspiciousCount r = length (detected exps) /\
  suspicious r = firstn 10 (detected exps) /\
  length (suspicious r) = Nat.min 10 (suspiciousCount r) /\
  exists duplicates outliers,
    detected exps = (duplicates ++ outliers)%list /\
    Forall (fun f => ftype f = potential_duplicate) duplicates /\
    Forall (fun f => ftype f = high_amount_outlier) outliers /\
    (2 * length duplicates <= length exps * (length exps - 1))%nat /\
    (length outliers <= length exps)%nat /\
    ((10 <= length duplicates)%nat ->
     Forall (fun f => ftype f = potential_duplicate) (suspicious r)).
Proof.
cbv zeta. unfold detectSuspiciousExpenses.
cbn [totalExpensesChecked suspiciousCount suspicious].
split; [reflexivity|]. split; [reflexivity|]. split; [reflexivity|].
split; [apply length_firstn|].
exists (duplicatePairs exps), (outliersOf exps).
split; [apply detected_split|]. split; [apply duplicatePairs_type|].
split; [apply outliersOf_type|]. split; [apply duplicatePairs_length|].
split.
- unfold outliersOf. destruct (5 <? length exps)%nat; [|cbn; lia].
  rewrite length_map. apply filter_length_le.
- intros H10. rewrite detected_split, firstn_app.
  replace (10 - length (duplicatePairs exps))%nat with 0%nat by lia.
  cbn [firstn]. rewrite app_nil_r.
  pose proof (duplicatePairs_type exps) as Hd. rewrite Forall_forall in *.
  intros f Hf. apply Hd.
  rewrite <- (firstn_skipn 10 (duplicatePairs exps)). apply in_or_app.
  left. exact Hf.
Qed.

Lemma report_lists_first_ten_witness :
  exists duplicates outliers,
    detected sampleWindow = (duplicates ++ outliers)%list /\
    Forall (fun f => ftype f = potential_duplicate) duplicates /\
    Forall (fun f => ftype f = high_amount_outlier) outliers /\
    (2 * length duplicates <= length sampleWindow * (length sampleWindow - 1))%nat /\
    (length outliers <= length sampleWindow)%nat /\
    ((10 <= length duplicates)%nat ->
     Forall (fun f => ftype f = potential_duplicate)
            (suspicious (detectSuspiciousExpenses sampleWindow))).
Proof.
exact (proj2 (proj2 (proj2 (proj2 (report_lists_first_ten sampleWindow))))).
Defined.

Lemma filter_sorted_above (threshold : Q) (s : list Q) : forall k,
  StronglySorted Qle s -> (k < length s)%nat -> nth k s 0 <= threshold ->
  (length (filter (fun a => ltb threshold a) s) <= length s - S k)%nat.
Proof.
induction s as [|a s IH]; intros k Hs Hk Hle; [cbn in Hk; lia|].
inversion Hs as [|? ? Hs' Hall]; subst. rewrite Forall_forall in Hall.
cbn [filter length].
destruct k as [|k]; cbn [nth] in Hle.
- replace (ltb threshold a) with false by (symmetry; apply ltb_ge; exact Hle).
  pose proof (filter_length_le (fun a0 => ltb threshold a0) s). lia.
- cbn [length] in Hk.
  assert (Ha : a <= threshold).
  { apply Qle_trans with (nth k s 0); [|exact Hle].
    apply Hall, nth_In. lia. }
  replace (ltb threshold a) with false by (symmetry; apply ltb_ge; exact Ha).
  specialize (IH k Hs' ltac:(lia) Hle). lia.
Qed.

Lemma sorted_nth_le (s : list Q) : forall i k,
  StronglySorted Qle s -> (i <= k)%nat -> (k < length s)%nat ->
  nth i s 0 <= nth k s 0.
Proof.
induction s as [|a s IH]; intros i k Hs Hik Hk; [cbn in Hk; lia|].
inversion Hs as [|? ? Hs' Hall]; subst. rewrite Forall_forall in Hall.
destruct k as [|k]; [replace i with 0%nat by lia; lra|].
cbn [length] in Hk. destruct i as [|i]; cbn [nth].
- apply Hall, nth_In. lia.
- apply IH; [exact Hs'|lia|lia].
Qed.

Lemma filter_length_perm {A} (p : A -> bool) (l l' : list A) :
  Permutation l l' -> length (filter p l) = length (filter p l').
Proof.
induction 1 as [|x l l' _ IH|x y l|l l' l'' _ IH1 _ IH2]; cbn [filter].
- reflexivity.
- destruct (p x); cbn [length]; congruence.
- destruct (p x), (p y); reflexivity.
- congruence.
Qed.

Lemma filter_map_length {A B} (f : A -> B) (p : B -> bool) (l : list A) :
  length (filter (fun x => p (f x)) l) = length (filter p (map f l)).
Proof.
induction l as [|x l IH]; cbn [filter map]; [reflexivity|].
destruct (p (f x)); cbn [length]; congruence.
Qed.

(** X23: an expense flagged as an outlier has an amount above the upper
    quartile Q3 of the window, and at most a quarter of the expenses of a
    window are flagged: with n expenses, at most n - 1 - floor(3 n / 4). *)
Theorem outliers_are_a_minority (exps : list Expense.t) :
  let outliers := filter isOutlier (detected exps) in
  let q3 := nth (3 * length exps / 4) (sortAmounts (map amount exps)) 0 in
  (forall f, In f outliers ->
             exists e, In e exps /\ f = outlierFinding e /\ q3 < amount e) /\
  (length outliers <= length exps - 1 - 3 * length exps / 4)%nat /\
  (4 * length outliers <= length exps)%nat.
Proof.
cbv zeta. rewrite detected_outliers. unfold outliersOf.
destruct (Nat.ltb_spec 5 (length exps)) as [Hn|Hn];
  [|cbn [length In]; split; [intros f []|lia]].
rewrite outlierThreshold_quartiles. cbv zeta.
set (s := sortAmounts (map amount exps)).
set (k := (3 * length exps / 4)%nat).
assert (Hlen : length s = length exps)
  by (unfold s; rewrite (Permutation_length (sortAmounts_perm _)), length_map;
      reflexivity).
assert (Hk : (k < length s)%nat)
  by (rewrite Hlen; unfold k; apply Nat.Div0.div_lt_upper_bound; lia).
assert (Hq : nth (length exps / 4) s 0 <= nth k s 0).
{ apply sorted_nth_le; [apply sortAmounts_sorted| |exact Hk].
  unfold k. apply Nat.Div0.div_le_mono. lia. }
set (q1 := nth (length exps / 4) s 0) in *. set (q3 := nth k s 0) in *.
assert (Hthr : q3 <= q3 + (15 # 10) * (q3 - q1)) by lra.
split; [|].
- intros f Hf. apply in_map_iff in Hf. destruct Hf as (e & <- & He).
  apply filter_In in He. destruct He as [He Hlt]. apply ltb_lt in Hlt.
  exists e. split; [exact He|]. split; [reflexivity|]. lra.
- rewrite length_map.
  rewrite (filter_map_length amount
             (fun a => ltb (q3 + (15 # 10) * (q3 - q1)) a) exps).
  rewrite <- (filter_length_perm _ (sortAmounts_perm (map amount exps))).
  fold s.
  pose proof (@filter_sorted_above (q3 + (15 # 10) * (q3 - q1)) s k
                (sortAmounts_sorted _) Hk Hthr) as Hb.
  rewrite Hlen in Hb.
  assert (Hdiv : (3 * length exps < 4 * k + 4)%nat).
  { unfold k. pose proof (Nat.div_mod (3 * length exps) 4 ltac:(lia)).
    pose proof (Nat.mod_upper_bound (3 * length exps) 4 ltac:(lia)). lia. }
  split; lia.
Qed.

Lemma outliers_are_a_minority_witness :
  exists e, In e spikeWindow /\
            outlierFinding (expenseOn 7 500 3) = outlierFinding e /\
            nth (3 * length spikeWindow / 4)
                (sortAmounts (map amount spikeWindow)) 0 < amount e.
Proof.
apply (proj1 (outliers_are_a_minority spikeWindow)
             (outlierFinding (expenseOn 7 500 3))).
vm_compute. left. reflexivity.
Defined.


(** ** Spending data of a team *)


















(** ** Recipients of an alert *)

Lemma pushEach_filter (test : Recipients.Member -> bool)
    (members : list Recipients.Member) : forall emails,
  Recipients.pushEach test members emails
  = (emails ++ map Recipients.recipientOf (filter test members))%list.
Proof.
unfold Recipients.pushEach.
induction members as [|m rest IH]; intros emails; cbn [fold_left filter map].
- rewrite app_nil_r. reflexivity.
- rewrite IH. destruct (test m); [|reflexivity].
  cbn [map]. rewrite <- app_assoc. reflexivity.
Qed.

Lemma manager_is_member (m : Recipients.Member) :
  Recipients.isManagerToNotify m = true -> Recipients.isMemberToNotify m = true.
Proof.
unfold Recipients.isManagerToNotify, Recipients.isMemberToNotify.
destruct (Recipients.role m); [tauto|discriminate].
Qed.

Lemma no_member_no_manager (l : list Recipients.Member) :
  filter Recipients.isMemberToNotify l = [] ->
  filter Recipients.isManagerToNotify l = [].
Proof.
induction l as [|m rest IH]; cbn [filter]; [reflexivity|].
destruct (Recipients.isMemberToNotify m) eqn:E; [discriminate|].
destruct (Recipients.isManagerToNotify m) eqn:E'.
- apply manager_is_member in E'. congruence.
- exact IH.
Qed.

Lemma getTeamManagerEmails_cases
    (members : option (list Recipients.Member)) (senderEmail : option string) :
  Recipients.getTeamManagerEmails members senderEmail
  = match managersToNotify members, membersToNotify members with
    | _ :: _, _ => managersToNotify members
    | [], _ :: _ => membersToNotify members
    | [], [] => senderFallback senderEmail
    end.
Proof.
unfold Recipients.getTeamManagerEmails, managersToNotify, membersToNotify,
  senderFallback.
destruct members as [[|m rest]|]; cbn [membersOf length Nat.ltb Nat.leb];
  [destruct senderEmail as [s|]; [destruct (Recipients.truthy s)|];
   reflexivity
  | | destruct senderEmail as [s|]; [destruct (Recipients.truthy s)|];
      reflexivity].
change (0 <? S (length rest))%nat with true. cbv iota.
rewrite !pushEach_filter. cbn [app].
destruct (map Recipients.recipientOf
            (filter Recipients.isManagerToNotify (m :: rest))) as [|r rs] eqn:E1.
- cbn [length Nat.eqb andb]. rewrite ?pushEach_filter. cbn [app].
  destruct (map Recipients.recipientOf
              (filter Recipients.isMemberToNotify (m :: rest)))
    as [|r' rs']; cbn [length Nat.eqb]; [|reflexivity].
  destruct senderEmail as [s|]; [destruct (Recipients.truthy s)|];
    reflexivity.
- cbn [length Nat.eqb andb]. reflexivity.
Qed.

Lemma truthy_iff (s : string) : Recipients.truthy s = true <-> s <> ""%string.
Proof.
unfold Recipients.truthy. rewrite negb_true_iff.
split.
- intros E ->. discriminate.
- intros H. apply String.eqb_neq. exact H.
Qed.

(** X25: the recipients of an alert are chosen by priority: the active
    managers with an e-mail address, in member order; with none of them,
    all active members with an address; with none of those, the configured
    sender address under the name "Team Manager".  The list is empty only
    when no active member has an address and no sender address is set, and
    nobody inactive or without an address is ever listed. *)
Theorem recipients_by_priority
    (members : option (list Recipients.Member)) (senderEmail : option string) :
  let r := Recipients.getTeamManagerEmails members senderEmail in
  (managersToNotify members <> [] -> r = managersToNotify members) /\
  (managersToNotify members = [] -> membersToNotify members <> [] ->
   r = membersToNotify members) /\
  (membersToNotify members = [] -> r = senderFallback senderEmail) /\
  (r = [] <-> membersToNotify members = []
              /\ (senderEmail = None \/ senderEmail = Some ""%string)) /\
  (forall x, In x r ->
     (exists m, In m (membersOf members) /\ Recipients.isActive m = true /\
                Recipients.email m <> ""%string /\
                x = Recipients.recipientOf m)
     \/ (membersToNotify members = [] /\
         senderEmail = Some (Recipients.toEmail x) /\
         Recipients.toName x = "Team Manager"%string)).
Proof.
cbv zeta. rewrite getTeamManagerEmails_cases.
assert (Hsub : membersToNotify members = [] -> managersToNotify members = []).
{ unfold membersToNotify, managersToNotify. intros H.
  apply map_eq_nil in H. rewrite (no_member_no_manager _ H). reflexivity. }
assert (Hmem : forall test x,
          (forall m, test m = true -> Recipients.isMemberToNotify m = true) ->
          In x (map Recipients.recipientOf (filter test (membersOf members))) ->
          exists m, In m (membersOf members) /\ Recipients.isActive m = true /\
                    Recipients.email m <> ""%string /\
                    x = Recipients.recipientOf m).
{ intros test x Htest Hin. apply in_map_iff in Hin.
  destruct Hin as (m & <- & Hm). apply filter_In in Hm. destruct Hm as [Hm Ht].
  apply Htest in Ht. unfold Recipients.isMemberToNotify in Ht.
  apply andb_true_iff in Ht. destruct Ht as [Ha He].
  exists m. repeat split; try assumption. apply truthy_iff. exact He. }
destruct (managersToNotify members) as [|r rs] eqn:Emg.
- destruct (membersToNotify members) as [|r' rs'] eqn:Emb.
  + split; [intros Hn; contradiction|].
    split; [intros _ Hn; contradiction|].
    split; [reflexivity|]. split; [split|].
    * intros Hr. split; [reflexivity|]. unfold senderFallback in Hr.
      destruct senderEmail as [s|]; [|left; reflexivity].
      destruct (Recipients.truthy s) eqn:E; [discriminate|].
      right. f_equal. apply not_true_iff_false in E.
      rewrite truthy_iff in E. destruct (string_dec s "") as [Hs|Hs];
        [exact Hs|contradiction].
    * intros [_ [Hs|Hs]]; rewrite Hs; reflexivity.
    * intros x Hin. right. unfold senderFallback in Hin.
      destruct senderEmail as [s|]; [|destruct Hin].
      destruct (Recipients.truthy s); [|destruct Hin].
      destruct Hin as [Hx|[]]. subst x. cbn. auto.
  + split; [intros Hn; contradiction|].
    split; [reflexivity|].
    split; [discriminate|]. split; [split|].
    * discriminate.
    * intros [Hn _]. discriminate.
    * intros x Hin. left. rewrite <- Emb in Hin. unfold membersToNotify in Hin.
      apply (Hmem Recipients.isMemberToNotify x); [tauto|exact Hin].
- split; [reflexivity|].
  split; [discriminate|].
  split; [intros Hn; apply Hsub in Hn; discriminate|]. split; [split|].
  + discriminate.
  + intros [Hn _]. apply Hsub in Hn. discriminate.
  + intros x Hin. left. rewrite <- Emg in Hin. unfold managersToNotify in Hin.
    apply (Hmem Recipients.isManagerToNotify x);
      [apply manager_is_member|exact Hin].
Qed.

Lemma recipients_by_priority_witness :
  Recipients.getTeamManagerEmails (Some sampleMembers) None
  = managersToNotify (Some sampleMembers).
Proof.
apply (proj1 (recipients_by_priority (Some sampleMembers) None)).
discriminate.
Defined.
